(** * A terminal chat client that dispatches model tool calls

    Shallow embedding of [src/app.py] (GitHub tools) and [src/unified_app.py]
    (GitHub, Jira, Confluence and Slack tools): the static tool catalog, the
    operation handlers, the dispatcher [get_ai_response] and the CLI loop
    [main].

    Conventions of the embedding.
    - Python text is a [string]; case mapping and white space are the ASCII
      ones.
    - A value that arrives from the model (a decoded JSON value) is a
      [pyval]; Python's unbounded [int] is [Z], a JSON real is a binary64
      [float].
    - A Python computation is a function of the outside world that yields a
      [run]: the value it returns or the exception it raises ([outcome]), the
      world it leaves, the calls it made into the remote clients and what it
      wrote to the terminal.
    - The remote clients (Mistral, PyGithub, atlassian, slack_sdk), the file
      system, [json.loads], [repr] and [textwrap.wrap] are not code of this
      repository: they are the fields of the class [Runtime], and every
      theorem holds for every runtime. *)

From Stdlib Require Import String Ascii List ZArith Bool Lia Floats DecimalString.
Import ListNotations.
Open Scope string_scope.
Open Scope Z_scope.

Set Warnings "-register-all".

(** ** Python values and exceptions *)

Inductive pyval : Type :=
| VNone
| VBool (b : bool)
| VInt (z : Z)
| VFloat (f : float)
| VStr (s : string)
| VList (l : list pyval)
| VDict (d : list (string * pyval)).

(** Instances of [Exception]. [SlackApiError message error]: [message] is
    [str(e)] and [error] is [e.response['error']]. [PyError cls message] is an
    exception of any other class [cls], with [message] its [str(e)]. *)
Inductive exn : Type :=
| SlackApiError (message : string) (error : string)
| PyError (cls : string) (message : string).

Definition str_exn (e : exn) : string :=
  match e with
  | SlackApiError m _ => m
  | PyError _ m => m
  end.

Definition is_SlackApiError (e : exn) : bool :=
  match e with
  | SlackApiError _ _ => true
  | PyError _ _ => false
  end.

Inductive outcome (A : Type) : Type :=
| Returns (a : A)
| Raises (e : exn).
Arguments Returns {A} a.
Arguments Raises {A} e.

Definition type_name (v : pyval) : string :=
  match v with
  | VNone => "NoneType"
  | VBool _ => "bool"
  | VInt _ => "int"
  | VFloat _ => "float"
  | VStr _ => "str"
  | VList _ => "list"
  | VDict _ => "dict"
  end.

(** ** The string methods the programs use *)

Module Str.

Definition lower_char (c : ascii) : ascii :=
  let n := nat_of_ascii c in
  if (Nat.leb 65 n && Nat.leb n 90)%bool then ascii_of_nat (n + 32) else c.

Fixpoint lower (s : string) : string :=
  match s with
  | EmptyString => EmptyString
  | String c s' => String (lower_char c) (lower s')
  end.

Definition startswith (s p : string) : bool := String.prefix p s.

(** [str.isspace] on ASCII: tab, line feed, vertical tab, form feed, carriage
    return, the four separators 28..31 and the space. *)
Definition is_space (c : ascii) : bool :=
  let n := nat_of_ascii c in
  ((Nat.leb 9 n && Nat.leb n 13) || (Nat.leb 28 n && Nat.leb n 32))%bool.

Fixpoint lstrip (s : string) : string :=
  match s with
  | EmptyString => EmptyString
  | String c s' => if is_space c then lstrip s' else s
  end.

Fixpoint rstrip (s : string) : string :=
  match s with
  | EmptyString => EmptyString
  | String c s' =>
      let r := rstrip s' in
      if (is_space c && String.eqb r "")%bool then EmptyString else String c r
  end.

Definition strip (s : string) : string := rstrip (lstrip s).

(** [s.lstrip(chars)] for a one-character [chars]. *)
Fixpoint lstrip_char (ch : ascii) (s : string) : string :=
  match s with
  | EmptyString => EmptyString
  | String c s' => if Ascii.eqb c ch then lstrip_char ch s' else s
  end.

(** [s.split(sep, maxsplit)] for a non-empty [sep]; [maxsplit = None] is the
    unbounded split. [skip] counts the characters of a separator that was just
    matched and is still to be passed over. *)
Fixpoint split_go (sep : string) (maxsplit : option nat) (skip : nat)
    (cur s : string) : list string :=
  match s with
  | EmptyString => [cur]
  | String c s' =>
      match skip with
      | S k => split_go sep maxsplit k cur s'
      | O =>
          let may := match maxsplit with Some O => false | _ => true end in
          if (may && String.prefix sep s)%bool
          then cur :: split_go sep (option_map Nat.pred maxsplit)
                        (Nat.pred (String.length sep)) EmptyString s'
          else split_go sep maxsplit O (cur ++ String c EmptyString) s'
      end
  end.

Definition split (s sep : string) (maxsplit : option nat) : list string :=
  split_go sep maxsplit O EmptyString s.

(** [s.split()]: the maximal runs of characters that are not white space. *)
Fixpoint split_ws_go (cur s : string) : list string :=
  match s with
  | EmptyString => if String.eqb cur "" then [] else [cur]
  | String c s' =>
      if is_space c
      then (if String.eqb cur "" then split_ws_go "" s'
            else cur :: split_ws_go "" s')
      else split_ws_go (cur ++ String c EmptyString) s'
  end.

Definition split_ws (s : string) : list string := split_ws_go "" s.

(** [s.replace(old, new)] for a non-empty [old]. *)
Fixpoint replace_go (old new : string) (skip : nat) (s : string) : string :=
  match s with
  | EmptyString => EmptyString
  | String c s' =>
      match skip with
      | S k => replace_go old new k s'
      | O =>
          if String.prefix old s
          then new ++ replace_go old new (Nat.pred (String.length old)) s'
          else String c (replace_go old new O s')
      end
  end.

Definition replace (s old new : string) : string := replace_go old new O s.

(** ["\n".join(parts)] *)
Definition join_lines (parts : list string) : string :=
  String.concat (String (ascii_of_nat 10) EmptyString) parts.

(** [os.path.basename] on a POSIX path: what follows the last slash. *)
Fixpoint basename_go (cur s : string) : string :=
  match s with
  | EmptyString => cur
  | String c s' =>
      if Ascii.eqb c "/" then basename_go "" s'
      else basename_go (cur ++ String c EmptyString) s'
  end.

Definition basename (s : string) : string := basename_go "" s.

Definition of_Z (z : Z) : string := NilZero.string_of_int (Z.to_int z).

Definition digit_of (c : ascii) : option Z :=
  let n := nat_of_ascii c in
  if (Nat.leb 48 n && Nat.leb n 57)%bool then Some (Z.of_nat (n - 48)) else None.

(** The digits of a decimal literal as [int()] reads them: single underscores
    are allowed between digits. *)
Fixpoint int_digits (acc : Z) (after_digit : bool) (s : string) : option Z :=
  match s with
  | EmptyString => if after_digit then Some acc else None
  | String c s' =>
      if Ascii.eqb c "_"
      then (if after_digit then int_digits acc false s' else None)
      else match digit_of c with
           | Some d => int_digits (10 * acc + d) true s'
           | None => None
           end
  end.

(** [int(s)]: surrounding white space, an optional sign, decimal digits;
    anything else is a [ValueError]. *)
Definition to_int (s : string) : outcome Z :=
  let t := strip s in
  let '(sign, body) :=
    match t with
    | String "-" r => (-1, r)
    | String "+" r => (1, r)
    | _ => (1, t)
    end in
  match int_digits 0 false body with
  | Some n => Returns (sign * n)
  | None =>
      Raises (PyError "ValueError"
                ("invalid literal for int() with base 10: '" ++ s ++ "'"))
  end.

End Str.

(** ** Built-in operations on dynamic values *)

(** [str(v)] as an f-string applies it. The text of a real, a list or a dict
    is left to [repr], a field of the runtime. *)
Definition py_str (repr : pyval -> string) (v : pyval) : string :=
  match v with
  | VStr s => s
  | VInt z => Str.of_Z z
  | VBool true => "True"
  | VBool false => "False"
  | VNone => "None"
  | _ => repr v
  end.

Definition no_attribute (v : pyval) (attr : string) : exn :=
  PyError "AttributeError"
    ("'" ++ type_name v ++ "' object has no attribute '" ++ attr ++ "'").

(** [v.startswith(p)] *)
Definition py_startswith (v : pyval) (p : string) : outcome bool :=
  match v with
  | VStr s => Returns (Str.startswith s p)
  | _ => Raises (no_attribute v "startswith")
  end.

(** [v.lstrip('#')] *)
Definition py_lstrip_hash (v : pyval) : outcome pyval :=
  match v with
  | VStr s => Returns (VStr (Str.lstrip_char "#" s))
  | _ => Raises (no_attribute v "lstrip")
  end.

(** [min(v, 200)]: the first argument unless [200 < v]. *)
Definition py_min_200 (v : pyval) : outcome pyval :=
  match v with
  | VInt z => Returns (VInt (if 200 <? z then 200 else z))
  | VBool b => Returns (VBool b)
  | VFloat f => Returns (if PrimFloat.ltb 200%float f then VInt 200 else VFloat f)
  | _ =>
      Raises (PyError "TypeError"
                ("'<' not supported between instances of 'int' and '"
                 ++ type_name v ++ "'"))
  end.

(** [os.path.basename(v)] *)
Definition py_basename (v : pyval) : outcome string :=
  match v with
  | VStr s => Returns (Str.basename s)
  | _ =>
      Raises (PyError "TypeError"
                ("expected str, bytes or os.PathLike object, not "
                 ++ type_name v))
  end.

(** ** Calling a function with [**kwargs] *)

(** The parameters of a [def], in order, each with its default if it has
    one. *)
Definition signature : Type := list (string * option pyval).

Fixpoint assoc {A : Type} (k : string) (l : list (string * A)) : option A :=
  match l with
  | [] => None
  | (k', a) :: l' => if String.eqb k k' then Some a else assoc k l'
  end.

Definition has_key {A : Type} (k : string) (l : list (string * A)) : bool :=
  match assoc k l with Some _ => true | None => false end.

(** The parameters without a default that [kw] does not supply. *)
Definition missing_args (sig : signature) (kw : list (string * pyval))
  : list string :=
  map fst
    (filter (fun p => match snd p with
                      | None => negb (has_key (fst p) kw)
                      | Some _ => false
                      end) sig).

(** The first key of [kw] that names no parameter. *)
Definition unexpected_kwarg (sig : signature) (kw : list (string * pyval))
  : option string :=
  match filter (fun p => negb (has_key (fst p) sig)) kw with
  | [] => None
  | p :: _ => Some (fst p)
  end.

Definition quoted (s : string) : string := "'" ++ s ++ "'".

(** The arguments as the body sees them: the keyword's value, else the
    parameter's default. *)
Definition bound_arg (sig : signature) (kw : list (string * pyval))
    (p : string) : pyval :=
  match assoc p kw with
  | Some v => v
  | None => match assoc p sig with
            | Some (Some d) => d
            | _ => VNone
            end
  end.

(** [f] applied to the keyword arguments [args], up to the entry into the
    body of [f]: a [TypeError] when
    [args] is no mapping, names a parameter [f] does not have, or leaves a
    parameter without default unset. *)
Definition bind_kwargs (fname : string) (sig : signature) (args : pyval)
  : outcome (string -> pyval) :=
  match args with
  | VDict kw =>
      match unexpected_kwarg sig kw with
      | Some k =>
          Raises (PyError "TypeError"
                    (fname ++ "() got an unexpected keyword argument "
                     ++ quoted k))
      | None =>
          match missing_args sig kw with
          | [] => Returns (bound_arg sig kw)
          | ms =>
              Raises (PyError "TypeError"
                        (fname ++ "() missing required positional arguments: "
                         ++ String.concat ", " (map quoted ms)))
          end
      end
  | _ =>
      Raises (PyError "TypeError"
                (fname ++ "() argument after ** must be a mapping, not "
                 ++ type_name args))
  end.

(** ** The tool catalog's descriptors *)

Record Property : Type := {
  prop_name : string;
  prop_type : string;
  prop_description : string;
  prop_default : option pyval
}.

(** One entry of [tools]: the ["function"] object of the entry. [required] is
    [None] where the entry has no ["required"] key. *)
Record ToolDescriptor : Type := {
  name : string;
  description : string;
  properties : list Property;
  required : option (list string)
}.

Definition required_params (t : ToolDescriptor) : list string :=
  match required t with
  | Some l => l
  | None => []
  end.

(** ** What the remote clients answer *)

Module Sdk.

(** Mistral: [response.choices[i].message] with its [tool_calls] attribute
    (missing, [None] or a list) and its [content] ([None] or text). *)
Record FunctionCall : Type := { fn_name : string; arguments : string }.
Record ToolCall : Type := { function : FunctionCall }.

Inductive tool_calls_attr : Type :=
| NoAttribute
| IsNone
| Calls (l : list ToolCall).

Record AssistantMessage : Type := {
  tool_calls : tool_calls_attr;
  content : option string
}.
Record Choice : Type := { message : AssistantMessage }.
Record ChatResponse : Type := { choices : list Choice }.

(** PyGithub *)
Record GhUser : Type := { login : string }.
Record GhRepo : Type := {
  html_url : string;
  repo_name : string;
  repo_description : option string
}.
Record GhIssue : Type := {
  issue_url : string;
  number : Z;
  title : string
}.

(** atlassian-python-api: the dicts it returns *)
Record JiraIssue : Type := { issue_key : string }.
Record JiraProject : Type := {
  project_key : string;
  project_name : option string
}.
Record ConfluenceSpace : Type := { space_key : string; space_name : string }.

(** slack_sdk: a response with its ['ok'] and ['error'] entries and the
    entries the method adds. *)
Record SlackResponse (A : Type) : Type := {
  ok : bool;
  error : option string;
  body : A
}.
Arguments ok {A} _.
Arguments error {A} _.
Arguments body {A} _.

Record SlackMessage : Type := {
  msg_ts : string;
  msg_user : option string;
  msg_text : string
}.
Record SlackNamed : Type := { sl_name : string; sl_id : string }.
Record SlackProfile : Type := {
  real_name : option string;
  display_name : option string;
  email : option string;
  profile_title : option string;
  status_text : option string
}.

End Sdk.
Import Sdk.

(** The calls the programs make into the world outside, with the arguments
    they pass. *)
Inductive request : Type :=
| chat_complete (model prompt : string) (tools : list ToolDescriptor)
    (tool_choice : string)
| gh_get_user (login : option pyval)
| user_create_repo (u : GhUser) (name description private : pyval)
| user_get_repos (u : GhUser)
| gh_get_repo (full_name : pyval)
| repo_create_issue (r : GhRepo) (title body : pyval)
| repo_get_issues (r : GhRepo) (state : string)
| repo_create_file (r : GhRepo) (path : string) (message : pyval)
    (content branch : string)
| open_read (path : pyval)
| jira_create_issue (project summary description issuetype : pyval)
| jira_projects
| confluence_create_page (space title body : pyval) (representation : string)
| confluence_get_all_spaces
| conversations_open (users : list pyval)
| chat_postMessage (channel : pyval) (thread_ts : option pyval) (text : pyval)
| files_upload (channels file : pyval)
| conversations_replies (channel ts : pyval)
| users_list (limit : pyval)
| users_info (user : pyval)
| conversations_list (limit : pyval)
| reactions_add (channel timestamp name : pyval)
| conversations_history (channel limit : pyval).

Definition response (r : request) : Type :=
  match r with
  | chat_complete _ _ _ _ => ChatResponse
  | gh_get_user _ => GhUser
  | user_create_repo _ _ _ _ => GhRepo
  | user_get_repos _ => list GhRepo
  | gh_get_repo _ => GhRepo
  | repo_create_issue _ _ _ => GhIssue
  | repo_get_issues _ _ => list GhIssue
  | repo_create_file _ _ _ _ _ => unit
  | open_read _ => string
  | jira_create_issue _ _ _ _ => JiraIssue
  | jira_projects => list JiraProject
  | confluence_create_page _ _ _ _ => unit
  | confluence_get_all_spaces => list ConfluenceSpace
  | conversations_open _ => SlackResponse string
  | chat_postMessage _ _ _ => SlackResponse string
  | files_upload _ _ => unit
  | conversations_replies _ _ => SlackResponse (list SlackMessage)
  | users_list _ => SlackResponse (list SlackNamed)
  | users_info _ => SlackResponse SlackProfile
  | conversations_list _ => SlackResponse (list SlackNamed)
  | reactions_add _ _ _ => SlackResponse unit
  | conversations_history _ _ => SlackResponse (list SlackMessage)
  end.

Definition is_model_call (r : request) : bool :=
  match r with
  | chat_complete _ _ _ _ => true
  | _ => false
  end.

(** ** The runtime and the machine *)

Class Runtime : Type := {
  world : Type;
  remote : forall r : request, world -> outcome (response r) * world;
  json_loads : string -> outcome pyval;
  repr : pyval -> string;
  repr_response : ChatResponse -> string;
  textwrap_wrap : string -> list string
}.

(** One entry of the call log: the request, and the exception if the call
    raised. *)
Record event : Type := { ev_request : request; ev_raised : option exn }.

Section Machine.

Context {RT : Runtime}.

(** What running a computation from a world yields: its value or the
    exception it raises, the world it leaves, the calls it made and the text
    it wrote, both in order. *)
Record run (A : Type) : Type := {
  value : outcome A;
  final : world;
  calls : list event;
  output : list string
}.
Arguments value {A} _.
Arguments final {A} _.
Arguments calls {A} _.
Arguments output {A} _.

Definition M (A : Type) : Type := world -> run A.

Definition lift {A : Type} (o : outcome A) : M A :=
  fun w => {| value := o; final := w; calls := []; output := [] |}.

Definition ret {A : Type} (a : A) : M A := lift (Returns a).

Definition raise {A : Type} (e : exn) : M A := lift (Raises e).

(** [k] after [m], with the calls and the text of both. *)
Definition and_then {A B : Type} (r : run A) (k : world -> run B) : run B :=
  let r' := k (final r) in
  {| value := value r';
     final := final r';
     calls := calls r ++ calls r';
     output := output r ++ output r' |}.

Definition bind {A B : Type} (m : M A) (k : A -> M B) : M B :=
  fun w =>
    let r := m w in
    match value r with
    | Returns a => and_then r (k a)
    | Raises e =>
        {| value := Raises e; final := final r; calls := calls r;
           output := output r |}
    end.

(** [try: body  except ... as e: handler e]; a handler re-raises what its
    clauses do not cover. *)
Definition try_except {A : Type} (body : M A) (handler : exn -> M A) : M A :=
  fun w =>
    let r := body w in
    match value r with
    | Returns _ => r
    | Raises e => and_then r (handler e)
    end.

Definition raised_of {A : Type} (o : outcome A) : option exn :=
  match o with
  | Returns _ => None
  | Raises e => Some e
  end.

(** A call into a remote client: the world answers and the call is logged. *)
Definition call (r : request) : M (response r) :=
  fun w =>
    let o := remote r w in
    {| value := fst o;
       final := snd o;
       calls := [{| ev_request := r; ev_raised := raised_of (fst o) |}];
       output := [] |}.

(** [print(text, end="")] and [print(text)] *)
Definition write (text : string) : M unit :=
  fun w => {| value := Returns tt; final := w; calls := []; output := [text] |}.

Definition newline : string := String (ascii_of_nat 10) EmptyString.

Definition dquote : string := String (ascii_of_nat 34) EmptyString.

Definition print (text : string) : M unit := write (text ++ newline).

(** [fn] applied to the keyword arguments [args], for a function with the
    signature [sig] and the body
    [body]. *)
Definition call_kwargs (fname : string) (sig : signature) (args : pyval)
    (body : (string -> pyval) -> M string) : M string :=
  match bind_kwargs fname sig args with
  | Returns a => body a
  | Raises e => raise e
  end.

End Machine.

Arguments value {RT A} _.
Arguments final {RT A} _.
Arguments calls {RT A} _.
Arguments output {RT A} _.

Notation "x <- c1 ;; c2" := (bind c1 (fun x => c2))
  (at level 61, c1 at next level, right associativity).
Notation "c1 ;;; c2" := (bind c1 (fun _ => c2))
  (at level 61, right associativity).

(** ** Helpers shared by the two programs *)

Section Common.

Context {RT : Runtime}.

(** [except Exception as e:] covers every exception of the model;
    [except SlackApiError as e:] alone lets every other one through. *)
Definition except_SlackApiError {A : Type} (h : exn -> M A) (e : exn) : M A :=
  if is_SlackApiError e then h e else raise e.

(** [x or default] for an optional text: [None] and the empty text are
    false. *)
Definition or_text (x : option string) (default : string) : string :=
  match x with
  | None => default
  | Some s => if String.eqb s "" then default else s
  end.

(** [d.get(key, default)] *)
Definition get_text (x : option string) (default : string) : string :=
  match x with
  | None => default
  | Some s => s
  end.

(** [l[i]] *)
Definition index {A : Type} (l : list A) (i : nat) : outcome A :=
  match nth_error l i with
  | Some a => Returns a
  | None => Raises (PyError "IndexError" "list index out of range")
  end.

(** [hasattr(message, 'tool_calls') and message.tool_calls] as a condition:
    a missing attribute, [None] and the empty list are false. *)
Definition requests_tool_call (m : AssistantMessage) : bool :=
  match tool_calls m with
  | NoAttribute => false
  | IsNone => false
  | Calls [] => false
  | Calls (_ :: _) => true
  end.

(** [message.tool_calls], the list that is then indexed. *)
Definition tool_call_list (m : AssistantMessage) : list ToolCall :=
  match tool_calls m with
  | Calls l => l
  | _ => []
  end.

(** [user_input.lower() in ['quit', 'exit', 'q']] *)
Definition is_quit (user_input : string) : bool :=
  existsb (String.eqb (Str.lower user_input)) ["quit"; "exit"; "q"].

Definition str (v : pyval) : string := py_str repr v.

Definition prop (n t d : string) : Property :=
  {| prop_name := n; prop_type := t; prop_description := d;
     prop_default := None |}.

Definition prop_default_of (n t d : string) (v : pyval) : Property :=
  {| prop_name := n; prop_type := t; prop_description := d;
     prop_default := Some v |}.

End Common.

(** ** [src/unified_app.py] *)

Module Unified.

(** The catalog [tools], in the order of the source. *)
Definition tools : list ToolDescriptor := [
  {| name := "create_repository";
     description := "Creates a new GitHub repository";
     properties := [
       prop "name" "string" "Name of the repository";
       prop "description" "string" "Description of the repository";
       prop "private" "boolean" "Whether the repository should be private" ];
     required := Some ["name"] |};
  {| name := "list_repositories";
     description := "Lists all repositories for a GitHub user";
     properties := [ prop "username" "string" "GitHub username" ];
     required := Some ["username"] |};
  {| name := "create_jira_issue";
     description := "Creates a new Jira issue";
     properties := [
       prop "project_key" "string" "Project key (e.g., 'PROJ')";
       prop "summary" "string" "Issue summary/title";
       prop "description" "string" "Issue description";
       prop_default_of "issue_type" "string" "Type of issue" (VStr "Task") ];
     required := Some ["project_key"; "summary"] |};
  {| name := "list_jira_projects";
     description := "Lists all available Jira projects";
     properties := [];
     required := None |};
  {| name := "create_confluence_page";
     description := "Creates a new Confluence page";
     properties := [
       prop "space_key" "string" "Space key";
       prop "title" "string" "Page title";
       prop "content" "string" "Page content" ];
     required := Some ["space_key"; "title"; "content"] |};
  {| name := "list_confluence_spaces";
     description := "Lists all available Confluence spaces";
     properties := [];
     required := None |};
  {| name := "send_slack_message";
     description := "Sends a message to a Slack channel or DM";
     properties := [
       prop "channel" "string" "Channel name (e.g., '#random') or ID";
       prop "text" "string" "Message text to send" ];
     required := Some ["channel"; "text"] |};
  {| name := "upload_file_to_slack";
     description := "Uploads a file to Slack";
     properties := [
       prop "channels" "string" "Channel name (e.g., '#random') or ID";
       prop "filepath" "string" "Local path to the file" ];
     required := Some ["channels"; "filepath"] |};
  {| name := "slack_get_thread_replies";
     description := "Get all replies in a message thread";
     properties := [
       prop "channel_id" "string" "The channel containing the thread";
       prop "thread_ts" "string" "Timestamp of the parent message" ];
     required := Some ["channel_id"; "thread_ts"] |};
  {| name := "slack_get_users";
     description := "Get list of workspace users";
     properties := [
       prop_default_of "limit" "integer" "Maximum users to return" (VInt 100) ];
     required := None |};
  {| name := "slack_get_user_profile";
     description := "Get detailed profile information for a specific user";
     properties := [ prop "user_id" "string" "The user's ID" ];
     required := Some ["user_id"] |};
  {| name := "slack_list_channels";
     description := "List public channels in the workspace";
     properties := [
       prop_default_of "limit" "integer"
         "Maximum number of channels to return (max: 200)" (VInt 100) ];
     required := None |};
  {| name := "slack_post_message";
     description := "Post a new message to a Slack channel";
     properties := [
       prop "channel_id" "string" "The ID of the channel to post to";
       prop "text" "string" "The message text to post" ];
     required := Some ["channel_id"; "text"] |};
  {| name := "slack_reply_to_thread";
     description := "Reply to a specific message thread";
     properties := [
       prop "channel_id" "string" "The channel containing the thread";
       prop "thread_ts" "string" "Timestamp of the parent message";
       prop "text" "string" "The reply text" ];
     required := Some ["channel_id"; "thread_ts"; "text"] |};
  {| name := "slack_add_reaction";
     description := "Add an emoji reaction to a message";
     properties := [
       prop "channel_id" "string" "The channel containing the message";
       prop "timestamp" "string" "Message timestamp to react to";
       prop "reaction" "string" "Emoji name without colons" ];
     required := Some ["channel_id"; "timestamp"; "reaction"] |};
  {| name := "slack_get_channel_history";
     description := "Get recent messages from a channel";
     properties := [
       prop "channel_id" "string" "The channel ID";
       prop_default_of "limit" "integer" "Number of messages to retrieve"
         (VInt 10) ];
     required := Some ["channel_id"] |}
].

(** The [def] lines of the handlers. *)
Definition sig_create_repository : signature :=
  [("name", None); ("description", Some (VStr ""));
   ("private", Some (VBool false))].
Definition sig_list_repositories : signature := [("username", None)].
Definition sig_create_jira_issue : signature :=
  [("project_key", None); ("summary", None); ("description", Some (VStr ""));
   ("issue_type", Some (VStr "Task"))].
Definition sig_list_jira_projects : signature := [].
Definition sig_create_confluence_page : signature :=
  [("space_key", None); ("title", None); ("content", None)].
Definition sig_list_confluence_spaces : signature := [].
Definition sig_send_slack_message : signature :=
  [("channel", None); ("text", None)].
Definition sig_upload_file_to_slack : signature :=
  [("channels", None); ("filepath", None)].
Definition sig_slack_get_thread_replies : signature :=
  [("channel_id", None); ("thread_ts", None)].
Definition sig_slack_get_users : signature := [("limit", Some (VInt 100))].
Definition sig_slack_get_user_profile : signature := [("user_id", None)].
Definition sig_slack_list_channels : signature := [("limit", Some (VInt 100))].
Definition sig_slack_post_message : signature :=
  [("channel_id", None); ("text", None)].
Definition sig_slack_reply_to_thread : signature :=
  [("channel_id", None); ("thread_ts", None); ("text", None)].
Definition sig_slack_add_reaction : signature :=
  [("channel_id", None); ("timestamp", None); ("reaction", None)].
Definition sig_slack_get_channel_history : signature :=
  [("channel_id", None); ("limit", Some (VInt 10))].

(** The handlers by name, as the [def]s of the module bind them. *)
Definition signatures : list (string * signature) := [
  ("create_repository", sig_create_repository);
  ("list_repositories", sig_list_repositories);
  ("create_jira_issue", sig_create_jira_issue);
  ("list_jira_projects", sig_list_jira_projects);
  ("create_confluence_page", sig_create_confluence_page);
  ("list_confluence_spaces", sig_list_confluence_spaces);
  ("send_slack_message", sig_send_slack_message);
  ("upload_file_to_slack", sig_upload_file_to_slack);
  ("slack_get_thread_replies", sig_slack_get_thread_replies);
  ("slack_get_users", sig_slack_get_users);
  ("slack_get_user_profile", sig_slack_get_user_profile);
  ("slack_list_channels", sig_slack_list_channels);
  ("slack_post_message", sig_slack_post_message);
  ("slack_reply_to_thread", sig_slack_reply_to_thread);
  ("slack_add_reaction", sig_slack_add_reaction);
  ("slack_get_channel_history", sig_slack_get_channel_history)
].

Section Program.

Context {RT : Runtime}.

Definition bullet : string := "• ".

Definition error_of (e : exn) : M string := ret ("Error: " ++ str_exn e).

Definition unknown_error {A : Type} (r : SlackResponse A) : string :=
  get_text (error r) "Unknown error".

(** *** GitHub *)

Definition create_repository (name description private : pyval) : M string :=
  try_except
    (user <- call (gh_get_user None) ;;
     repo <- call (user_create_repo user name description private) ;;
     ret ("Repository created: " ++ html_url repo))
    error_of.

Definition list_repositories (username : pyval) : M string :=
  try_except
    (user <- call (gh_get_user (Some username)) ;;
     repos <- call (user_get_repos user) ;;
     ret (Str.join_lines
            (map (fun repo =>
                    bullet ++ repo_name repo ++ ": "
                    ++ or_text (repo_description repo) "No description")
                 repos)))
    error_of.

(** *** Jira *)

Definition create_jira_issue (project_key summary description issue_type : pyval)
  : M string :=
  try_except
    (issue <- call (jira_create_issue project_key summary description
                      issue_type) ;;
     ret ("Issue created: " ++ issue_key issue))
    error_of.

Definition list_jira_projects : M string :=
  try_except
    (projects <- call jira_projects ;;
     ret (Str.join_lines
            (map (fun project =>
                    bullet ++ Sdk.project_key project ++ ": "
                    ++ get_text (project_name project) "No name")
                 projects)))
    error_of.

(** *** Confluence *)

Definition create_confluence_page (space_key title content : pyval)
  : M string :=
  try_except
    (page <- call (confluence_create_page space_key title content "storage") ;;
     ret ("Page created in space " ++ str space_key))
    error_of.

Definition list_confluence_spaces : M string :=
  try_except
    (spaces <- call confluence_get_all_spaces ;;
     ret (Str.join_lines
            (map (fun space =>
                    bullet ++ Sdk.space_key space ++ ": " ++ space_name space)
                 spaces)))
    error_of.

(** *** Slack *)

Definition send_slack_message (channel text : pyval) : M string :=
  let send (channel_id : pyval) : M string :=
    response <- call (chat_postMessage channel_id None text) ;;
    if ok response then ret "Message sent successfully"
    else ret ("Error sending message: " ++ unknown_error response) in
  try_except
    (is_dm <- lift (py_startswith channel "D") ;;
     if is_dm : bool then
       conversation <- call (conversations_open [channel]) ;;
       if ok conversation then send (VStr (Sdk.body conversation))
       else ret ("Error opening conversation: "
                 ++ unknown_error conversation)
     else send channel)
    (fun e =>
       match e with
       | SlackApiError _ error =>
           if String.eqb error "channel_not_found" then
             ret "Error: Channel or user not found. Please check the channel ID or user ID."
           else if String.eqb error "not_in_channel" then
             ret "Error: Bot is not in this channel. Please add the bot to the channel first."
           else ret ("Slack API Error: " ++ error)
       | PyError _ _ => error_of e
       end).

Definition upload_file_to_slack (channels filepath : pyval) : M string :=
  try_except
    (response <- call (files_upload channels filepath) ;;
     ret ("File uploaded to " ++ str channels))
    (except_SlackApiError error_of).

Definition show_message (m : SlackMessage) : string :=
  "[" ++ msg_ts m ++ "] " ++ get_text (msg_user m) "Unknown" ++ ": "
  ++ msg_text m.

Definition slack_get_thread_replies (channel_id thread_ts : pyval) : M string :=
  try_except
    (result <- call (conversations_replies channel_id thread_ts) ;;
     if ok result then
       ret (Str.join_lines (map show_message (Sdk.body result)))
     else ret ("Error getting replies: " ++ unknown_error result))
    (except_SlackApiError error_of).

Definition show_named (x : SlackNamed) : string :=
  bullet ++ sl_name x ++ " (" ++ sl_id x ++ ")".

Definition slack_get_users (limit : pyval) : M string :=
  try_except
    (capped <- lift (py_min_200 limit) ;;
     result <- call (users_list capped) ;;
     if ok result then ret (Str.join_lines (map show_named (Sdk.body result)))
     else ret ("Error listing users: " ++ unknown_error result))
    (except_SlackApiError error_of).

Definition slack_get_user_profile (user_id : pyval) : M string :=
  try_except
    (result <- call (users_info user_id) ;;
     if ok result then
       let profile := Sdk.body result in
       ret ("User Profile:" ++ newline
            ++ bullet ++ "Name: " ++ get_text (real_name profile) "N/A"
            ++ newline
            ++ bullet ++ "Display Name: "
            ++ get_text (display_name profile) "N/A" ++ newline
            ++ bullet ++ "Email: " ++ get_text (email profile) "N/A"
            ++ newline
            ++ bullet ++ "Title: " ++ get_text (profile_title profile) "N/A"
            ++ newline
            ++ bullet ++ "Status: " ++ get_text (status_text profile) "N/A")
     else ret ("Error getting profile: " ++ unknown_error result))
    (except_SlackApiError error_of).

Definition slack_list_channels (limit : pyval) : M string :=
  try_except
    (capped <- lift (py_min_200 limit) ;;
     result <- call (conversations_list capped) ;;
     if ok result then ret (Str.join_lines (map show_named (Sdk.body result)))
     else ret ("Error listing channels: " ++ unknown_error result))
    (except_SlackApiError error_of).

Definition slack_post_message (channel_id text : pyval) : M string :=
  try_except
    (is_id <- lift (py_startswith channel_id "C") ;;
     channel_id <- (if is_id : bool then ret channel_id
                    else lift (py_lstrip_hash channel_id)) ;;
     result <- call (chat_postMessage channel_id None text) ;;
     if ok result then
       ret ("Message posted successfully (ts: " ++ Sdk.body result ++ ")")
     else ret ("Error posting message: " ++ unknown_error result))
    (fun e =>
       match e with
       | SlackApiError _ error =>
           if String.eqb error "not_in_channel" then
             ret "Error: Bot is not in this channel. Please add the bot using '/invite @your_bot_name'"
           else if String.eqb error "channel_not_found" then
             ret "Error: Channel not found. Please check the channel name."
           else ret ("Slack API Error: " ++ error)
       | PyError _ _ => error_of e
       end).

Definition slack_reply_to_thread (channel_id thread_ts text : pyval)
  : M string :=
  try_except
    (result <- call (chat_postMessage channel_id (Some thread_ts) text) ;;
     if ok result then
       ret ("Reply posted successfully (ts: " ++ Sdk.body result ++ ")")
     else ret ("Error posting reply: " ++ unknown_error result))
    (except_SlackApiError error_of).

Definition slack_add_reaction (channel_id timestamp reaction : pyval)
  : M string :=
  try_except
    (result <- call (reactions_add channel_id timestamp reaction) ;;
     if ok result then
       ret ("Reaction '" ++ str reaction ++ "' added successfully")
     else ret ("Error adding reaction: " ++ unknown_error result))
    (except_SlackApiError error_of).

Definition slack_get_channel_history (channel_id limit : pyval) : M string :=
  try_except
    (result <- call (conversations_history channel_id limit) ;;
     if ok result then
       ret (Str.join_lines (map show_message (Sdk.body result)))
     else ret ("Error getting history: " ++ unknown_error result))
    (except_SlackApiError error_of).

(** *** The dispatcher *)

(** The [if]/[elif] chain on [function_name]: the call the matching branch
    returns, [None] when the chain falls through. *)
Definition dispatch (function_name : string) (function_args : pyval)
  : option (M string) :=
  if String.eqb function_name "create_repository" then
    Some (call_kwargs "create_repository" sig_create_repository function_args
            (fun a => create_repository (a "name") (a "description")
                        (a "private")))
  else if String.eqb function_name "list_repositories" then
    Some (call_kwargs "list_repositories" sig_list_repositories function_args
            (fun a => list_repositories (a "username")))
  else if String.eqb function_name "create_jira_issue" then
    Some (call_kwargs "create_jira_issue" sig_create_jira_issue function_args
            (fun a => create_jira_issue (a "project_key") (a "summary")
                        (a "description") (a "issue_type")))
  else if String.eqb function_name "list_jira_projects" then
    Some list_jira_projects
  else if String.eqb function_name "create_confluence_page" then
    Some (call_kwargs "create_confluence_page" sig_create_confluence_page
            function_args
            (fun a => create_confluence_page (a "space_key") (a "title")
                        (a "content")))
  else if String.eqb function_name "list_confluence_spaces" then
    Some list_confluence_spaces
  else if String.eqb function_name "send_slack_message" then
    Some (call_kwargs "send_slack_message" sig_send_slack_message function_args
            (fun a => send_slack_message (a "channel") (a "text")))
  else if String.eqb function_name "upload_file_to_slack" then
    Some (call_kwargs "upload_file_to_slack" sig_upload_file_to_slack
            function_args
            (fun a => upload_file_to_slack (a "channels") (a "filepath")))
  else if String.eqb function_name "slack_get_thread_replies" then
    Some (call_kwargs "slack_get_thread_replies" sig_slack_get_thread_replies
            function_args
            (fun a => slack_get_thread_replies (a "channel_id")
                        (a "thread_ts")))
  else if String.eqb function_name "slack_get_users" then
    Some (call_kwargs "slack_get_users" sig_slack_get_users function_args
            (fun a => slack_get_users (a "limit")))
  else if String.eqb function_name "slack_get_user_profile" then
    Some (call_kwargs "slack_get_user_profile" sig_slack_get_user_profile
            function_args
            (fun a => slack_get_user_profile (a "user_id")))
  else if String.eqb function_name "slack_list_channels" then
    Some (call_kwargs "slack_list_channels" sig_slack_list_channels
            function_args
            (fun a => slack_list_channels (a "limit")))
  else if String.eqb function_name "slack_post_message" then
    Some (call_kwargs "slack_post_message" sig_slack_post_message function_args
            (fun a => slack_post_message (a "channel_id") (a "text")))
  else if String.eqb function_name "slack_reply_to_thread" then
    Some (call_kwargs "slack_reply_to_thread" sig_slack_reply_to_thread
            function_args
            (fun a => slack_reply_to_thread (a "channel_id") (a "thread_ts")
                        (a "text")))
  else if String.eqb function_name "slack_add_reaction" then
    Some (call_kwargs "slack_add_reaction" sig_slack_add_reaction function_args
            (fun a => slack_add_reaction (a "channel_id") (a "timestamp")
                        (a "reaction")))
  else if String.eqb function_name "slack_get_channel_history" then
    Some (call_kwargs "slack_get_channel_history" sig_slack_get_channel_history
            function_args
            (fun a => slack_get_channel_history (a "channel_id") (a "limit")))
  else None.

(** The names the chain tests, in its order. *)
Definition branch_names : list string := [
  "create_repository"; "list_repositories"; "create_jira_issue";
  "list_jira_projects"; "create_confluence_page"; "list_confluence_spaces";
  "send_slack_message"; "upload_file_to_slack"; "slack_get_thread_replies";
  "slack_get_users"; "slack_get_user_profile"; "slack_list_channels";
  "slack_post_message"; "slack_reply_to_thread"; "slack_add_reaction";
  "slack_get_channel_history"
].

(** The branches that pass [function_args] on as keywords; the other two call
    their handler without arguments. *)
Definition passes_kwargs (function_name : string) : bool :=
  negb (String.eqb function_name "list_jira_projects"
        || String.eqb function_name "list_confluence_spaces").

(** What [get_ai_response] does with the model's answer, inside its [try]. *)
Definition handle_response (response : ChatResponse) : M (option string) :=
  choice <- lift (index (choices response) 0) ;;
  if requests_tool_call (message choice) then
    tool_call <- lift (index (tool_call_list (message choice)) 0) ;;
    let function_name := fn_name (function tool_call) in
    function_args <- lift (json_loads (arguments (function tool_call))) ;;
    match dispatch function_name function_args with
    | Some handler_call => result <- handler_call ;; ret (Some result)
    | None => ret (content (message choice))
    end
  else ret (content (message choice)).

(** The result is a text, or [None] when the model's [content] is [None]. *)
Definition get_ai_response (prompt : string) : M (option string) :=
  try_except
    (response <- call (chat_complete "mistral-small-latest" prompt tools
                         "auto") ;;
     handle_response response)
    (fun e => ret (Some ("Error: " ++ str_exn e))).

(** *** The CLI loop *)

Definition usage_send : string :=
  "Please use format: send message <text> to <channel>".
Definition usage_reply : string :=
  "Please use format: reply <text> to thread <thread_ts> in <channel>".
Definition usage_reaction : string :=
  "Please use format: add reaction <emoji> to message <ts> in <channel>".
Definition usage_history : string :=
  "Please use format: show history <channel> [limit]".

(** The bare [except:] of the command branches. *)
Definition or_usage (body : M string) (usage : string) : M string :=
  try_except body (fun _ => ret usage).

(** The [if]/[elif]/[else] of the loop body that computes [response]. *)
Definition respond (user_input : string) : M (option string) :=
  let lowered := Str.lower user_input in
  if String.eqb lowered "list channels" then
    response <- slack_list_channels (VInt 100) ;; ret (Some response)
  else if Str.startswith lowered "send message" then
    match Str.split user_input " to " (Some 1%nat) with
    | [part0; part1] =>
        let message := Str.strip (Str.replace part0 "send message" "") in
        let channel := Str.strip part1 in
        response <- slack_post_message (VStr channel) (VStr message) ;;
        ret (Some response)
    | _ => ret (Some usage_send)
    end
  else if Str.startswith lowered "reply" then
    response <-
      or_usage
        (tail <- lift (index (Str.split user_input " to thread " (Some 1%nat))
                         1) ;;
         let parts := Str.split tail " in " None in
         part0 <- lift (index parts 0) ;;
         let thread_ts := Str.strip part0 in
         part1 <- lift (index parts 1) ;;
         let channel := Str.strip part1 in
         head <- lift (index (Str.split user_input " to thread " None) 0) ;;
         let text := Str.strip (Str.replace head "reply" "") in
         slack_reply_to_thread (VStr channel) (VStr thread_ts) (VStr text))
        usage_reply ;;
    ret (Some response)
  else if Str.startswith lowered "add reaction" then
    response <-
      or_usage
        (tail <- lift (index (Str.split user_input " to message " (Some 1%nat))
                         1) ;;
         let parts := Str.split tail " in " None in
         part0 <- lift (index parts 0) ;;
         let ts := Str.strip part0 in
         part1 <- lift (index parts 1) ;;
         let channel := Str.strip part1 in
         head <- lift (index (Str.split user_input " to message " None) 0) ;;
         let reaction := Str.strip (Str.replace head "add reaction" "") in
         slack_add_reaction (VStr channel) (VStr ts) (VStr reaction))
        usage_reaction ;;
    ret (Some response)
  else if Str.startswith lowered "show history" then
    response <-
      or_usage
        (let parts :=
           Str.split_ws
             (Str.strip (Str.replace user_input "show history" "")) in
         channel <- lift (index parts 0) ;;
         limit <- (if Nat.ltb 1 (List.length parts)
                   then (part1 <- lift (index parts 1) ;;
                         lift (Str.to_int part1))
                   else ret 10) ;;
         slack_get_channel_history (VStr channel) (VInt limit))
        usage_history ;;
    ret (Some response)
  else get_ai_response user_input.

(** ["\n" + response] *)
Definition concat_newline (response : option string) : M string :=
  match response with
  | Some text => ret (newline ++ text)
  | None =>
      raise (PyError "TypeError"
               ("can only concatenate str (not " ++ dquote ++ "NoneType"
                ++ dquote ++ ") to str"))
  end.

Definition is_shortcut (user_input : string) : bool :=
  let lowered := Str.lower user_input in
  (String.eqb lowered "list channels"
   || Str.startswith lowered "send message"
   || Str.startswith lowered "reply"
   || Str.startswith lowered "add reaction"
   || Str.startswith lowered "show history")%bool.

(** [input(prompt)]: the prompt is written, then a line is taken from the
    standard input; at its end [input] raises [EOFError]. *)
Definition eof : exn := PyError "EOFError" "EOF when reading a line".

(** The loop body after the quit test: the response is computed and
    printed. *)
Definition turn (user_input : string) : M unit :=
  response <- respond user_input ;;
  text <- concat_newline response ;;
  print text.

(** The [while True:] loop on the lines still to come on the standard input.
    It returns when the loop is left by [break] and raises what the loop body
    does not catch. *)
Fixpoint loop (stdin : list string) : M unit :=
  write (newline ++ "You: ") ;;;
  match stdin with
  | [] => raise eof
  | user_input :: stdin' =>
      if is_quit user_input then print (newline ++ "Goodbye!")
      else turn user_input ;;; loop stdin'
  end.

Definition banner : M unit :=
  print "Welcome to Unified Terminal Chat (GitHub, Jira, Confluence, Slack)" ;;;
  print "Type 'quit' to exit" ;;;
  print "--------------------------------------------------" ;;;
  print (newline ++ "Available Slack commands:") ;;;
  print (bullet ++ "list channels - Show all Slack channels") ;;;
  print (bullet ++ "send message <text> to <channel> - Send a message") ;;;
  print (bullet
         ++ "reply <text> to thread <thread_ts> in <channel> - Reply to a thread") ;;;
  print (bullet
         ++ "add reaction <emoji> to message <ts> in <channel> - Add reaction") ;;;
  print (bullet ++ "show history <channel> [limit] - Show channel history") ;;;
  print newline.

Definition main (stdin : list string) : M unit := banner ;;; loop stdin.

End Program.

End Unified.

(** ** [src/app.py] *)

Module App.

Definition tools : list ToolDescriptor := [
  {| name := "create_repository";
     description := "Creates a new GitHub repository";
     properties := [
       prop "name" "string" "Name of the repository";
       prop "description" "string" "Description of the repository";
       prop "private" "boolean" "Whether the repository should be private" ];
     required := Some ["name"] |};
  {| name := "list_repositories";
     description := "Lists all repositories for a GitHub user";
     properties := [ prop "username" "string" "GitHub username" ];
     required := Some ["username"] |};
  {| name := "create_github_issue";
     description := "Creates a new issue on GitHub repository";
     properties := [
       prop "repo_name" "string" "Name of the repository (format: owner/repo)";
       prop "title" "string" "Title of the issue";
       prop "body" "string" "Body content of the issue" ];
     required := Some ["repo_name"; "title"; "body"] |};
  {| name := "list_repository_issues";
     description := "Lists open issues in a GitHub repository";
     properties := [
       prop "repo_name" "string"
         "Name of the repository (format: owner/repo)" ];
     required := Some ["repo_name"] |};
  {| name := "upload_file";
     description := "Uploads a Python file to a GitHub repository";
     properties := [
       prop "repo_name" "string" "Name of the repository (format: owner/repo)";
       prop "file_path" "string" "Local path to the Python file";
       prop "commit_message" "string" "Commit message for the upload" ];
     required := Some ["repo_name"; "file_path"] |}
].

Definition sig_create_repository : signature :=
  [("name", None); ("description", Some (VStr ""));
   ("private", Some (VBool false))].
Definition sig_create_github_issue : signature :=
  [("repo_name", None); ("title", None); ("body", None)].
Definition sig_list_repository_issues : signature := [("repo_name", None)].
Definition sig_list_repositories : signature := [("username", None)].
Definition sig_upload_file : signature :=
  [("repo_name", None); ("file_path", None);
   ("commit_message", Some (VStr "Add Python script"))].

Definition signatures : list (string * signature) := [
  ("create_repository", sig_create_repository);
  ("create_github_issue", sig_create_github_issue);
  ("list_repository_issues", sig_list_repository_issues);
  ("list_repositories", sig_list_repositories);
  ("upload_file", sig_upload_file)
].

Section Program.

Context {RT : Runtime}.

(** The bullet of [list_repositories], with the bytes the source file has. *)
Definition bullet : string := "â€¢ ".

(** [except Exception as e: return f"Error <doing>: {str(e)}"] *)
Definition error_while (doing : string) (e : exn) : M string :=
  ret ("Error " ++ doing ++ ": " ++ str_exn e).

Definition create_repository (name description private : pyval) : M string :=
  try_except
    (user <- call (gh_get_user None) ;;
     repo <- call (user_create_repo user name description private) ;;
     ret ("Repository created successfully: " ++ html_url repo))
    (error_while "creating repository").

Definition create_github_issue (repo_name title body : pyval) : M string :=
  try_except
    (repo <- call (gh_get_repo repo_name) ;;
     issue <- call (repo_create_issue repo title body) ;;
     ret ("Issue created successfully: " ++ issue_url issue))
    (error_while "creating issue").

Definition list_repository_issues (repo_name : pyval) : M string :=
  try_except
    (repo <- call (gh_get_repo repo_name) ;;
     issues <- call (repo_get_issues repo "open") ;;
     ret (Str.join_lines
            (map (fun issue =>
                    "#" ++ Str.of_Z (number issue) ++ ": " ++ Sdk.title issue)
                 issues)))
    (error_while "listing issues").

Definition list_repositories (username : pyval) : M string :=
  try_except
    (user <- call (gh_get_user (Some username)) ;;
     repos <- call (user_get_repos user) ;;
     ret (Str.join_lines
            (map (fun repo =>
                    bullet ++ Sdk.repo_name repo ++ ": "
                    ++ or_text (repo_description repo) "No description")
                 repos)))
    (error_while "listing repositories").

Definition upload_file (repo_name file_path commit_message : pyval)
  : M string :=
  try_except
    (repo <- call (gh_get_repo repo_name) ;;
     content <- call (open_read file_path) ;;
     file_name <- lift (py_basename file_path) ;;
     created <- call (repo_create_file repo file_name commit_message content
                        "main") ;;
     ret ("File " ++ file_name ++ " uploaded successfully to "
          ++ str repo_name))
    (error_while "uploading file").

(** The [if]/[elif] chain that assigns [result]; [None] when no branch
    assigns it. *)
Definition dispatch (function_name : string) (function_args : pyval)
  : option (M string) :=
  if String.eqb function_name "upload_file" then
    Some (call_kwargs "upload_file" sig_upload_file function_args
            (fun a => upload_file (a "repo_name") (a "file_path")
                        (a "commit_message")))
  else if String.eqb function_name "create_repository" then
    Some (call_kwargs "create_repository" sig_create_repository function_args
            (fun a => create_repository (a "name") (a "description")
                        (a "private")))
  else if String.eqb function_name "list_repositories" then
    Some (call_kwargs "list_repositories" sig_list_repositories function_args
            (fun a => list_repositories (a "username")))
  else if String.eqb function_name "create_github_issue" then
    Some (call_kwargs "create_github_issue" sig_create_github_issue
            function_args
            (fun a => create_github_issue (a "repo_name") (a "title")
                        (a "body")))
  else if String.eqb function_name "list_repository_issues" then
    Some (call_kwargs "list_repository_issues" sig_list_repository_issues
            function_args
            (fun a => list_repository_issues (a "repo_name")))
  else None.

Definition branch_names : list string := [
  "upload_file"; "create_repository"; "list_repositories";
  "create_github_issue"; "list_repository_issues"
].

(** Reading [result] when no branch has assigned it. *)
Definition unbound_result : exn :=
  PyError "UnboundLocalError"
    "cannot access local variable 'result' where it is not associated with a value".

Definition handle_response (response : ChatResponse) : M (option string) :=
  choice <- lift (index (choices response) 0) ;;
  if requests_tool_call (message choice) then
    print "Tool call detected" ;;;
    tool_call <- lift (index (tool_call_list (message choice)) 0) ;;
    let function_name := fn_name (function tool_call) in
    function_args <- lift (json_loads (arguments (function tool_call))) ;;
    print ("Executing " ++ function_name ++ " with args: "
           ++ str function_args) ;;;
    result <- match dispatch function_name function_args with
              | Some handler_call => handler_call
              | None => raise unbound_result
              end ;;
    print ("Function result: " ++ result) ;;;
    ret (Some result)
  else ret (content (message choice)).

Definition get_ai_response (prompt : string) : M (option string) :=
  try_except
    (print "Sending request to Mistral..." ;;;
     response <- call (chat_complete "mistral-small-latest" prompt tools
                         "auto") ;;
     print ("Response received: " ++ repr_response response) ;;;
     handle_response response)
    (fun e =>
       print ("Error occurred: " ++ str_exn e) ;;;
       ret (Some ("Error: " ++ str_exn e))).

(** [for line in textwrap.wrap(response, width=70): print(line)] *)
Definition print_wrapped (response : option string) : M unit :=
  match response with
  | Some text =>
      fold_right (fun line rest => print line ;;; rest) (ret tt)
        (textwrap_wrap text)
  | None =>
      raise (PyError "AttributeError"
               "'NoneType' object has no attribute 'expandtabs'")
  end.

Definition eof : exn := PyError "EOFError" "EOF when reading a line".

(** The loop body after the quit test. *)
Definition turn (user_input : string) : M unit :=
  write (newline ++ "AI: ") ;;;
  response <- get_ai_response user_input ;;
  print_wrapped response.

Fixpoint loop (stdin : list string) : M unit :=
  write (newline ++ "You: ") ;;;
  match stdin with
  | [] => raise eof
  | user_input :: stdin' =>
      if is_quit user_input then print (newline ++ "Goodbye!")
      else turn user_input ;;; loop stdin'
  end.

Definition main (stdin : list string) : M unit :=
  print "Welcome to Terminal LLM Chat (type 'quit' to exit)" ;;;
  print "--------------------------------------------------" ;;;
  loop stdin.

End Program.

End App.

(** ** A scripted runtime, for running the programs on concrete inputs *)

Module Fixture.

Definition a_user : GhUser := {| login := "octocat" |}.
Definition a_repo : GhRepo :=
  {| html_url := "https://github.com/octocat/hello";
     repo_name := "hello";
     repo_description := None |}.
Definition an_issue : GhIssue :=
  {| issue_url := "https://github.com/octocat/hello/issues/1";
     number := 1;
     title := "First" |}.

Definition slack_ok {A : Type} (a : A) : SlackResponse A :=
  {| ok := true; error := None; body := a |}.

Definition a_profile : SlackProfile :=
  {| real_name := Some "Mona"; display_name := None; email := None;
     profile_title := None; status_text := None |}.

Definition answer_of (r : request) : response r :=
  match r with
  | chat_complete _ _ _ _ => {| choices := [] |}
  | gh_get_user _ => a_user
  | user_create_repo _ _ _ _ => a_repo
  | user_get_repos _ => [a_repo]
  | gh_get_repo _ => a_repo
  | repo_create_issue _ _ _ => an_issue
  | repo_get_issues _ _ => [an_issue]
  | repo_create_file _ _ _ _ _ => tt
  | open_read _ => "print(1)"
  | jira_create_issue _ _ _ _ => {| issue_key := "PROJ-1" |}
  | jira_projects => [{| project_key := "PROJ"; project_name := None |}]
  | confluence_create_page _ _ _ _ => tt
  | confluence_get_all_spaces =>
      [{| space_key := "DOC"; space_name := "Documents" |}]
  | conversations_open _ => slack_ok "D024BE91L"
  | chat_postMessage _ _ _ => slack_ok "1503435956.000247"
  | files_upload _ _ => tt
  | conversations_replies _ _ => slack_ok []
  | users_list _ => slack_ok [{| sl_name := "mona"; sl_id := "U1" |}]
  | users_info _ => slack_ok a_profile
  | conversations_list _ =>
      slack_ok [{| sl_name := "general"; sl_id := "C1" |}]
  | reactions_add _ _ _ => slack_ok tt
  | conversations_history _ _ => slack_ok []
  end.

(** The payload [{"username": "octocat"}]. *)
Definition octocat_payload : string :=
  "{" ++ dquote ++ "username" ++ dquote ++ ": " ++ dquote ++ "octocat"
  ++ dquote ++ "}".

Definition not_json : exn :=
  PyError "JSONDecodeError"
    "Expecting property name enclosed in double quotes: line 1 column 2 (char 1)".

(** [json.loads] on the payloads the examples use. *)
Definition loads (payload : string) : outcome pyval :=
  if String.eqb payload octocat_payload then
    Returns (VDict [("username", VStr "octocat")])
  else if String.eqb payload "{}" then Returns (VDict [])
  else Raises not_json.

(** The model answers [answer]; every other call raises [failure] if there is
    one and else succeeds with [answer_of]. The world has no state. *)
Definition scripted (answer : outcome ChatResponse) (failure : option exn)
  : Runtime :=
  {| world := unit;
     remote := fun r w =>
       (match r as r0 return outcome (response r0) with
        | chat_complete _ _ _ _ => answer
        | r0 => match failure with
                | Some e => Raises e
                | None => Returns (answer_of r0)
                end
        end, w);
     json_loads := loads;
     repr := fun _ => "<value>";
     repr_response := fun _ => "<response>";
     textwrap_wrap := fun text => [text] |}.

Definition tool_call (fn payload : string) : ToolCall :=
  {| function := {| fn_name := fn; arguments := payload |} |}.

(** A response with one choice. *)
Definition responding (calls : tool_calls_attr) (text : option string)
  : ChatResponse :=
  {| choices := [{| message := {| tool_calls := calls; content := text |} |}] |}.

Definition boom : exn := PyError "ConnectionError" "boom".

(** The model answers with the text [hello]; every other call succeeds. *)
Definition chatty : Runtime :=
  scripted (Returns (responding IsNone (Some "hello"))) None.

(** The same, with every call but the model's raising [boom]. *)
Definition offline : Runtime :=
  scripted (Returns (responding IsNone (Some "hello"))) (Some boom).

(** The model requests the call of [fn] on [payload], and a second call
    after it. *)
Definition asking (fn payload : string) (text : option string) : Runtime :=
  scripted
    (Returns
       (responding
          (Calls [tool_call fn payload; tool_call "create_repository" "{}"])
          text))
    None.

End Fixture.

(** * Vocabulary of the statements *)

Section Vocabulary.
Context {RT : Runtime}.

(** The requests of the calls a run made, in order. *)
Definition requests {A : Type} (r : run A) : list request :=
  map ev_request (calls r).

(** The log entry of a call that returned. *)
Definition returned (r : request) : event :=
  {| ev_request := r; ev_raised := None |}.

Definition unified_request (prompt : string) : request :=
  chat_complete "mistral-small-latest" prompt Unified.tools "auto".

Definition app_request (prompt : string) : request :=
  chat_complete "mistral-small-latest" prompt App.tools "auto".

(** The [except] clause of the two dispatchers. *)
Definition unified_guard (body : M (option string)) : M (option string) :=
  try_except body (fun e => ret (Some ("Error: " ++ str_exn e))).

Definition app_guard (body : M (option string)) : M (option string) :=
  try_except body
    (fun e =>
       print ("Error occurred: " ++ str_exn e) ;;;
       ret (Some ("Error: " ++ str_exn e))).

(** Dropping every tool call after the first one. *)
Definition first_call_only (m : AssistantMessage) : AssistantMessage :=
  {| tool_calls := match tool_calls m with
                   | Calls (tc :: _) => Calls [tc]
                   | other => other
                   end;
     content := content m |}.

Definition first_calls_only (response : ChatResponse) : ChatResponse :=
  {| choices :=
       map (fun c => {| message := first_call_only (message c) |})
         (choices response) |}.

(** A catalog entry agrees with a program: its name is tested by exactly one
    branch of the chain, and each parameter it requires is a parameter
    without default of the handler of that name. *)
Definition entry_ok (branch_names : list string)
    (signatures : list (string * signature)) (t : ToolDescriptor) : Prop :=
  count_occ string_dec branch_names (name t) = 1%nat
  /\ exists sig,
       assoc (name t) signatures = Some sig
       /\ Forall (fun p => In (p, None) sig) (required_params t).

(** What [app.py] prints before it looks at the model's answer. *)
Definition app_preamble (answer : ChatResponse) : list string :=
  [ "Sending request to Mistral..." ++ newline;
    "Response received: " ++ repr_response answer ++ newline ].

(** What it prints before and after the handler call. *)
Definition app_detected : string := "Tool call detected" ++ newline.

Definition app_announce (function_name : string) (function_args : pyval)
  : list string :=
  [ app_detected;
    ("Executing " ++ function_name ++ " with args: " ++ str function_args)
    ++ newline ].

Definition app_result_line (text : string) : string :=
  ("Function result: " ++ text) ++ newline.

Definition app_error_line (e : exn) : string :=
  ("Error occurred: " ++ str_exn e) ++ newline.

(** A computation that never calls the model, whatever the world answers. *)
Definition no_model_call (evs : list event) : Prop :=
  Forall (fun ev => is_model_call (ev_request ev) = false) evs.

Definition quiet {A : Type} (m : M A) : Prop :=
  forall w, no_model_call (calls (m w)).

(** The run of an iteration that reads a quit token in the world [w]. *)
Definition says_goodbye (w : world) : run unit :=
  {| value := Returns tt;
     final := w;
     calls := [];
     output := [newline ++ "You: "; (newline ++ "Goodbye!") ++ newline] |}.

(** One iteration of the loop on a line that is no quit token. *)
Definition iteration (turn_run : run unit) (continue : world -> run unit)
  : run unit :=
  match value turn_run with
  | Returns _ =>
      let r := continue (final turn_run) in
      {| value := value r;
         final := final r;
         calls := calls turn_run ++ calls r;
         output := (newline ++ "You: ") :: output turn_run ++ output r |}
  | Raises e =>
      {| value := Raises e;
         final := final turn_run;
         calls := calls turn_run;
         output := (newline ++ "You: ") :: output turn_run |}
  end.

(** A call of the run [r] raised [e]. *)
Definition raised_in {A : Type} (r : run A) (e : exn) : Prop :=
  exists q, In {| ev_request := q; ev_raised := Some e |} (calls r).

(** The handlers of [unified_app.py] whose only [except] clause is for
    [SlackApiError]. *)
Definition slack_only : list string := [
  "upload_file_to_slack"; "slack_get_thread_replies"; "slack_get_users";
  "slack_get_user_profile"; "slack_list_channels"; "slack_reply_to_thread";
  "slack_add_reaction"; "slack_get_channel_history"
].

(** The first choice of the answer of [Fixture.asking]. *)
Definition asked (fn payload : string) (text : option string) : Choice :=
  {| message :=
       {| tool_calls :=
            Calls [Fixture.tool_call fn payload;
                   Fixture.tool_call "create_repository" "{}"];
          content := text |} |}.

Definition asked_answer (fn payload : string) (text : option string)
  : ChatResponse :=
  {| choices := [asked fn payload text] |}.

(** What a dispatcher returns for the run [r] of a handler call: the text
    the handler returned, or the text for the exception it raised. *)
Definition reported (r : run string) : outcome (option string) :=
  match value r with
  | Returns text => Returns (Some text)
  | Raises e => Returns (Some ("Error: " ++ str_exn e))
  end.

(** The last line [app.py] prints for the run [r] of a handler call. *)
Definition app_last_line (r : run string) : string :=
  match value r with
  | Returns text => app_result_line text
  | Raises e => app_error_line e
  end.

End Vocabulary.

(** * Vocabulary of the further properties *)

Section Conduct.
Context {RT : Runtime}.

(** The log entry of a call that raised [e]. *)
Definition failed (r : request) (e : exn) : event :=
  {| ev_request := r; ev_raised := Some e |}.

(** Every call of the log returned. *)
Definition all_returned (evs : list event) : Prop :=
  Forall (fun ev => ev_raised ev = None) evs.

(** No call of the log follows one that raised. *)
Definition stops_at_failure (evs : list event) : Prop :=
  forall pre ev post,
    evs = (pre ++ ev :: post)%list -> ev_raised ev <> None -> post = [].

(** A computation whose calls all returned when it returns, and that makes no
    call after one that raised. *)
Definition orderly {A : Type} (m : M A) : Prop :=
  forall w,
    match value (m w) with
    | Returns _ => all_returned (calls (m w))
    | Raises _ => stops_at_failure (calls (m w))
    end.

(** A computation that returns, whatever the world answers. *)
Definition total {A : Type} (m : M A) : Prop :=
  forall w, exists a, value (m w) = Returns a.

(** A computation that makes no call. *)
Definition silent {A : Type} (m : M A) : Prop :=
  forall w, calls (m w) = [].

(** [n] times the character [#]. *)
Definition hashes (n : nat) : string :=
  string_of_list_ascii (repeat "#"%char n).

(** The character [c] occurs in [s]. *)
Definition mentions (c : ascii) (s : string) : Prop :=
  In c (list_ascii_of_string s).

(** The channel [slack_post_message] posts to, for a channel that is a
    text. *)
Definition posted_channel (channel_id : string) : string :=
  if Str.startswith channel_id "C" then channel_id
  else Str.lstrip_char "#" channel_id.

(** Every character of [s] is an ASCII character. On such a text the white
    space of [strip] and [split], the digits of [int] and the case mapping of
    [lower] are the ASCII ones of [Str]. *)
Definition is_ascii (s : string) : bool :=
  forallb (fun c => Nat.ltb (nat_of_ascii c) 128) (list_ascii_of_string s).

(** What [l[i]] raises when [l] has no item [i]. *)
Definition index_error : exn := PyError "IndexError" "list index out of range".

(** The number of calls to the model in a log. *)
Definition model_calls (evs : list event) : nat :=
  List.length (filter (fun ev => is_model_call (ev_request ev)) evs).

(** The lines of the input that precede its first quit token. *)
Fixpoint before_quit (stdin : list string) : list string :=
  match stdin with
  | [] => []
  | line :: rest => if is_quit line then [] else line :: before_quit rest
  end.

(** The text a Slack response that is not [ok] is reported with. *)
Definition refusal {A : Type} (doing : string) (r : SlackResponse A) : string :=
  "Error " ++ doing ++ ": " ++ get_text (error r) "Unknown error".

End Conduct.

(** ** Further scripted runtimes *)

Module Cases.


(** The model answers without a choice. *)
Definition no_choice : Runtime :=
  Fixture.scripted (Returns {| choices := [] |}) None.

(** The model answers with a message that has neither tool calls nor
    content. *)
Definition no_content : Runtime :=
  Fixture.scripted (Returns (Fixture.responding IsNone None)) None.

Definition slack_refused {A : Type} (a : A) : SlackResponse A :=
  {| ok := false; error := Some "ratelimited"; body := a |}.

Definition refusal_of (r : request) : response r :=
  match r with
  | conversations_open _ => slack_refused ""
  | chat_postMessage _ _ _ => slack_refused ""
  | conversations_replies _ _ => slack_refused []
  | users_list _ => slack_refused []
  | users_info _ => slack_refused Fixture.a_profile
  | conversations_list _ => slack_refused []
  | reactions_add _ _ _ => slack_refused tt
  | conversations_history _ _ => slack_refused []
  | r0 => Fixture.answer_of r0
  end.

(** Every call returns; the Slack client answers each request with a response
    that is not [ok]. *)
Definition refusing : Runtime :=
  {| world := unit;
     remote := fun r w => (Returns (refusal_of r), w);
     json_loads := Fixture.loads;
     repr := fun _ => "<value>";
     repr_response := fun _ => "<response>";
     textwrap_wrap := fun text => [text] |}.

(** The model requests the call of [fn], and the payload decodes to [v]. *)
Definition decoding (fn : string) (v : pyval) : Runtime :=
  {| world := unit;
     remote := fun r w =>
       (match r as r0 return outcome (response r0) with
        | chat_complete _ _ _ _ =>
            Returns
              (Fixture.responding (Calls [Fixture.tool_call fn "{}"]) None)
        | r0 => Returns (Fixture.answer_of r0)
        end, w);
     json_loads := fun _ => Returns v;
     repr := fun _ => "<value>";
     repr_response := fun _ => "<response>";
     textwrap_wrap := fun text => [text] |}.

(** The model requests the call of [fn] on the payload of the empty mapping;
    every other call raises [boom]. *)
Definition asking_offline (fn : string) : Runtime :=
  Fixture.scripted
    (Returns (Fixture.responding (Calls [Fixture.tool_call fn "{}"]) None))
    (Some Fixture.boom).

(** The first choice of the answer of [decoding] and of [asking_offline]. *)
Definition requested (fn : string) : Choice :=
  {| message :=
       {| tool_calls := Calls [Fixture.tool_call fn "{}"];
          content := None |} |}.

End Cases.

(** * Properties *)

Section MonadFacts.
Context {RT : Runtime}.

Lemma min_200_int (z : Z) :
  py_min_200 (VInt z) = Returns (VInt (Z.min z 200)).
Proof.
  unfold py_min_200. f_equal. f_equal.
  destruct (Z.ltb_spec 200 z); lia.
Qed.

End MonadFacts.

Ltac monad_unfold :=
  cbv beta iota zeta delta
    [try_except bind call lift ret raise and_then value final calls output
     write print except_SlackApiError call_kwargs requests
     Unified.error_of App.error_while].

Ltac run_remote :=
  match goal with
  | |- context [remote ?r ?w] =>
      destruct (remote r w) as [[? | ?] ?]; cbn [fst snd raised_of]
  end.

Ltac run_test :=
  match goal with
  | |- context [if ok ?r then _ else _] => destruct (ok r)
  | |- context [if is_SlackApiError ?e then _ else _] => destruct e; cbn [is_SlackApiError]
  end.

(** C10. For an integer [limit], [slack_get_users] and [slack_list_channels]
    make one call into the Slack client, with [min limit 200] as its limit,
    which is at most 200; [slack_get_channel_history] makes one call, with
    [limit] itself. *)
Theorem slack_limit_forwarding {RT : Runtime} (limit : Z) (channel_id : pyval)
    (w : world) :
  requests (Unified.slack_get_users (VInt limit) w)
    = [users_list (VInt (Z.min limit 200))]
  /\ requests (Unified.slack_list_channels (VInt limit) w)
    = [conversations_list (VInt (Z.min limit 200))]
  /\ Z.min limit 200 <= 200
  /\ requests (Unified.slack_get_channel_history channel_id (VInt limit) w)
    = [conversations_history channel_id (VInt limit)].
Proof.
  repeat split.
  - unfold Unified.slack_get_users. monad_unfold.
    rewrite min_200_int. run_remote; repeat run_test; reflexivity.
  - unfold Unified.slack_list_channels. monad_unfold.
    rewrite min_200_int. run_remote; repeat run_test; reflexivity.
  - lia.
  - unfold Unified.slack_get_channel_history. monad_unfold.
    run_remote; repeat run_test; reflexivity.
Qed.


Section Dispatcher.
Context {RT : Runtime}.

Lemma unified_after_model prompt w response w1 :
  remote (unified_request prompt) w = (Returns response, w1) ->
  Unified.get_ai_response prompt w =
    let r := unified_guard (Unified.handle_response response) w1 in
    {| value := value r;
       final := final r;
       calls := returned (unified_request prompt) :: calls r;
       output := output r |}.
Proof.
  intros H. unfold Unified.get_ai_response, unified_guard, unified_request in *.
  monad_unfold. rewrite H. cbn [fst snd raised_of].
  destruct (Unified.handle_response response w1) as [[v | e] f c o]; reflexivity.
Qed.

Lemma app_after_model prompt w response w1 :
  remote (app_request prompt) w = (Returns response, w1) ->
  App.get_ai_response prompt w =
    let r := app_guard (App.handle_response response) w1 in
    {| value := value r;
       final := final r;
       calls := returned (app_request prompt) :: calls r;
       output := ("Sending request to Mistral..." ++ newline)
                 :: ("Response received: " ++ repr_response response ++ newline)
                 :: output r |}.
Proof.
  intros H. unfold App.get_ai_response, app_guard, app_request in *.
  monad_unfold. rewrite H. cbn [fst snd raised_of].
  destruct (App.handle_response response w1) as [[v | e] f c o]; reflexivity.
Qed.

Lemma unified_ignores_other_calls response w :
  Unified.handle_response response w
  = Unified.handle_response (first_calls_only response) w.
Proof.
  unfold Unified.handle_response, first_calls_only.
  destruct response as [[ | [[tcs body]] rest]]; [reflexivity | ].
  destruct tcs as [ | | [ | tc more]]; reflexivity.
Qed.

Lemma app_ignores_other_calls response w :
  App.handle_response response w
  = App.handle_response (first_calls_only response) w.
Proof.
  unfold App.handle_response, first_calls_only.
  destruct response as [[ | [[tcs body]] rest]]; [reflexivity | ].
  destruct tcs as [ | | [ | tc more]]; reflexivity.
Qed.

(** The dispatcher on a response whose first choice requests tool calls, up
    to the decoding of the first call's arguments. *)
Lemma unified_on_tool_call response choice rest tc more w :
  choices response = choice :: rest ->
  tool_calls (message choice) = Calls (tc :: more) ->
  Unified.handle_response response w =
    match json_loads (arguments (function tc)) with
    | Returns args =>
        match Unified.dispatch (fn_name (function tc)) args with
        | Some h =>
            let r := h w in
            match value r with
            | Returns text =>
                {| value := Returns (Some text); final := final r;
                   calls := calls r; output := output r |}
            | Raises e =>
                {| value := Raises e; final := final r; calls := calls r;
                   output := output r |}
            end
        | None => ret (content (message choice)) w
        end
    | Raises e => raise e w
    end.
Proof.
  intros Hc Ht. unfold Unified.handle_response, requests_tool_call, tool_call_list.
  rewrite Hc. cbn [index nth_error]. monad_unfold. rewrite Ht.
  cbn [index nth_error].
  destruct (json_loads _) as [args | e]; [ | reflexivity].
  destruct (Unified.dispatch _ _) as [h | ]; [ | reflexivity].
  destruct (h w) as [[text | e] f c o]; cbn [value final calls output app];
    rewrite ?app_nil_r; reflexivity.
Qed.

Lemma app_on_tool_call response choice rest tc more w :
  choices response = choice :: rest ->
  tool_calls (message choice) = Calls (tc :: more) ->
  App.handle_response response w =
    let detected := "Tool call detected" ++ newline in
    match json_loads (arguments (function tc)) with
    | Returns args =>
        let executing :=
          ("Executing " ++ fn_name (function tc) ++ " with args: "
           ++ str args) ++ newline in
        match App.dispatch (fn_name (function tc)) args with
        | Some h =>
            let r := h w in
            match value r with
            | Returns text =>
                {| value := Returns (Some text); final := final r;
                   calls := calls r;
                   output := detected :: executing :: output r
                             ++ [("Function result: " ++ text) ++ newline] |}
            | Raises e =>
                {| value := Raises e; final := final r; calls := calls r;
                   output := detected :: executing :: output r |}
            end
        | None =>
            {| value := Raises App.unbound_result; final := w; calls := [];
               output := [detected; executing] |}
        end
    | Raises e =>
        {| value := Raises e; final := w; calls := []; output := [detected] |}
    end.
Proof.
  intros Hc Ht. unfold App.handle_response, requests_tool_call, tool_call_list.
  rewrite Hc. cbn [index nth_error]. monad_unfold. rewrite Ht.
  cbn [index nth_error].
  destruct (json_loads _) as [args | e]; [ | reflexivity].
  destruct (App.dispatch _ _) as [h | ]; [ | reflexivity].
  destruct (h w) as [[text | e] f c o]; cbn [value final calls output app];
    rewrite ?app_nil_r; reflexivity.
Qed.

(** The dispatchers on a response whose first choice requests no tool call. *)
Lemma unified_on_text response choice rest w :
  choices response = choice :: rest ->
  requests_tool_call (message choice) = false ->
  Unified.handle_response response w = ret (content (message choice)) w.
Proof.
  intros Hc Ht. unfold Unified.handle_response. rewrite Hc.
  cbn [index nth_error]. monad_unfold. rewrite Ht. reflexivity.
Qed.

Lemma app_on_text response choice rest w :
  choices response = choice :: rest ->
  requests_tool_call (message choice) = false ->
  App.handle_response response w = ret (content (message choice)) w.
Proof.
  intros Hc Ht. unfold App.handle_response. rewrite Hc.
  cbn [index nth_error]. monad_unfold. rewrite Ht. reflexivity.
Qed.

End Dispatcher.


Ltac split_chain H :=
  repeat match type of H with
    | context [if String.eqb ?x ?n then _ else _] =>
        let E := fresh "E" in
        destruct (String.eqb_spec x n) as [E | E]; [ subst x | ]
    end.

Ltac split_chain_goal :=
  repeat match goal with
    | |- context [if String.eqb ?x ?n then _ else _] =>
        let E := fresh "E" in
        destruct (String.eqb_spec x n) as [E | E]; [ subst x | ]
    end.

Section Binding.
Context {RT : Runtime}.

Lemma missing_args_in sig kw p :
  In (p, None) sig -> has_key p kw = false -> In p (missing_args sig kw).
Proof.
  intros Hin Hk. unfold missing_args.
  apply (in_map fst _ (p, None)). apply filter_In. split; [exact Hin | ].
  cbn [fst snd]. rewrite Hk. reflexivity.
Qed.

(** A keyword mapping that leaves a parameter without default unset does not
    bind. *)
Lemma bind_kwargs_missing fname sig kw p :
  In (p, None) sig -> has_key p kw = false ->
  exists msg, bind_kwargs fname sig (VDict kw) = Raises (PyError "TypeError" msg).
Proof.
  intros Hin Hk. unfold bind_kwargs.
  destruct (unexpected_kwarg sig kw); [eexists; reflexivity | ].
  pose proof (missing_args_in sig kw p Hin Hk) as Hm.
  destruct (missing_args sig kw); [destruct Hm | eexists; reflexivity].
Qed.

Lemma call_kwargs_missing fname sig kw p body w :
  In (p, None) sig -> has_key p kw = false ->
  exists msg,
    call_kwargs fname sig (VDict kw) body w = raise (PyError "TypeError" msg) w.
Proof.
  intros Hin Hk. destruct (bind_kwargs_missing fname sig kw p Hin Hk) as [msg H].
  exists msg. unfold call_kwargs. rewrite H. reflexivity.
Qed.

(** The branches of the two chains. *)
Lemma unified_dispatch_branches n args :
  In n Unified.branch_names <-> exists h, Unified.dispatch n args = Some h.
Proof.
  unfold Unified.dispatch. split.
  - intros H. cbn [In Unified.branch_names] in H.
    repeat (destruct H as [<- | H]; [eexists; reflexivity | ]). destruct H.
  - intros [h H]. split_chain H; cbn [In Unified.branch_names]; try tauto.
    discriminate H.
Qed.

Lemma app_dispatch_branches n args :
  In n App.branch_names <-> exists h, App.dispatch n args = Some h.
Proof.
  unfold App.dispatch. split.
  - intros H. cbn [In App.branch_names] in H.
    repeat (destruct H as [<- | H]; [eexists; reflexivity | ]). destruct H.
  - intros [h H]. split_chain H; cbn [In App.branch_names]; try tauto.
    discriminate H.
Qed.

Lemma unified_dispatch_none n args :
  ~ In n Unified.branch_names -> Unified.dispatch n args = None.
Proof.
  intros H. destruct (Unified.dispatch n args) eqn:E; [ | reflexivity].
  exfalso. apply H. apply (unified_dispatch_branches n args). eauto.
Qed.

Lemma app_dispatch_none n args :
  ~ In n App.branch_names -> App.dispatch n args = None.
Proof.
  intros H. destruct (App.dispatch n args) eqn:E; [ | reflexivity].
  exfalso. apply H. apply (app_dispatch_branches n args). eauto.
Qed.

(** A branch that passes the arguments on binds them to the signature its
    handler is defined with. *)
Lemma unified_branch_binds n args :
  In n Unified.branch_names -> Unified.passes_kwargs n = true ->
  exists sig body,
    assoc n Unified.signatures = Some sig
    /\ Unified.dispatch n args = Some (call_kwargs n sig args body).
Proof.
  intros H Hp. cbn [In Unified.branch_names] in H.
  repeat (destruct H as [<- | H];
          [first [discriminate Hp | do 2 eexists; split; reflexivity] | ]).
  destruct H.
Qed.

Lemma app_branch_binds n args :
  In n App.branch_names ->
  exists sig body,
    assoc n App.signatures = Some sig
    /\ App.dispatch n args = Some (call_kwargs n sig args body).
Proof.
  intros H. cbn [In App.branch_names] in H.
  repeat (destruct H as [<- | H]; [do 2 eexists; split; reflexivity | ]).
  destruct H.
Qed.

End Binding.

Section Catalog.
Context {RT : Runtime}.

Lemma unified_catalog_ok :
  Forall (entry_ok Unified.branch_names Unified.signatures) Unified.tools.
Proof.
  repeat apply Forall_cons; try apply Forall_nil.
  all: split; [reflexivity | eexists; split; [reflexivity | ]].
  all: repeat apply Forall_cons; try apply Forall_nil; cbn; auto 10.
Qed.

Lemma app_catalog_ok :
  Forall (entry_ok App.branch_names App.signatures) App.tools.
Proof.
  repeat apply Forall_cons; try apply Forall_nil.
  all: split; [reflexivity | eexists; split; [reflexivity | ]].
  all: repeat apply Forall_cons; try apply Forall_nil; cbn; auto 10.
Qed.

Lemma entry_ok_in bn sigs t :
  entry_ok bn sigs t -> In (name t) bn.
Proof.
  intros [H _]. apply (count_occ_In string_dec). rewrite H. lia.
Qed.

(** A call of a cataloged tool whose arguments omit a required parameter
    raises a [TypeError] before the handler's body is entered. *)
Lemma unified_required_is_checked t p kw w :
  In t Unified.tools -> In p (required_params t) -> has_key p kw = false ->
  exists h msg,
    Unified.dispatch (name t) (VDict kw) = Some h
    /\ h w = raise (PyError "TypeError" msg) w.
Proof.
  intros Ht Hp Hk.
  pose proof (proj1 (Forall_forall _ _) unified_catalog_ok t Ht) as Hok.
  pose proof (entry_ok_in _ _ _ Hok) as Hn.
  destruct Hok as [_ [sig [Hsig Hreq]]].
  assert (Hpass : Unified.passes_kwargs (name t) = true).
  { cbn [In Unified.tools] in Ht.
    repeat (destruct Ht as [<- | Ht]; [first [reflexivity | destruct Hp] | ]).
    destruct Ht. }
  destruct (unified_branch_binds (name t) (VDict kw) Hn Hpass)
    as [sig' [body [Hsig' Hd]]].
  rewrite Hsig in Hsig'. injection Hsig' as <-.
  pose proof (proj1 (Forall_forall _ _) Hreq p Hp) as Hin.
  destruct (call_kwargs_missing (name t) sig kw p body w Hin Hk) as [msg Hm].
  eauto.
Qed.

Lemma app_required_is_checked t p kw w :
  In t App.tools -> In p (required_params t) -> has_key p kw = false ->
  exists h msg,
    App.dispatch (name t) (VDict kw) = Some h
    /\ h w = raise (PyError "TypeError" msg) w.
Proof.
  intros Ht Hp Hk.
  pose proof (proj1 (Forall_forall _ _) app_catalog_ok t Ht) as Hok.
  pose proof (entry_ok_in _ _ _ Hok) as Hn.
  destruct Hok as [_ [sig [Hsig Hreq]]].
  destruct (app_branch_binds (name t) (VDict kw) Hn)
    as [sig' [body [Hsig' Hd]]].
  rewrite Hsig in Hsig'. injection Hsig' as <-.
  pose proof (proj1 (Forall_forall _ _) Hreq p Hp) as Hin.
  destruct (call_kwargs_missing (name t) sig kw p body w Hin Hk) as [msg Hm].
  eauto.
Qed.

End Catalog.

(** C4. In both programs every catalog entry is named by exactly one branch
    of the dispatcher's chain and every parameter the entry requires is a
    parameter without default of the handler of that name; the branches of
    the chain are the names listed, and a call of a cataloged tool that omits
    a required parameter raises a [TypeError] at the call. *)
Theorem catalog_matches_dispatcher {RT : Runtime} :
  Forall (entry_ok Unified.branch_names Unified.signatures) Unified.tools
  /\ Forall (entry_ok App.branch_names App.signatures) App.tools
  /\ (forall n args,
        In n Unified.branch_names
        <-> exists h, Unified.dispatch n args = Some h)
  /\ (forall n args,
        In n App.branch_names <-> exists h, App.dispatch n args = Some h)
  /\ (forall t p kw w,
        In t Unified.tools -> In p (required_params t) ->
        has_key p kw = false ->
        exists h msg,
          Unified.dispatch (name t) (VDict kw) = Some h
          /\ h w = raise (PyError "TypeError" msg) w)
  /\ (forall t p kw w,
        In t App.tools -> In p (required_params t) ->
        has_key p kw = false ->
        exists h msg,
          App.dispatch (name t) (VDict kw) = Some h
          /\ h w = raise (PyError "TypeError" msg) w).
Proof.
  split; [exact unified_catalog_ok | ].
  split; [exact app_catalog_ok | ].
  split; [exact unified_dispatch_branches | ].
  split; [exact app_dispatch_branches | ].
  split; [exact unified_required_is_checked | exact app_required_is_checked].
Qed.


Section Claims.
Context {RT : Runtime}.

(** The two handlers of [list_repositories] return a text whatever the world
    answers. *)
Lemma unified_list_repositories_returns username w :
  exists text, value (Unified.list_repositories username w) = Returns text.
Proof.
  unfold Unified.list_repositories. monad_unfold.
  destruct (remote (gh_get_user _) w) as [[user | e] w1]; cbn [fst snd];
    [ | eexists; reflexivity].
  destruct (remote (user_get_repos _) w1) as [[repos | e] w2]; cbn [fst snd];
    eexists; reflexivity.
Qed.

Lemma app_list_repositories_returns username w :
  exists text, value (App.list_repositories username w) = Returns text.
Proof.
  unfold App.list_repositories. monad_unfold.
  destruct (remote (gh_get_user _) w) as [[user | e] w1]; cbn [fst snd];
    [ | eexists; reflexivity].
  destruct (remote (user_get_repos _) w1) as [[repos | e] w2]; cbn [fst snd];
    eexists; reflexivity.
Qed.

End Claims.

(** C5. When the first choice of the model's answer requests no tool call
    (the attribute is missing, [None] or an empty list), the dispatcher of
    either program returns the content of that message as it is, having made
    the model call and no other. *)
Theorem text_reply_is_returned {RT : Runtime} (prompt : string) (w w1 : world)
    (answer : ChatResponse) (choice : Choice) (rest : list Choice) :
  choices answer = choice :: rest ->
  requests_tool_call (message choice) = false ->
  (remote (unified_request prompt) w = (Returns answer, w1) ->
   Unified.get_ai_response prompt w
   = {| value := Returns (content (message choice));
        final := w1;
        calls := [returned (unified_request prompt)];
        output := [] |})
  /\ (remote (app_request prompt) w = (Returns answer, w1) ->
      App.get_ai_response prompt w
      = {| value := Returns (content (message choice));
           final := w1;
           calls := [returned (app_request prompt)];
           output := app_preamble answer |}).
Proof.
  intros Hc Ht. split; intros Hm.
  - rewrite (unified_after_model _ _ _ _ Hm). unfold unified_guard, try_except.
    rewrite (unified_on_text _ _ _ _ Hc Ht). reflexivity.
  - rewrite (app_after_model _ _ _ _ Hm). unfold app_guard, try_except.
    rewrite (app_on_text _ _ _ _ Hc Ht). reflexivity.
Qed.

Section FirstCall.
Context {RT : Runtime}.

(** The run of a dispatcher whose first tool call decodes, selects a branch
    and is answered by the handler with a text. *)
Lemma unified_runs_first_call prompt w w1 answer choice rest tc more args h
    text :
  remote (unified_request prompt) w = (Returns answer, w1) ->
  choices answer = choice :: rest ->
  tool_calls (message choice) = Calls (tc :: more) ->
  json_loads (arguments (function tc)) = Returns args ->
  Unified.dispatch (fn_name (function tc)) args = Some h ->
  value (h w1) = Returns text ->
  Unified.get_ai_response prompt w
  = {| value := Returns (Some text);
       final := final (h w1);
       calls := returned (unified_request prompt) :: calls (h w1);
       output := output (h w1) |}.
Proof.
  intros Hm Hc Ht Hj Hd Hv.
  rewrite (unified_after_model _ _ _ _ Hm). unfold unified_guard, try_except.
  rewrite (unified_on_tool_call _ _ _ _ _ _ Hc Ht), Hj, Hd.
  cbv zeta. rewrite Hv. reflexivity.
Qed.

Lemma app_runs_first_call prompt w w1 answer choice rest tc more args h text :
  remote (app_request prompt) w = (Returns answer, w1) ->
  choices answer = choice :: rest ->
  tool_calls (message choice) = Calls (tc :: more) ->
  json_loads (arguments (function tc)) = Returns args ->
  App.dispatch (fn_name (function tc)) args = Some h ->
  value (h w1) = Returns text ->
  App.get_ai_response prompt w
  = {| value := Returns (Some text);
       final := final (h w1);
       calls := returned (app_request prompt) :: calls (h w1);
       output :=
         (app_preamble answer
          ++ app_announce (fn_name (function tc)) args
          ++ output (h w1)
          ++ [app_result_line text])%list |}.
Proof.
  intros Hm Hc Ht Hj Hd Hv.
  rewrite (app_after_model _ _ _ _ Hm). unfold app_guard, try_except.
  rewrite (app_on_tool_call _ _ _ _ _ _ Hc Ht), Hj, Hd.
  cbv zeta. rewrite Hv. reflexivity.
Qed.

End FirstCall.

(** C8. When the first tool call of the answer names [list_repositories] and
    its arguments decode to the mapping of [username] to [octocat], the
    dispatcher of either program runs its [list_repositories] handler on that
    username, after the model call and with no other call, and returns the
    text the handler returns. *)
Theorem list_repositories_is_dispatched {RT : Runtime} (prompt : string)
    (w w1 : world) (answer : ChatResponse) (choice : Choice)
    (rest : list Choice) (tc : ToolCall) (more : list ToolCall) :
  choices answer = choice :: rest ->
  tool_calls (message choice) = Calls (tc :: more) ->
  fn_name (function tc) = "list_repositories" ->
  json_loads (arguments (function tc))
  = Returns (VDict [("username", VStr "octocat")]) ->
  (remote (unified_request prompt) w = (Returns answer, w1) ->
   let handled := Unified.list_repositories (VStr "octocat") w1 in
   exists text,
     value handled = Returns text
     /\ Unified.get_ai_response prompt w
        = {| value := Returns (Some text);
             final := final handled;
             calls := returned (unified_request prompt) :: calls handled;
             output := output handled |})
  /\ (remote (app_request prompt) w = (Returns answer, w1) ->
      let handled := App.list_repositories (VStr "octocat") w1 in
      exists text,
        value handled = Returns text
        /\ App.get_ai_response prompt w
           = {| value := Returns (Some text);
                final := final handled;
                calls := returned (app_request prompt) :: calls handled;
                output :=
                  (app_preamble answer
                   ++ app_announce "list_repositories"
                        (VDict [("username", VStr "octocat")])
                   ++ output handled
                   ++ [app_result_line text])%list |}).
Proof.
  intros Hc Ht Hn Hj.
  pose proof (@unified_runs_first_call RT) as HU.
  pose proof (@app_runs_first_call RT) as HA.
  split; intros Hm handled.
  - destruct (unified_list_repositories_returns (VStr "octocat") w1)
      as [text Hv].
    exists text. split; [exact Hv | ].
    refine (HU prompt w w1 answer choice rest tc more _
              (call_kwargs "list_repositories" Unified.sig_list_repositories
                 (VDict [("username", VStr "octocat")])
                 (fun a => Unified.list_repositories (a "username")))
              text Hm Hc Ht Hj _ Hv).
    rewrite Hn. reflexivity.
  - destruct (app_list_repositories_returns (VStr "octocat") w1) as [text Hv].
    exists text. split; [exact Hv | ]. rewrite <- Hn.
    refine (HA prompt w w1 answer choice rest tc more _
              (call_kwargs "list_repositories" App.sig_list_repositories
                 (VDict [("username", VStr "octocat")])
                 (fun a => App.list_repositories (a "username")))
              text Hm Hc Ht Hj _ Hv).
    rewrite Hn. reflexivity.
Qed.

Section Unknown.
Context {RT : Runtime}.

(** The run of a dispatcher whose first tool call does not decode. *)
Lemma unified_undecoded prompt w w1 answer choice rest tc more e :
  remote (unified_request prompt) w = (Returns answer, w1) ->
  choices answer = choice :: rest ->
  tool_calls (message choice) = Calls (tc :: more) ->
  json_loads (arguments (function tc)) = Raises e ->
  Unified.get_ai_response prompt w
  = {| value := Returns (Some ("Error: " ++ str_exn e));
       final := w1;
       calls := [returned (unified_request prompt)];
       output := [] |}.
Proof.
  intros Hm Hc Ht Hj.
  rewrite (unified_after_model _ _ _ _ Hm). unfold unified_guard, try_except.
  rewrite (unified_on_tool_call _ _ _ _ _ _ Hc Ht), Hj. reflexivity.
Qed.

Lemma app_undecoded prompt w w1 answer choice rest tc more e :
  remote (app_request prompt) w = (Returns answer, w1) ->
  choices answer = choice :: rest ->
  tool_calls (message choice) = Calls (tc :: more) ->
  json_loads (arguments (function tc)) = Raises e ->
  App.get_ai_response prompt w
  = {| value := Returns (Some ("Error: " ++ str_exn e));
       final := w1;
       calls := [returned (app_request prompt)];
       output :=
         (app_preamble answer
          ++ [app_detected; app_error_line e])%list |}.
Proof.
  intros Hm Hc Ht Hj.
  rewrite (app_after_model _ _ _ _ Hm). unfold app_guard, try_except.
  rewrite (app_on_tool_call _ _ _ _ _ _ Hc Ht), Hj. reflexivity.
Qed.

(** The run of a dispatcher whose first tool call selects a branch that
    raises [e] before any call is made. *)
Lemma unified_branch_raises prompt w w1 answer choice rest tc more args h e :
  remote (unified_request prompt) w = (Returns answer, w1) ->
  choices answer = choice :: rest ->
  tool_calls (message choice) = Calls (tc :: more) ->
  json_loads (arguments (function tc)) = Returns args ->
  Unified.dispatch (fn_name (function tc)) args = Some h ->
  h w1 = raise e w1 ->
  Unified.get_ai_response prompt w
  = {| value := Returns (Some ("Error: " ++ str_exn e));
       final := w1;
       calls := [returned (unified_request prompt)];
       output := [] |}.
Proof.
  intros Hm Hc Ht Hj Hd Hr.
  rewrite (unified_after_model _ _ _ _ Hm). unfold unified_guard, try_except.
  rewrite (unified_on_tool_call _ _ _ _ _ _ Hc Ht), Hj, Hd.
  cbv zeta. rewrite Hr. reflexivity.
Qed.

Lemma app_branch_raises prompt w w1 answer choice rest tc more args h e :
  remote (app_request prompt) w = (Returns answer, w1) ->
  choices answer = choice :: rest ->
  tool_calls (message choice) = Calls (tc :: more) ->
  json_loads (arguments (function tc)) = Returns args ->
  App.dispatch (fn_name (function tc)) args = Some h ->
  h w1 = raise e w1 ->
  App.get_ai_response prompt w
  = {| value := Returns (Some ("Error: " ++ str_exn e));
       final := w1;
       calls := [returned (app_request prompt)];
       output :=
         (app_preamble answer
          ++ app_announce (fn_name (function tc)) args
          ++ [app_error_line e])%list |}.
Proof.
  intros Hm Hc Ht Hj Hd Hr.
  rewrite (app_after_model _ _ _ _ Hm). unfold app_guard, try_except.
  rewrite (app_on_tool_call _ _ _ _ _ _ Hc Ht), Hj, Hd.
  cbv zeta. rewrite Hr. reflexivity.
Qed.

End Unknown.

Section FirstCallRuns.
Context {RT : Runtime}.

(** The run of a dispatcher whose first tool call decodes and selects a
    branch: the model call, then the run of that branch's handler call,
    whose exception the dispatcher catches. *)
Lemma unified_runs_handler prompt w w1 answer choice rest tc more args h :
  remote (unified_request prompt) w = (Returns answer, w1) ->
  choices answer = choice :: rest ->
  tool_calls (message choice) = Calls (tc :: more) ->
  json_loads (arguments (function tc)) = Returns args ->
  Unified.dispatch (fn_name (function tc)) args = Some h ->
  Unified.get_ai_response prompt w
  = {| value := reported (h w1);
       final := final (h w1);
       calls := returned (unified_request prompt) :: calls (h w1);
       output := output (h w1) |}.
Proof.
  intros Hm Hc Ht Hj Hd.
  rewrite (unified_after_model _ _ _ _ Hm). unfold unified_guard, try_except.
  rewrite (unified_on_tool_call _ _ _ _ _ _ Hc Ht), Hj, Hd.
  cbv zeta. unfold reported.
  destruct (h w1) as [[text | e] f c o];
    cbn [value final calls output and_then ret lift app];
    rewrite ?app_nil_r; reflexivity.
Qed.

Lemma app_runs_handler prompt w w1 answer choice rest tc more args h :
  remote (app_request prompt) w = (Returns answer, w1) ->
  choices answer = choice :: rest ->
  tool_calls (message choice) = Calls (tc :: more) ->
  json_loads (arguments (function tc)) = Returns args ->
  App.dispatch (fn_name (function tc)) args = Some h ->
  App.get_ai_response prompt w
  = {| value := reported (h w1);
       final := final (h w1);
       calls := returned (app_request prompt) :: calls (h w1);
       output :=
         (app_preamble answer
          ++ app_announce (fn_name (function tc)) args
          ++ output (h w1)
          ++ [app_last_line (h w1)])%list |}.
Proof.
  intros Hm Hc Ht Hj Hd.
  rewrite (app_after_model _ _ _ _ Hm). unfold app_guard, try_except.
  rewrite (app_on_tool_call _ _ _ _ _ _ Hc Ht), Hj, Hd.
  cbv zeta. unfold reported, app_last_line.
  destruct (h w1) as [[text | e] f c o];
    cbn [value final calls output and_then ret lift app bind print write];
    rewrite ?app_nil_r; reflexivity.
Qed.

Lemma unified_runs_no_handler prompt w w1 answer choice rest tc more args :
  remote (unified_request prompt) w = (Returns answer, w1) ->
  choices answer = choice :: rest ->
  tool_calls (message choice) = Calls (tc :: more) ->
  json_loads (arguments (function tc)) = Returns args ->
  Unified.dispatch (fn_name (function tc)) args = None ->
  Unified.get_ai_response prompt w
  = {| value := Returns (content (message choice));
       final := w1;
       calls := [returned (unified_request prompt)];
       output := [] |}.
Proof.
  intros Hm Hc Ht Hj Hd.
  rewrite (unified_after_model _ _ _ _ Hm). unfold unified_guard, try_except.
  rewrite (unified_on_tool_call _ _ _ _ _ _ Hc Ht), Hj, Hd. reflexivity.
Qed.

Lemma app_runs_no_handler prompt w w1 answer choice rest tc more args :
  remote (app_request prompt) w = (Returns answer, w1) ->
  choices answer = choice :: rest ->
  tool_calls (message choice) = Calls (tc :: more) ->
  json_loads (arguments (function tc)) = Returns args ->
  App.dispatch (fn_name (function tc)) args = None ->
  App.get_ai_response prompt w
  = {| value := Returns (Some ("Error: " ++ str_exn App.unbound_result));
       final := w1;
       calls := [returned (app_request prompt)];
       output :=
         (app_preamble answer
          ++ app_announce (fn_name (function tc)) args
          ++ [app_error_line App.unbound_result])%list |}.
Proof.
  intros Hm Hc Ht Hj Hd.
  rewrite (app_after_model _ _ _ _ Hm). unfold app_guard, try_except.
  rewrite (app_on_tool_call _ _ _ _ _ _ Hc Ht), Hj, Hd. reflexivity.
Qed.

End FirstCallRuns.

(** C3, as amended. The dispatcher of either program treats an answer as it
    treats the answer with every tool call but the first removed. What it
    does with the first one: when its arguments do not decode, it runs no
    handler and returns [Error: ] and the message; when they decode and the
    name is tested by a branch, it runs that branch's handler call once,
    after the model call and with no other call, and returns the text the
    handler call returns or, when the call raises, [Error: ] and the message;
    when no branch tests the name, it runs no handler, and
    [unified_app.py] returns the content of the message, [app.py] the text
    for the [UnboundLocalError]. *)
Theorem only_first_tool_call_is_executed {RT : Runtime} (prompt : string)
    (w w1 : world) (answer : ChatResponse) (choice : Choice)
    (rest : list Choice) (tc : ToolCall) (more : list ToolCall) :
  choices answer = choice :: rest ->
  tool_calls (message choice) = Calls (tc :: more) ->
  (Unified.handle_response answer w1
   = Unified.handle_response (first_calls_only answer) w1
   /\ (remote (unified_request prompt) w = (Returns answer, w1) ->
       match json_loads (arguments (function tc)) with
       | Raises e =>
           Unified.get_ai_response prompt w
           = {| value := Returns (Some ("Error: " ++ str_exn e));
                final := w1;
                calls := [returned (unified_request prompt)];
                output := [] |}
       | Returns args =>
           match Unified.dispatch (fn_name (function tc)) args with
           | Some h =>
               In (fn_name (function tc)) Unified.branch_names
               /\ Unified.get_ai_response prompt w
                  = {| value := reported (h w1);
                       final := final (h w1);
                       calls := returned (unified_request prompt)
                                :: calls (h w1);
                       output := output (h w1) |}
           | None =>
               ~ In (fn_name (function tc)) Unified.branch_names
               /\ Unified.get_ai_response prompt w
                  = {| value := Returns (content (message choice));
                       final := w1;
                       calls := [returned (unified_request prompt)];
                       output := [] |}
           end
       end))
  /\ (App.handle_response answer w1
      = App.handle_response (first_calls_only answer) w1
      /\ (remote (app_request prompt) w = (Returns answer, w1) ->
          match json_loads (arguments (function tc)) with
          | Raises e =>
              App.get_ai_response prompt w
              = {| value := Returns (Some ("Error: " ++ str_exn e));
                   final := w1;
                   calls := [returned (app_request prompt)];
                   output :=
                     (app_preamble answer
                      ++ [app_detected; app_error_line e])%list |}
          | Returns args =>
              match App.dispatch (fn_name (function tc)) args with
              | Some h =>
                  In (fn_name (function tc)) App.branch_names
                  /\ App.get_ai_response prompt w
                     = {| value := reported (h w1);
                          final := final (h w1);
                          calls := returned (app_request prompt)
                                   :: calls (h w1);
                          output :=
                            (app_preamble answer
                             ++ app_announce (fn_name (function tc)) args
                             ++ output (h w1)
                             ++ [app_last_line (h w1)])%list |}
              | None =>
                  ~ In (fn_name (function tc)) App.branch_names
                  /\ App.get_ai_response prompt w
                     = {| value :=
                            Returns
                              (Some ("Error: " ++ str_exn App.unbound_result));
                          final := w1;
                          calls := [returned (app_request prompt)];
                          output :=
                            (app_preamble answer
                             ++ app_announce (fn_name (function tc)) args
                             ++ [app_error_line App.unbound_result])%list |}
              end
          end)).
Proof.
  intros Hc Ht. split; split.
  - apply unified_ignores_other_calls.
  - intros Hm.
    destruct (json_loads (arguments (function tc))) as [args | e] eqn:Hj.
    2: exact (unified_undecoded _ _ _ _ _ _ _ _ _ Hm Hc Ht Hj).
    destruct (Unified.dispatch (fn_name (function tc)) args) as [h | ] eqn:Hd.
    + split.
      * apply (unified_dispatch_branches _ args). exists h. exact Hd.
      * exact (unified_runs_handler _ _ _ _ _ _ _ _ _ _ Hm Hc Ht Hj Hd).
    + split.
      * intros Hin. apply (unified_dispatch_branches _ args) in Hin.
        destruct Hin as [h Hh]. rewrite Hd in Hh. discriminate Hh.
      * exact (unified_runs_no_handler _ _ _ _ _ _ _ _ _ Hm Hc Ht Hj Hd).
  - apply app_ignores_other_calls.
  - intros Hm.
    destruct (json_loads (arguments (function tc))) as [args | e] eqn:Hj.
    2: exact (app_undecoded _ _ _ _ _ _ _ _ _ Hm Hc Ht Hj).
    destruct (App.dispatch (fn_name (function tc)) args) as [h | ] eqn:Hd.
    + split.
      * apply (app_dispatch_branches _ args). exists h. exact Hd.
      * exact (app_runs_handler _ _ _ _ _ _ _ _ _ _ Hm Hc Ht Hj Hd).
    + split.
      * intros Hin. apply (app_dispatch_branches _ args) in Hin.
        destruct Hin as [h Hh]. rewrite Hd in Hh. discriminate Hh.
      * exact (app_runs_no_handler _ _ _ _ _ _ _ _ _ Hm Hc Ht Hj Hd).
Qed.

(** C9, as amended. When the first tool call's arguments decode and its name
    is tested by no branch, the dispatcher of [unified_app.py] returns the
    content of the message, and the dispatcher of [app.py] returns the text
    [Error: ] followed by the message of the [UnboundLocalError] (a
    [NameError]) on [result]; either makes the model call and no other. *)
Theorem unknown_tool_name {RT : Runtime} (prompt : string) (w w1 : world)
    (answer : ChatResponse) (choice : Choice) (rest : list Choice)
    (tc : ToolCall) (more : list ToolCall) (args : pyval) :
  choices answer = choice :: rest ->
  tool_calls (message choice) = Calls (tc :: more) ->
  json_loads (arguments (function tc)) = Returns args ->
  (~ In (fn_name (function tc)) Unified.branch_names ->
   remote (unified_request prompt) w = (Returns answer, w1) ->
   Unified.get_ai_response prompt w
   = {| value := Returns (content (message choice));
        final := w1;
        calls := [returned (unified_request prompt)];
        output := [] |})
  /\ (~ In (fn_name (function tc)) App.branch_names ->
      remote (app_request prompt) w = (Returns answer, w1) ->
      App.get_ai_response prompt w
      = {| value := Returns (Some ("Error: " ++ str_exn App.unbound_result));
           final := w1;
           calls := [returned (app_request prompt)];
           output :=
             (app_preamble answer
              ++ app_announce (fn_name (function tc)) args
              ++ [app_error_line App.unbound_result])%list |}).
Proof.
  intros Hc Ht Hj. split; intros Hn Hm.
  - rewrite (unified_after_model _ _ _ _ Hm). unfold unified_guard, try_except.
    rewrite (unified_on_tool_call _ _ _ _ _ _ Hc Ht), Hj.
    rewrite (unified_dispatch_none _ _ Hn). reflexivity.
  - rewrite (app_after_model _ _ _ _ Hm). unfold app_guard, try_except.
    rewrite (app_on_tool_call _ _ _ _ _ _ Hc Ht), Hj.
    rewrite (app_dispatch_none _ _ Hn). reflexivity.
Qed.

(** C2, as amended. When the first tool call's arguments do not decode, or
    decode to a mapping that omits a parameter the catalog entry of the named
    tool requires, the exception is caught by the [except] clause of the
    dispatcher itself: [get_ai_response] returns the text [Error: ] followed
    by the exception's message, after the model call and no other, and raises
    nothing to its caller. *)
Theorem malformed_arguments_are_caught {RT : Runtime} (prompt : string)
    (w w1 : world) (answer : ChatResponse) (choice : Choice)
    (rest : list Choice) (tc : ToolCall) (more : list ToolCall) :
  choices answer = choice :: rest ->
  tool_calls (message choice) = Calls (tc :: more) ->
  (forall e,
     json_loads (arguments (function tc)) = Raises e ->
     (remote (unified_request prompt) w = (Returns answer, w1) ->
      Unified.get_ai_response prompt w
      = {| value := Returns (Some ("Error: " ++ str_exn e));
           final := w1;
           calls := [returned (unified_request prompt)];
           output := [] |})
     /\ (remote (app_request prompt) w = (Returns answer, w1) ->
         App.get_ai_response prompt w
         = {| value := Returns (Some ("Error: " ++ str_exn e));
              final := w1;
              calls := [returned (app_request prompt)];
              output :=
                (app_preamble answer
                 ++ [app_detected; app_error_line e])%list
           |}))
  /\ (forall t p kw,
        fn_name (function tc) = name t ->
        In p (required_params t) ->
        json_loads (arguments (function tc)) = Returns (VDict kw) ->
        has_key p kw = false ->
        (In t Unified.tools ->
         remote (unified_request prompt) w = (Returns answer, w1) ->
         exists msg,
           Unified.get_ai_response prompt w
           = {| value := Returns (Some ("Error: " ++ msg));
                final := w1;
                calls := [returned (unified_request prompt)];
                output := [] |})
        /\ (In t App.tools ->
            remote (app_request prompt) w = (Returns answer, w1) ->
            exists msg,
              value (App.get_ai_response prompt w)
              = Returns (Some ("Error: " ++ msg))
              /\ final (App.get_ai_response prompt w) = w1
              /\ calls (App.get_ai_response prompt w)
                 = [returned (app_request prompt)])).
Proof.
  intros Hc Ht. split.
  - intros e Hj. split; intros Hm.
    + exact (unified_undecoded _ _ _ _ _ _ _ _ _ Hm Hc Ht Hj).
    + exact (app_undecoded _ _ _ _ _ _ _ _ _ Hm Hc Ht Hj).
  - intros t p kw Hn Hp Hj Hk. split; intros Hin Hm.
    + destruct (unified_required_is_checked t p kw w1 Hin Hp Hk)
        as [h [msg [Hd Hr]]].
      exists msg. rewrite <- Hn in Hd.
      exact (unified_branch_raises _ _ _ _ _ _ _ _ _ _ _ Hm Hc Ht Hj Hd Hr).
    + destruct (app_required_is_checked t p kw w1 Hin Hp Hk)
        as [h [msg [Hd Hr]]].
      exists msg. rewrite <- Hn in Hd.
      rewrite (app_branch_raises _ _ _ _ _ _ _ _ _ _ _ Hm Hc Ht Hj Hd Hr).
      repeat split.
Qed.


Section Quiet.
Context {RT : Runtime}.

Lemma quiet_lift {A : Type} (o : outcome A) : quiet (lift o).
Proof. intros w. constructor. Qed.

Lemma quiet_ret {A : Type} (a : A) : quiet (ret a).
Proof. apply quiet_lift. Qed.

Lemma quiet_raise {A : Type} (e : exn) : quiet (@raise _ A e).
Proof. apply quiet_lift. Qed.

Lemma quiet_write (text : string) : quiet (write text).
Proof. intros w. constructor. Qed.

Lemma quiet_print (text : string) : quiet (print text).
Proof. apply quiet_write. Qed.

Lemma quiet_call (r : request) : is_model_call r = false -> quiet (call r).
Proof. intros H w. repeat constructor. exact H. Qed.

Lemma quiet_bind {A B : Type} (m : M A) (k : A -> M B) :
  quiet m -> (forall a, quiet (k a)) -> quiet (bind m k).
Proof.
  intros Hm Hk w. unfold bind. specialize (Hm w).
  destruct (value (m w)) as [a | e]; [ | exact Hm].
  apply Forall_app. split; [exact Hm | apply Hk].
Qed.

Lemma quiet_try {A : Type} (body : M A) (handler : exn -> M A) :
  quiet body -> (forall e, quiet (handler e)) -> quiet (try_except body handler).
Proof.
  intros Hb Hh w. unfold try_except. specialize (Hb w).
  destruct (value (body w)) as [a | e]; [exact Hb | ].
  apply Forall_app. split; [exact Hb | apply Hh].
Qed.

End Quiet.

Ltac quiet_step :=
  match goal with
  | |- quiet (bind _ _) => apply quiet_bind; [ | intros ? ]
  | |- quiet (try_except _ _) => apply quiet_try; [ | intros ? ]
  | |- quiet (Unified.or_usage _ _) => apply quiet_try; [ | intros ? ]
  | |- quiet (call _) => apply quiet_call; reflexivity
  | |- quiet (ret _) => apply quiet_ret
  | |- quiet (raise _) => apply quiet_raise
  | |- quiet (lift _) => apply quiet_lift
  | |- quiet (write _) => apply quiet_write
  | |- quiet (print _) => apply quiet_print
  | |- quiet (Unified.error_of _) => apply quiet_ret
  | |- quiet (except_SlackApiError _ ?e) =>
      unfold except_SlackApiError; destruct (is_SlackApiError e)
  | |- quiet (if ?b then _ else _) => destruct b
  | |- quiet (match ?x with _ => _ end) => destruct x
  end.

Ltac quiet_auto := repeat quiet_step.

Section Shortcuts.
Context {RT : Runtime}.

Lemma quiet_slack_list_channels limit : quiet (Unified.slack_list_channels limit).
Proof. unfold Unified.slack_list_channels. quiet_auto. Qed.

Lemma quiet_slack_post_message c t : quiet (Unified.slack_post_message c t).
Proof. unfold Unified.slack_post_message. quiet_auto. Qed.

Lemma quiet_slack_reply_to_thread c ts t :
  quiet (Unified.slack_reply_to_thread c ts t).
Proof. unfold Unified.slack_reply_to_thread. quiet_auto. Qed.

Lemma quiet_slack_add_reaction c ts r :
  quiet (Unified.slack_add_reaction c ts r).
Proof. unfold Unified.slack_add_reaction. quiet_auto. Qed.

Lemma quiet_slack_get_channel_history c l :
  quiet (Unified.slack_get_channel_history c l).
Proof. unfold Unified.slack_get_channel_history. quiet_auto. Qed.

Lemma shortcut_is_quiet user_input :
  Unified.is_shortcut user_input = true -> quiet (Unified.respond user_input).
Proof.
  unfold Unified.is_shortcut, Unified.respond. intros H.
  destruct (String.eqb _ "list channels").
  { quiet_auto. apply quiet_slack_list_channels. }
  destruct (Str.startswith _ "send message").
  { destruct (Str.split _ _ _) as [ | p0 [ | p1 [ | ]]]; quiet_auto.
    apply quiet_slack_post_message. }
  destruct (Str.startswith _ "reply").
  { quiet_auto. apply quiet_slack_reply_to_thread. }
  destruct (Str.startswith _ "add reaction").
  { quiet_auto. apply quiet_slack_add_reaction. }
  destruct (Str.startswith _ "show history").
  { quiet_auto. apply quiet_slack_get_channel_history. }
  discriminate H.
Qed.

End Shortcuts.


Section Loop.
Context {RT : Runtime}.

Lemma is_quit_iff user_input :
  is_quit user_input = true
  <-> In (Str.lower user_input) ["quit"; "exit"; "q"].
Proof.
  unfold is_quit. rewrite existsb_exists. split.
  - intros [x [Hin Heq]]. apply String.eqb_eq in Heq. subst x. exact Hin.
  - intros H. exists (Str.lower user_input). split; [exact H | ].
    apply String.eqb_refl.
Qed.

Lemma shortcut_is_not_quit user_input :
  Unified.is_shortcut user_input = true -> is_quit user_input = false.
Proof.
  intros H. destruct (is_quit user_input) eqn:Hq; [ | reflexivity].
  apply is_quit_iff in Hq. unfold Unified.is_shortcut in H.
  cbn [In] in Hq. destruct Hq as [Hq | [Hq | [Hq | []]]];
    rewrite <- Hq in H; discriminate H.
Qed.

Lemma unified_quit user_input rest w :
  is_quit user_input = true ->
  Unified.loop (user_input :: rest) w = says_goodbye w.
Proof.
  intros H. cbn [Unified.loop]. rewrite H. reflexivity.
Qed.

Lemma app_quit user_input rest w :
  is_quit user_input = true ->
  App.loop (user_input :: rest) w = says_goodbye w.
Proof.
  intros H. cbn [App.loop]. rewrite H. reflexivity.
Qed.

Lemma unified_loop_step x rest w :
  is_quit x = false ->
  Unified.loop (x :: rest) w
  = iteration (Unified.turn x w) (Unified.loop rest).
Proof.
  intros H. cbn [Unified.loop]. rewrite H.
  unfold iteration, bind, and_then, write. cbn [value final calls output app].
  destruct (Unified.turn x w) as [[[] | e] f c o]; reflexivity.
Qed.

Lemma app_loop_step x rest w :
  is_quit x = false ->
  App.loop (x :: rest) w = iteration (App.turn x w) (App.loop rest).
Proof.
  intros H. cbn [App.loop]. rewrite H.
  unfold iteration, bind, and_then, write. cbn [value final calls output app].
  destruct (App.turn x w) as [[[] | e] f c o]; reflexivity.
Qed.

(** The calls of a session that reaches a quit token are those of the turns
    before it. *)
Lemma unified_calls_before_quit user_input rest pre :
  is_quit user_input = true ->
  forall w,
    calls (Unified.loop (pre ++ user_input :: rest) w)
    = calls (Unified.loop pre w).
Proof.
  intros H. induction pre as [ | x pre IH]; intros w.
  - cbn [app]. rewrite (unified_quit _ _ _ H). reflexivity.
  - cbn [app]. destruct (is_quit x) eqn:Hx.
    + rewrite !(unified_quit _ _ _ Hx). reflexivity.
    + rewrite !(unified_loop_step _ _ _ Hx). unfold iteration.
      destruct (value (Unified.turn x w)); [ | reflexivity].
      cbn [calls]. rewrite IH. reflexivity.
Qed.

Lemma app_calls_before_quit user_input rest pre :
  is_quit user_input = true ->
  forall w,
    calls (App.loop (pre ++ user_input :: rest) w) = calls (App.loop pre w).
Proof.
  intros H. induction pre as [ | x pre IH]; intros w.
  - cbn [app]. rewrite (app_quit _ _ _ H). reflexivity.
  - cbn [app]. destruct (is_quit x) eqn:Hx.
    + rewrite !(app_quit _ _ _ Hx). reflexivity.
    + rewrite !(app_loop_step _ _ _ Hx). unfold iteration.
      destruct (value (App.turn x w)); [ | reflexivity].
      cbn [calls]. rewrite IH. reflexivity.
Qed.

Lemma unified_turn_prints user_input w :
  match value (Unified.respond user_input w) with
  | Returns (Some text) =>
      value (Unified.turn user_input w) = Returns tt
      /\ output (Unified.turn user_input w)
         = (output (Unified.respond user_input w)
            ++ [((newline ++ text) ++ newline)%string])%list
  | Returns None => exists e, value (Unified.turn user_input w) = Raises e
  | Raises e => value (Unified.turn user_input w) = Raises e
  end.
Proof.
  unfold Unified.turn, bind.
  destruct (Unified.respond user_input w) as [[[text | ] | e] f c o];
    cbn [value final calls output and_then Unified.concat_newline ret raise lift
         print write app].
  - split; reflexivity.
  - eexists. reflexivity.
  - reflexivity.
Qed.

Lemma value_bind_some {A : Type} (m : M A) (f : A -> string) w :
  value (bind m (fun a => ret (Some (f a))) w) <> Returns None.
Proof.
  unfold bind. destruct (value (m w)); cbn [value and_then ret lift];
    discriminate.
Qed.

Lemma shortcut_responds user_input w :
  Unified.is_shortcut user_input = true ->
  value (Unified.respond user_input w) <> Returns None.
Proof.
  unfold Unified.is_shortcut, Unified.respond. intros H.
  destruct (String.eqb _ "list channels").
  { apply (value_bind_some _ (fun r => r)). }
  destruct (Str.startswith _ "send message").
  { destruct (Str.split _ _ _) as [ | p0 [ | p1 [ | ]]];
      try discriminate. apply (value_bind_some _ (fun r => r)). }
  destruct (Str.startswith _ "reply").
  { apply (value_bind_some _ (fun r => r)). }
  destruct (Str.startswith _ "add reaction").
  { apply (value_bind_some _ (fun r => r)). }
  destruct (Str.startswith _ "show history").
  { apply (value_bind_some _ (fun r => r)). }
  discriminate H.
Qed.

End Loop.

(** C7. A line that is [quit], [exit] or [q] up to case ends the loop of
    either program on that iteration: the loop returns after printing the
    farewell, no call is made, nothing after the line is read, and the calls of
    the whole session are those of the lines before it. *)
Theorem quit_token_ends_loop {RT : Runtime} (user_input : string)
    (rest : list string) (w : world) :
  In (Str.lower user_input) ["quit"; "exit"; "q"] ->
  Unified.loop (user_input :: rest) w = says_goodbye w
  /\ App.loop (user_input :: rest) w = says_goodbye w
  /\ (forall pre w0,
        calls (Unified.loop (pre ++ user_input :: rest) w0)
        = calls (Unified.loop pre w0))
  /\ (forall pre w0,
        calls (App.loop (pre ++ user_input :: rest) w0)
        = calls (App.loop pre w0)).
Proof.
  intros H. apply is_quit_iff in H. repeat split.
  - apply unified_quit, H.
  - apply app_quit, H.
  - intros pre w0. apply unified_calls_before_quit, H.
  - intros pre w0. apply app_calls_before_quit, H.
Qed.

(** C6. A line that is a local command shortcut is no quit token, and the
    iteration that handles it makes no call to the model; when the command's
    branch yields its response the iteration prints it. *)
Theorem shortcut_never_calls_model {RT : Runtime} (user_input : string)
    (w : world) :
  Unified.is_shortcut user_input = true ->
  is_quit user_input = false
  /\ no_model_call (calls (Unified.turn user_input w))
  /\ match value (Unified.respond user_input w) with
     | Returns (Some text) =>
         value (Unified.turn user_input w) = Returns tt
         /\ output (Unified.turn user_input w)
            = (output (Unified.respond user_input w)
               ++ [((newline ++ text) ++ newline)%string])%list
     | Returns None => False
     | Raises e => value (Unified.turn user_input w) = Raises e
     end.
Proof.
  intros H. split; [apply shortcut_is_not_quit, H | ]. split.
  - unfold Unified.turn.
    apply quiet_bind; [apply shortcut_is_quiet, H | intros response].
    destruct response; unfold Unified.concat_newline; quiet_auto.
  - generalize (unified_turn_prints user_input w).
    destruct (value (Unified.respond user_input w)) as [[text | ] | e] eqn:Hv;
      try (intros Ht; exact Ht).
    intros _. exact (shortcut_responds user_input w H Hv).
Qed.


Ltac which_raised H :=
  cbn [app In] in H;
  repeat match type of H with
    | _ \/ _ => destruct H as [H | H]
    | False => contradiction
    | {| ev_request := _; ev_raised := None |} = _ => discriminate H
    | {| ev_request := _; ev_raised := Some _ |} = _ =>
        injection H as _ H; subst
    end.

Ltac run_builtin :=
  match goal with
  | |- context [py_startswith ?v ?p] =>
      destruct (py_startswith v p) as [[ | ] | ?]
  | |- context [py_min_200 ?v] => destruct (py_min_200 v) as [? | ?]
  | |- context [py_lstrip_hash ?v] => destruct (py_lstrip_hash v) as [? | ?]
  | |- context [py_basename ?v] => destruct (py_basename v) as [? | ?]
  | |- context [if ok ?r then _ else _] => destruct (ok r)
  | |- context [if is_SlackApiError ?e then _ else _] =>
      destruct e; cbn [is_SlackApiError]
  | |- context [match ?e with SlackApiError _ _ => _ | PyError _ _ => _ end] =>
      is_var e; destruct e
  | |- context [if String.eqb ?a ?b then _ else _] => destruct (String.eqb a b)
  end.

Ltac run_handler := monad_unfold; repeat first [run_remote | run_builtin].

Ltac by_coverage Hcov :=
  exfalso;
  let H := fresh in
  assert (H : is_SlackApiError (PyError _ _) = true)
    by (apply Hcov; cbn [In slack_only]; tauto);
  discriminate H.

Lemma unified_errors {RT : Runtime} fn args h w e :
  Unified.dispatch fn args = Some h ->
  raised_in (h w) e ->
  (In fn slack_only -> is_SlackApiError e = true) ->
  exists text, value (h w) = Returns text /\
    (text = "Error: " ++ str_exn e
     \/ (In fn ["send_slack_message"; "slack_post_message"]
         /\ exists m code, e = SlackApiError m code
            /\ (Str.startswith text "Error: " = true
                \/ text = "Slack API Error: " ++ code))).
Proof.
  intros Hd Hr Hcov. unfold Unified.dispatch in Hd.
  split_chain Hd; try discriminate Hd; injection Hd as <-; revert Hr; unfold raised_in.
  all: try (unfold call_kwargs; destruct (bind_kwargs _ _ _) as [a | e0];
       [ | intros [q []] ]).
  all: unfold Unified.create_repository, Unified.list_repositories,
      Unified.create_jira_issue, Unified.list_jira_projects,
      Unified.create_confluence_page, Unified.list_confluence_spaces,
      Unified.send_slack_message, Unified.upload_file_to_slack,
      Unified.slack_get_thread_replies, Unified.slack_get_users,
      Unified.slack_get_user_profile, Unified.slack_list_channels,
      Unified.slack_post_message, Unified.slack_reply_to_thread,
      Unified.slack_add_reaction, Unified.slack_get_channel_history;
    run_handler; intros [q H]; which_raised H.
  all: try by_coverage Hcov.
  all: try (eexists; split; [reflexivity | left; reflexivity]).
  all: eexists; split; [reflexivity | right; split; [cbn [In]; tauto | ]].
  all: do 2 eexists; split; [reflexivity | ].
  all: first [left; reflexivity | right; reflexivity].
Qed.

Lemma app_errors {RT : Runtime} fn args h w e :
  App.dispatch fn args = Some h ->
  raised_in (h w) e ->
  exists doing,
    value (h w) = Returns ("Error " ++ doing ++ ": " ++ str_exn e).
Proof.
  intros Hd Hr. unfold App.dispatch in Hd.
  split_chain Hd; try discriminate Hd; injection Hd as <-; revert Hr;
    unfold raised_in.
  all: unfold call_kwargs; destruct (bind_kwargs _ _ _) as [a | e0];
    [ | intros [q []] ].
  all: unfold App.create_repository, App.list_repositories,
      App.create_github_issue, App.list_repository_issues, App.upload_file;
    run_handler; intros [q H]; which_raised H.
  all: eexists; reflexivity.
Qed.

(** C1, as amended. In [unified_app.py], when a call that a handler makes
    into a remote client raises an exception that the handler's [except]
    clauses cover (any exception for the GitHub, Jira and Confluence handlers,
    [send_slack_message] and [slack_post_message]; a [SlackApiError] for the
    other eight Slack handlers), the handler returns the text [Error: ]
    followed by the exception's message; for [send_slack_message] and
    [slack_post_message] on a [SlackApiError] the text is one of their fixed
    [Error: ] texts or [Slack API Error: ] followed by the error code. In
    [app.py], when a call a handler makes raises, the handler returns
    [Error <activity>: ] followed by the exception's message. In both cases
    nothing is raised to the caller. *)
Theorem handlers_return_error_text {RT : Runtime} (fn : string) (args : pyval)
    (h : M string) (w : world) (e : exn) :
  raised_in (h w) e ->
  (Unified.dispatch fn args = Some h ->
   (In fn slack_only -> is_SlackApiError e = true) ->
   exists text,
     value (h w) = Returns text
     /\ (text = "Error: " ++ str_exn e
         \/ (In fn ["send_slack_message"; "slack_post_message"]
             /\ exists m code,
                  e = SlackApiError m code
                  /\ (Str.startswith text "Error: " = true
                      \/ text = "Slack API Error: " ++ code))))
  /\ (App.dispatch fn args = Some h ->
      exists doing,
        value (h w) = Returns ("Error " ++ doing ++ ": " ++ str_exn e)).
Proof.
  intros Hr. split.
  - intros Hd Hcov. exact (unified_errors fn args h w e Hd Hr Hcov).
  - intros Hd. exact (app_errors fn args h w e Hd Hr).
Qed.


(** The quit token in upper case, read first, with a line after it. *)
Lemma quit_token_ends_loop_witness :
  In (Str.lower "QUIT") ["quit"; "exit"; "q"]
  /\ @Unified.loop Fixture.chatty ["QUIT"; "hello"] tt
     = @says_goodbye Fixture.chatty tt
  /\ @App.loop Fixture.chatty ["QUIT"; "hello"] tt
     = @says_goodbye Fixture.chatty tt.
Proof.
  assert (H : In (Str.lower "QUIT") ["quit"; "exit"; "q"])
    by (left; reflexivity).
  pose proof (@quit_token_ends_loop Fixture.chatty "QUIT" ["hello"] tt H)
    as [HU [HA _]].
  split; [exact H | split; [exact HU | exact HA]].
Defined.

(** The shortcut [list channels], in mixed case. *)
Lemma shortcut_never_calls_model_witness :
  Unified.is_shortcut "List Channels" = true
  /\ @no_model_call
       (calls (@Unified.turn Fixture.chatty "List Channels" tt)).
Proof.
  assert (H : Unified.is_shortcut "List Channels" = true) by reflexivity.
  split; [exact H | ].
  exact (proj1 (proj2
           (@shortcut_never_calls_model Fixture.chatty "List Channels" tt H))).
Defined.

(** An answer of plain text. *)
Lemma text_reply_is_returned_witness :
  value (@Unified.get_ai_response Fixture.chatty "hi" tt)
  = Returns (Some "hello")
  /\ value (@App.get_ai_response Fixture.chatty "hi" tt)
     = Returns (Some "hello").
Proof.
  pose proof (@text_reply_is_returned Fixture.chatty "hi" tt tt
                (Fixture.responding IsNone (Some "hello"))
                {| message := {| tool_calls := IsNone;
                                 content := Some "hello" |} |}
                [] eq_refl eq_refl) as [HU HA].
  split.
  - rewrite (HU eq_refl). reflexivity.
  - rewrite (HA eq_refl). reflexivity.
Defined.

(** Two tool calls, the first of [list_repositories] for [octocat]: either
    program runs that handler, and it alone. *)
Lemma only_first_tool_call_is_executed_witness :
  let RT := Fixture.asking "list_repositories" Fixture.octocat_payload None in
  (value (@Unified.get_ai_response RT "hi" tt)
   = Returns (Some (Unified.bullet ++ "hello: No description"))
   /\ requests (@Unified.get_ai_response RT "hi" tt)
      = [ unified_request "hi"; gh_get_user (Some (VStr "octocat"));
          user_get_repos Fixture.a_user ])
  /\ (value (@App.get_ai_response RT "hi" tt)
      = Returns (Some (App.bullet ++ "hello: No description"))
      /\ requests (@App.get_ai_response RT "hi" tt)
         = [ app_request "hi"; gh_get_user (Some (VStr "octocat"));
             user_get_repos Fixture.a_user ]).
Proof.
  intros RT.
  pose proof (@only_first_tool_call_is_executed RT "hi" tt tt
                (asked_answer "list_repositories" Fixture.octocat_payload
                   None)
                (asked "list_repositories" Fixture.octocat_payload None)
                [] _ _ eq_refl eq_refl) as [[_ HU] [_ HA]].
  split.
  - destruct (HU eq_refl) as [_ E]. rewrite E. split; reflexivity.
  - destruct (HA eq_refl) as [_ E]. rewrite E. split; reflexivity.
Defined.

(** A first tool call of [list_repositories] without its [username]: no
    handler is run, only the model is called, and the text returned is the
    dispatcher's, not a handler's. *)
Lemma first_tool_call_not_executed_example :
  let RT := Fixture.asking "list_repositories" "{}" None in
  (requests (@Unified.get_ai_response RT "hi" tt) = [unified_request "hi"]
   /\ exists msg,
        value (@Unified.get_ai_response RT "hi" tt)
        = Returns (Some ("Error: " ++ msg)))
  /\ (requests (@App.get_ai_response RT "hi" tt) = [app_request "hi"]
      /\ exists msg,
           value (@App.get_ai_response RT "hi" tt)
           = Returns (Some ("Error: " ++ msg))).
Proof.
  intros RT. split; (split; [reflexivity | eexists; reflexivity]).
Qed.

(** The same answer, through the claim on [list_repositories]. *)
Lemma list_repositories_is_dispatched_witness :
  let RT := Fixture.asking "list_repositories" Fixture.octocat_payload None in
  exists text,
    value (@Unified.list_repositories RT (VStr "octocat") tt) = Returns text
    /\ value (@Unified.get_ai_response RT "hi" tt) = Returns (Some text).
Proof.
  intros RT.
  destruct (proj1 (@list_repositories_is_dispatched RT "hi" tt tt
                     (asked_answer "list_repositories"
                        Fixture.octocat_payload None)
                     (asked "list_repositories" Fixture.octocat_payload None)
                     [] _ _ eq_refl eq_refl eq_refl eq_refl) eq_refl)
    as [text [Hv Hr]].
  exists text. split; [exact Hv | rewrite Hr; reflexivity].
Defined.

(** A tool name no branch tests, with arguments that decode. *)
Lemma unknown_tool_name_witness :
  ~ In "foo" Unified.branch_names
  /\ ~ In "foo" App.branch_names
  /\ value (@Unified.get_ai_response
              (Fixture.asking "foo" "{}" (Some "text")) "hi" tt)
     = Returns (Some "text")
  /\ value (@App.get_ai_response
              (Fixture.asking "foo" "{}" (Some "text")) "hi" tt)
     = Returns (Some ("Error: " ++ str_exn App.unbound_result)).
Proof.
  assert (HU : ~ In "foo" Unified.branch_names).
  { cbn [In Unified.branch_names]. intros H.
    repeat (destruct H as [H | H]; [discriminate H | ]). exact H. }
  assert (HA : ~ In "foo" App.branch_names).
  { cbn [In App.branch_names]. intros H.
    repeat (destruct H as [H | H]; [discriminate H | ]). exact H. }
  pose proof (@unknown_tool_name (Fixture.asking "foo" "{}" (Some "text"))
                "hi" tt tt (asked_answer "foo" "{}" (Some "text"))
                (asked "foo" "{}" (Some "text")) [] _ _
                (VDict []) eq_refl eq_refl eq_refl) as [H1 H2].
  split; [exact HU | split; [exact HA | split]].
  - rewrite (H1 HU eq_refl). reflexivity.
  - rewrite (H2 HA eq_refl). reflexivity.
Defined.

(** A tool name no branch tests, with arguments that do not decode: the
    dispatcher of [unified_app.py] returns an error text, not the content of
    the message. *)
Lemma unknown_tool_name_undecoded_example :
  let RT := Fixture.asking "foo" "{bad" (Some "text") in
  ~ In "foo" Unified.branch_names
  /\ value (@Unified.get_ai_response RT "hi" tt)
     = Returns (Some ("Error: " ++ str_exn Fixture.not_json))
  /\ value (@Unified.get_ai_response RT "hi" tt) <> Returns (Some "text").
Proof.
  intros RT. split; [ | split].
  - cbn [In Unified.branch_names]. intros H.
    repeat (destruct H as [H | H]; [discriminate H | ]). exact H.
  - vm_compute. reflexivity.
  - vm_compute. discriminate.
Qed.

(** Arguments that do not decode, and arguments that omit [username]. *)
Lemma malformed_arguments_are_caught_witness :
  value (@Unified.get_ai_response
           (Fixture.asking "list_repositories" "{bad" None) "hi" tt)
  = Returns (Some ("Error: " ++ str_exn Fixture.not_json))
  /\ exists msg,
       value (@Unified.get_ai_response
                (Fixture.asking "list_repositories" "{}" None) "hi" tt)
       = Returns (Some ("Error: " ++ msg)).
Proof.
  split.
  - pose proof (@malformed_arguments_are_caught
                  (Fixture.asking "list_repositories" "{bad" None) "hi" tt tt
                  (asked_answer "list_repositories" "{bad" None)
                  (asked "list_repositories" "{bad" None) [] _ _
                  eq_refl eq_refl) as [H _].
    rewrite (proj1 (H Fixture.not_json eq_refl) eq_refl). reflexivity.
  - pose proof (@malformed_arguments_are_caught
                  (Fixture.asking "list_repositories" "{}" None) "hi" tt tt
                  (asked_answer "list_repositories" "{}" None)
                  (asked "list_repositories" "{}" None) [] _ _
                  eq_refl eq_refl) as [_ H].
    destruct (proj1 (H (nth 1 Unified.tools (nth 0 Unified.tools
                          (nth 0 App.tools
                             {| name := "none"; description := "none";
                                properties := []; required := None |})))
                       "username" [] eq_refl (or_introl eq_refl) eq_refl
                       eq_refl)
                (or_intror (or_introl eq_refl)) eq_refl) as [msg Hm].
    exists msg. rewrite Hm. reflexivity.
Defined.

(** Arguments that do not decode: the dispatcher returns a text and raises
    nothing to its caller. *)
Lemma undecoded_arguments_do_not_surface :
  let RT := Fixture.asking "list_repositories" "{bad" None in
  @json_loads RT "{bad" = Raises Fixture.not_json
  /\ (forall e, value (@Unified.get_ai_response RT "hi" tt) <> Raises e)
  /\ (forall e, value (@App.get_ai_response RT "hi" tt) <> Raises e).
Proof.
  intros RT. split; [reflexivity | split]; intros e; vm_compute; discriminate.
Qed.

(** The entry of [create_repository], called without its [name]. *)
Lemma catalog_matches_dispatcher_witness :
  exists (h : @M Fixture.chatty string) (msg : string),
    @Unified.dispatch Fixture.chatty "create_repository" (VDict []) = Some h
    /\ h tt = @raise Fixture.chatty string (PyError "TypeError" msg) tt.
Proof.
  exact (proj1 (proj2 (proj2 (proj2 (proj2
           (@catalog_matches_dispatcher Fixture.chatty)))))
           (nth 0 Unified.tools
              {| name := "none"; description := "none"; properties := [];
                 required := None |})
           "name" [] tt (or_introl eq_refl) (or_introl eq_refl) eq_refl).
Defined.


(** [create_repository] of [app.py] when the GitHub client raises: the text
    returned begins with [Error creating repository:], not with [Error:]. *)
Lemma app_error_text_lacks_prefix :
  let r := @App.create_repository Fixture.offline (VStr "demo") (VStr "")
             (VBool false) tt in
  raised_in r Fixture.boom
  /\ value r = Returns "Error creating repository: boom"
  /\ Str.startswith "Error creating repository: boom" "Error:" = false.
Proof.
  intros r. split; [ | split; reflexivity].
  exists (gh_get_user None). left. reflexivity.
Qed.

(** [slack_get_users] when the Slack client raises an exception that is no
    [SlackApiError]: the handler raises it to its caller. *)
Lemma slack_handler_propagates_example :
  let r := @Unified.slack_get_users Fixture.offline (VInt 10) tt in
  raised_in r Fixture.boom /\ value r = Raises Fixture.boom.
Proof.
  intros r. split; [ | reflexivity].
  exists (users_list (VInt 10)). left. reflexivity.
Qed.

(** [create_repository] of both programs when the GitHub client raises. *)
Lemma handlers_return_error_text_witness :
  (exists text,
     value (@Unified.create_repository Fixture.offline (VStr "demo") (VStr "")
              (VBool false) tt) = Returns text
     /\ text = "Error: boom")
  /\ exists doing,
       value (@App.create_repository Fixture.offline (VStr "demo") (VStr "")
                (VBool false) tt)
       = Returns ("Error " ++ doing ++ ": boom").
Proof.
  split.
  - assert (Hr : raised_in
                   (@call_kwargs Fixture.offline "create_repository"
                      Unified.sig_create_repository
                      (VDict [("name", VStr "demo")])
                      (fun a => Unified.create_repository (a "name")
                                  (a "description") (a "private")) tt)
                   Fixture.boom).
    { exists (gh_get_user None). left. reflexivity. }
    destruct (proj1 (@handlers_return_error_text Fixture.offline
                       "create_repository" (VDict [("name", VStr "demo")])
                       _ tt Fixture.boom Hr) eq_refl)
      as [text [Hv Ht]].
    + cbn [In slack_only]. intros H.
      repeat (destruct H as [H | H]; [discriminate H | ]). destruct H.
    + exists text. split; [exact Hv | ].
      destruct Ht as [Ht | [_ [m [code [He _]]]]];
        [exact Ht | discriminate He].
  - assert (Hr : raised_in
                   (@call_kwargs Fixture.offline "create_repository"
                      App.sig_create_repository
                      (VDict [("name", VStr "demo")])
                      (fun a => App.create_repository (a "name")
                                  (a "description") (a "private")) tt)
                   Fixture.boom).
    { exists (gh_get_user None). left. reflexivity. }
    exact (proj2 (@handlers_return_error_text Fixture.offline
                    "create_repository" (VDict [("name", VStr "demo")])
                    _ tt Fixture.boom Hr) eq_refl).
Defined.

(** * Further properties *)

Section CallOrder.
Context {RT : Runtime}.

Lemma all_returned_stops evs : all_returned evs -> stops_at_failure evs.
Proof.
  intros H pre ev post E Hr. subst evs. exfalso. apply Hr.
  apply Forall_app in H as [_ H]. inversion H; assumption.
Qed.

Lemma stops_singleton ev : stops_at_failure [ev].
Proof.
  intros pre ev' post E _. destruct pre as [ | x pre]; cbn [app] in E.
  - injection E as _ E. symmetry. exact E.
  - injection E as _ E. destruct pre; discriminate E.
Qed.

Lemma stops_after_returned l1 l2 :
  all_returned l1 -> stops_at_failure l2 -> stops_at_failure (l1 ++ l2).
Proof.
  intros H1 H2 pre ev post E Hr.
  apply app_eq_app in E as [l [[E1 E2] | [E1 E2]]].
  - destruct l as [ | x l]; cbn [app] in E2.
    + apply (H2 [] ev post); [symmetry; exact E2 | exact Hr].
    + injection E2 as <- E2. exfalso. apply Hr. subst l1.
      apply Forall_app in H1 as [_ H1]. inversion H1; assumption.
  - apply (H2 l ev post E2 Hr).
Qed.

Lemma orderly_lift {A : Type} (o : outcome A) : orderly (lift o).
Proof.
  intros w. destruct o; cbn [lift value calls].
  - constructor.
  - apply all_returned_stops. constructor.
Qed.

Lemma orderly_call (r : request) : orderly (call r).
Proof.
  intros w. unfold call. cbn [value calls].
  destruct (remote r w) as [[a | e] w']; cbn [fst snd raised_of].
  - repeat constructor.
  - apply stops_singleton.
Qed.

Lemma orderly_bind {A B : Type} (m : M A) (k : A -> M B) :
  orderly m -> (forall a, orderly (k a)) -> orderly (bind m k).
Proof.
  intros Hm Hk w. unfold bind. cbv zeta. specialize (Hm w).
  destruct (value (m w)) as [a | e]; [ | exact Hm].
  specialize (Hk a (final (m w))). unfold and_then. cbn [value calls].
  destruct (value (k a (final (m w)))).
  - apply Forall_app. split; assumption.
  - apply stops_after_returned; assumption.
Qed.

(** A [try] whose handlers make no call makes no call after one that
    raised. *)
Lemma stops_try {A : Type} (body : M A) (handler : exn -> M A) w :
  orderly body -> (forall e, silent (handler e)) ->
  stops_at_failure (calls (try_except body handler w)).
Proof.
  intros Hb Hh. unfold try_except. cbv zeta. specialize (Hb w).
  destruct (value (body w)) as [a | e].
  - apply all_returned_stops. exact Hb.
  - unfold and_then. cbn [calls]. rewrite (Hh e). rewrite app_nil_r. exact Hb.
Qed.

Lemma total_try {A : Type} (body : M A) (handler : exn -> M A) :
  (forall e, total (handler e)) -> total (try_except body handler).
Proof.
  intros Hh w. unfold try_except. cbv zeta.
  destruct (value (body w)) as [a | e] eqn:E.
  - exists a. exact E.
  - unfold and_then. cbn [value]. apply Hh.
Qed.

End CallOrder.

Ltac orderly_step :=
  match goal with
  | |- orderly (bind _ _) => apply orderly_bind; [ | intros ? ]
  | |- orderly (call _) => apply orderly_call
  | |- orderly (ret _) => apply orderly_lift
  | |- orderly (raise _) => apply orderly_lift
  | |- orderly (lift _) => apply orderly_lift
  | |- orderly (if ?b then _ else _) => destruct b
  end.

Ltac orderly_auto := repeat orderly_step.

(** The [except] clauses of the handlers make no call. *)
Ltac silent_handler :=
  let e := fresh "e" in
  let w := fresh "w" in
  intros e w; unfold except_SlackApiError, Unified.error_of, App.error_while;
  destruct e; cbn [is_SlackApiError];
  repeat match goal with
    | |- context [if String.eqb ?a ?b then _ else _] => destruct (String.eqb a b)
    end;
  reflexivity.

Ltac unfold_handlers :=
  unfold Unified.create_repository, Unified.list_repositories,
    Unified.create_jira_issue, Unified.list_jira_projects,
    Unified.create_confluence_page, Unified.list_confluence_spaces,
    Unified.send_slack_message, Unified.upload_file_to_slack,
    Unified.slack_get_thread_replies, Unified.slack_get_users,
    Unified.slack_get_user_profile, Unified.slack_list_channels,
    Unified.slack_post_message, Unified.slack_reply_to_thread,
    Unified.slack_add_reaction, Unified.slack_get_channel_history,
    App.create_repository, App.list_repositories, App.create_github_issue,
    App.list_repository_issues, App.upload_file;
  cbv zeta.

Section Handlers.
Context {RT : Runtime}.

Lemma unified_handler_stops fn args h w :
  Unified.dispatch fn args = Some h -> stops_at_failure (calls (h w)).
Proof.
  intros H. unfold Unified.dispatch in H.
  split_chain H; try discriminate H; injection H as <-.
  all: unfold call_kwargs; try destruct (bind_kwargs _ _ _) as [a | e0];
    try (apply all_returned_stops; constructor).
  all: unfold_handlers; apply stops_try; [orderly_auto | silent_handler].
Qed.

Lemma app_handler_stops fn args h w :
  App.dispatch fn args = Some h -> stops_at_failure (calls (h w)).
Proof.
  intros H. unfold App.dispatch in H.
  split_chain H; try discriminate H; injection H as <-.
  all: unfold call_kwargs; try destruct (bind_kwargs _ _ _) as [a | e0];
    try (apply all_returned_stops; constructor).
  all: unfold_handlers; apply stops_try; [orderly_auto | silent_handler].
Qed.

Lemma unified_handler_is_quiet fn args h :
  Unified.dispatch fn args = Some h -> quiet h.
Proof.
  intros H. unfold Unified.dispatch in H.
  split_chain H; try discriminate H; injection H as <-.
  all: unfold call_kwargs; try destruct (bind_kwargs _ _ _) as [a | e0];
    try apply quiet_raise.
  all: unfold_handlers; quiet_auto.
Qed.

Lemma app_handler_is_quiet fn args h :
  App.dispatch fn args = Some h -> quiet h.
Proof.
  intros H. unfold App.dispatch in H.
  split_chain H; try discriminate H; injection H as <-.
  all: unfold call_kwargs; try destruct (bind_kwargs _ _ _) as [a | e0];
    try apply quiet_raise.
  all: unfold_handlers; unfold App.error_while; quiet_auto.
Qed.

Lemma unified_handle_is_quiet answer : quiet (Unified.handle_response answer).
Proof.
  unfold Unified.handle_response. cbv zeta.
  apply quiet_bind; [apply quiet_lift | intros choice].
  destruct (requests_tool_call _); [ | apply quiet_ret].
  apply quiet_bind; [apply quiet_lift | intros tc].
  apply quiet_bind; [apply quiet_lift | intros args].
  destruct (Unified.dispatch _ _) as [h | ] eqn:Hd; [ | apply quiet_ret].
  apply quiet_bind; [ | intros; apply quiet_ret].
  exact (unified_handler_is_quiet _ _ _ Hd).
Qed.

Lemma app_handle_is_quiet answer : quiet (App.handle_response answer).
Proof.
  unfold App.handle_response. cbv zeta.
  apply quiet_bind; [apply quiet_lift | intros choice].
  destruct (requests_tool_call _); [ | apply quiet_ret].
  apply quiet_bind; [apply quiet_print | intros _].
  apply quiet_bind; [apply quiet_lift | intros tc].
  apply quiet_bind; [apply quiet_lift | intros args].
  apply quiet_bind; [apply quiet_print | intros _].
  apply quiet_bind.
  - destruct (App.dispatch _ _) as [h | ] eqn:Hd; [ | apply quiet_raise].
    exact (app_handler_is_quiet _ _ _ Hd).
  - intros result. apply quiet_bind; [apply quiet_print | intros _].
    apply quiet_ret.
Qed.

(** The dispatchers when the model call raises. *)
Lemma unified_model_fails prompt w e w1 :
  remote (unified_request prompt) w = (Raises e, w1) ->
  Unified.get_ai_response prompt w
  = {| value := Returns (Some ("Error: " ++ str_exn e));
       final := w1;
       calls := [failed (unified_request prompt) e];
       output := [] |}.
Proof.
  intros H. unfold Unified.get_ai_response, unified_request in *.
  monad_unfold. rewrite H. reflexivity.
Qed.

Lemma app_model_fails prompt w e w1 :
  remote (app_request prompt) w = (Raises e, w1) ->
  App.get_ai_response prompt w
  = {| value := Returns (Some ("Error: " ++ str_exn e));
       final := w1;
       calls := [failed (app_request prompt) e];
       output := [ "Sending request to Mistral..." ++ newline;
                   app_error_line e ] |}.
Proof.
  intros H. unfold App.get_ai_response, app_request in *.
  monad_unfold. rewrite H. reflexivity.
Qed.

Lemma unified_guard_quiet body : quiet body -> quiet (unified_guard body).
Proof. intros H. apply quiet_try; [exact H | intros e; apply quiet_ret]. Qed.

Lemma app_guard_quiet body : quiet body -> quiet (app_guard body).
Proof.
  intros H. apply quiet_try; [exact H | intros e].
  apply quiet_bind; [apply quiet_print | intros _; apply quiet_ret].
Qed.

End Handlers.

Section ModelCalls.
Context {RT : Runtime}.

(** The model call is the first call of a dispatcher and its only call to the
    model. *)
Lemma unified_calls_model_first prompt w :
  exists ev evs,
    calls (Unified.get_ai_response prompt w) = ev :: evs
    /\ ev_request ev = unified_request prompt
    /\ no_model_call evs.
Proof.
  destruct (remote (unified_request prompt) w) as [[answer | e] w1] eqn:Hm.
  - rewrite (unified_after_model _ _ _ _ Hm). cbv zeta. cbn [calls].
    do 2 eexists. split; [reflexivity | split; [reflexivity | ]].
    apply unified_guard_quiet, unified_handle_is_quiet.
  - rewrite (unified_model_fails _ _ _ _ Hm). cbn [calls].
    do 2 eexists. split; [reflexivity | split; [reflexivity | constructor]].
Qed.

Lemma app_calls_model_first prompt w :
  exists ev evs,
    calls (App.get_ai_response prompt w) = ev :: evs
    /\ ev_request ev = app_request prompt
    /\ no_model_call evs.
Proof.
  destruct (remote (app_request prompt) w) as [[answer | e] w1] eqn:Hm.
  - rewrite (app_after_model _ _ _ _ Hm). cbv zeta. cbn [calls].
    do 2 eexists. split; [reflexivity | split; [reflexivity | ]].
    apply app_guard_quiet, app_handle_is_quiet.
  - rewrite (app_model_fails _ _ _ _ Hm). cbn [calls].
    do 2 eexists. split; [reflexivity | split; [reflexivity | constructor]].
Qed.

End ModelCalls.

(** X1. Whatever the model and the other clients answer or raise, the call of
    the model is the first call [get_ai_response] makes and the only call to
    the model it makes, in either program. *)
Theorem model_is_called_once {RT : Runtime} (prompt : string) (w : world) :
  (exists ev evs,
     calls (Unified.get_ai_response prompt w) = ev :: evs
     /\ ev_request ev = unified_request prompt
     /\ no_model_call evs)
  /\ (exists ev evs,
        calls (App.get_ai_response prompt w) = ev :: evs
        /\ ev_request ev = app_request prompt
        /\ no_model_call evs).
Proof.
  split.
  - apply unified_calls_model_first.
  - apply app_calls_model_first.
Qed.

(** X2. Once a call that a handler makes into a remote client has raised, the
    handler makes no further call: in the log of a handler call of either
    dispatcher, nothing follows a call that raised. *)
Theorem no_call_follows_a_failure {RT : Runtime} (fn : string) (args : pyval)
    (h : M string) (w : world) :
  Unified.dispatch fn args = Some h \/ App.dispatch fn args = Some h ->
  stops_at_failure (calls (h w)).
Proof.
  intros [H | H].
  - exact (unified_handler_stops fn args h w H).
  - exact (app_handler_stops fn args h w H).
Qed.


Section Answers.
Context {RT : Runtime}.

(** The dispatchers on an answer without a choice. *)
Lemma unified_no_choice prompt w answer w1 :
  remote (unified_request prompt) w = (Returns answer, w1) ->
  choices answer = [] ->
  Unified.get_ai_response prompt w
  = {| value := Returns (Some ("Error: " ++ str_exn index_error));
       final := w1;
       calls := [returned (unified_request prompt)];
       output := [] |}.
Proof.
  intros Hm Hc. rewrite (unified_after_model _ _ _ _ Hm).
  unfold unified_guard, try_except, Unified.handle_response. rewrite Hc.
  reflexivity.
Qed.

Lemma app_no_choice prompt w answer w1 :
  remote (app_request prompt) w = (Returns answer, w1) ->
  choices answer = [] ->
  App.get_ai_response prompt w
  = {| value := Returns (Some ("Error: " ++ str_exn index_error));
       final := w1;
       calls := [returned (app_request prompt)];
       output := (app_preamble answer ++ [app_error_line index_error])%list |}.
Proof.
  intros Hm Hc. rewrite (app_after_model _ _ _ _ Hm).
  unfold app_guard, try_except, App.handle_response. rewrite Hc.
  reflexivity.
Qed.

(** The dispatchers on an answer whose first choice requests no tool call. *)
Lemma unified_text_run prompt w answer w1 choice rest :
  remote (unified_request prompt) w = (Returns answer, w1) ->
  choices answer = choice :: rest ->
  requests_tool_call (message choice) = false ->
  Unified.get_ai_response prompt w
  = {| value := Returns (content (message choice));
       final := w1;
       calls := [returned (unified_request prompt)];
       output := [] |}.
Proof.
  intros Hm Hc Ht. rewrite (unified_after_model _ _ _ _ Hm).
  unfold unified_guard, try_except.
  rewrite (unified_on_text _ _ _ _ Hc Ht). reflexivity.
Qed.

Lemma app_text_run prompt w answer w1 choice rest :
  remote (app_request prompt) w = (Returns answer, w1) ->
  choices answer = choice :: rest ->
  requests_tool_call (message choice) = false ->
  App.get_ai_response prompt w
  = {| value := Returns (content (message choice));
       final := w1;
       calls := [returned (app_request prompt)];
       output := app_preamble answer |}.
Proof.
  intros Hm Hc Ht. rewrite (app_after_model _ _ _ _ Hm).
  unfold app_guard, try_except.
  rewrite (app_on_text _ _ _ _ Hc Ht). reflexivity.
Qed.

Lemma no_request_cases (m : AssistantMessage) :
  requests_tool_call m = false
  \/ exists tc more, tool_calls m = Calls (tc :: more).
Proof.
  unfold requests_tool_call.
  destruct (tool_calls m) as [ | | [ | tc more]]; eauto.
Qed.

(** A dispatcher returns no text only when the model's message has no
    content. *)
Lemma unified_returns prompt w :
  exists result,
    value (Unified.get_ai_response prompt w) = Returns result
    /\ (result = None ->
        exists answer w1 choice rest,
          remote (unified_request prompt) w = (Returns answer, w1)
          /\ choices answer = choice :: rest
          /\ content (message choice) = None).
Proof.
  destruct (remote (unified_request prompt) w) as [[answer | e] w1] eqn:Hm.
  2: { rewrite (unified_model_fails _ _ _ _ Hm).
       eexists; split; [reflexivity | discriminate]. }
  destruct (choices answer) as [ | choice rest] eqn:Hc.
  { rewrite (unified_no_choice _ _ _ _ Hm Hc).
    eexists; split; [reflexivity | discriminate]. }
  destruct (no_request_cases (message choice)) as [Ht | [tc [more Ht]]].
  { rewrite (unified_text_run _ _ _ _ _ _ Hm Hc Ht).
    eexists; split; [reflexivity | ]. intros Hn.
    exists answer, w1, choice, rest. auto. }
  rewrite (unified_after_model _ _ _ _ Hm). unfold unified_guard, try_except.
  rewrite (unified_on_tool_call _ _ _ _ _ _ Hc Ht).
  destruct (json_loads _) as [args | e].
  2: { eexists; split; [reflexivity | discriminate]. }
  destruct (Unified.dispatch _ _) as [h | ].
  - cbv zeta. destruct (h w1) as [[text | e] f c o];
      (eexists; split; [reflexivity | discriminate]).
  - eexists; split; [reflexivity | ]. intros Hn.
    exists answer, w1, choice, rest. auto.
Qed.

Lemma app_returns prompt w :
  exists result,
    value (App.get_ai_response prompt w) = Returns result
    /\ (result = None ->
        exists answer w1 choice rest,
          remote (app_request prompt) w = (Returns answer, w1)
          /\ choices answer = choice :: rest
          /\ requests_tool_call (message choice) = false
          /\ content (message choice) = None).
Proof.
  destruct (remote (app_request prompt) w) as [[answer | e] w1] eqn:Hm.
  2: { rewrite (app_model_fails _ _ _ _ Hm).
       eexists; split; [reflexivity | discriminate]. }
  destruct (choices answer) as [ | choice rest] eqn:Hc.
  { rewrite (app_no_choice _ _ _ _ Hm Hc).
    eexists; split; [reflexivity | discriminate]. }
  destruct (no_request_cases (message choice)) as [Ht | [tc [more Ht]]].
  { rewrite (app_text_run _ _ _ _ _ _ Hm Hc Ht).
    eexists; split; [reflexivity | ]. intros Hn.
    exists answer, w1, choice, rest. auto. }
  rewrite (app_after_model _ _ _ _ Hm). unfold app_guard, try_except.
  rewrite (app_on_tool_call _ _ _ _ _ _ Hc Ht).
  destruct (json_loads _) as [args | e].
  2: { eexists; split; [reflexivity | discriminate]. }
  destruct (App.dispatch _ _) as [h | ].
  - cbv zeta. destruct (h w1) as [[text | e] f c o];
      (eexists; split; [reflexivity | discriminate]).
  - eexists; split; [reflexivity | discriminate].
Qed.

(** A line that is no command shortcut goes to the model. *)
Lemma respond_without_shortcut user_input :
  Unified.is_shortcut user_input = false ->
  Unified.respond user_input = Unified.get_ai_response user_input.
Proof.
  unfold Unified.is_shortcut, Unified.respond. cbv zeta. intros H.
  destruct (String.eqb _ "list channels"); [discriminate H | ].
  destruct (Str.startswith _ "send message"); [discriminate H | ].
  destruct (Str.startswith _ "reply"); [discriminate H | ].
  destruct (Str.startswith _ "add reaction"); [discriminate H | ].
  destruct (Str.startswith _ "show history"); [discriminate H | ].
  reflexivity.
Qed.

End Answers.

(** X4. An exception, instance of [Exception], that the handler call of the
    first tool call raises is caught by the dispatcher: [get_ai_response] of
    either program returns [Error: ] and the exception's message, after the
    model call and the calls the handler call made ([app.py] also prints the
    error line). And [get_ai_response] returns [None] only when the
    message of the model's first choice has no content and, in [app.py],
    requests no tool call. *)
Theorem dispatcher_catches_handler_exceptions {RT : Runtime} (prompt : string)
    (w : world) :
  (forall w1 answer choice rest tc more args h e,
     choices answer = choice :: rest ->
     tool_calls (message choice) = Calls (tc :: more) ->
     json_loads (arguments (function tc)) = Returns args ->
     value (h w1) = Raises e ->
     (Unified.dispatch (fn_name (function tc)) args = Some h ->
      remote (unified_request prompt) w = (Returns answer, w1) ->
      Unified.get_ai_response prompt w
      = {| value := Returns (Some ("Error: " ++ str_exn e));
           final := final (h w1);
           calls := returned (unified_request prompt) :: calls (h w1);
           output := output (h w1) |})
     /\ (App.dispatch (fn_name (function tc)) args = Some h ->
         remote (app_request prompt) w = (Returns answer, w1) ->
         App.get_ai_response prompt w
         = {| value := Returns (Some ("Error: " ++ str_exn e));
              final := final (h w1);
              calls := returned (app_request prompt) :: calls (h w1);
              output :=
                (app_preamble answer
                 ++ app_announce (fn_name (function tc)) args
                 ++ output (h w1)
                 ++ [app_error_line e])%list |}))
  /\ (value (Unified.get_ai_response prompt w) = Returns None ->
      exists answer w1 choice rest,
        remote (unified_request prompt) w = (Returns answer, w1)
        /\ choices answer = choice :: rest
        /\ content (message choice) = None)
  /\ (value (App.get_ai_response prompt w) = Returns None ->
      exists answer w1 choice rest,
        remote (app_request prompt) w = (Returns answer, w1)
        /\ choices answer = choice :: rest
        /\ requests_tool_call (message choice) = false
        /\ content (message choice) = None).
Proof.
  split; [ | split].
  - intros w1 answer choice rest tc more args h e Hc Ht Hj Hv. split.
    + intros Hd Hm.
      rewrite (unified_runs_handler _ _ _ _ _ _ _ _ _ _ Hm Hc Ht Hj Hd).
      unfold reported. rewrite Hv. reflexivity.
    + intros Hd Hm.
      rewrite (app_runs_handler _ _ _ _ _ _ _ _ _ _ Hm Hc Ht Hj Hd).
      unfold reported, app_last_line. rewrite Hv. reflexivity.
  - intros H. destruct (unified_returns prompt w) as [result [Hv Hn]].
    rewrite Hv in H. injection H as ->. apply Hn. reflexivity.
  - intros H. destruct (app_returns prompt w) as [result [Hv Hn]].
    rewrite Hv in H. injection H as ->. apply Hn. reflexivity.
Qed.

(** X5. When the model's answer has no choice, the [IndexError] of
    [response.choices[0]] is caught: [get_ai_response] of either program
    returns [Error: list index out of range] after the model call and no
    other. *)
Theorem empty_choices_are_reported {RT : Runtime} (prompt : string)
    (w w1 : world) (answer : ChatResponse) :
  choices answer = [] ->
  (remote (unified_request prompt) w = (Returns answer, w1) ->
   Unified.get_ai_response prompt w
   = {| value := Returns (Some "Error: list index out of range");
        final := w1;
        calls := [returned (unified_request prompt)];
        output := [] |})
  /\ (remote (app_request prompt) w = (Returns answer, w1) ->
      App.get_ai_response prompt w
      = {| value := Returns (Some "Error: list index out of range");
           final := w1;
           calls := [returned (app_request prompt)];
           output :=
             (app_preamble answer
              ++ [("Error occurred: list index out of range" ++ newline)%string]
             )%list |}).
Proof.
  intros Hc. split; intros Hm.
  - exact (unified_no_choice _ _ _ _ Hm Hc).
  - exact (app_no_choice _ _ _ _ Hm Hc).
Qed.

(** X6. When the model answers a line with a message that requests no tool
    call and has no content, the session ends with an exception: the loop of
    [unified_app.py] raises the [TypeError] of ["\n" + None], the loop of
    [app.py] the [AttributeError] of [textwrap.wrap(None)]; nothing is printed
    for the answer and no later line is read. *)
Theorem missing_content_ends_session {RT : Runtime} (line : string)
    (stdin : list string) (w w1 : world) (answer : ChatResponse)
    (choice : Choice) (rest : list Choice) :
  is_quit line = false ->
  choices answer = choice :: rest ->
  requests_tool_call (message choice) = false ->
  content (message choice) = None ->
  (Unified.is_shortcut line = false ->
   remote (unified_request line) w = (Returns answer, w1) ->
   exists msg,
     Unified.loop (line :: stdin) w
     = {| value := Raises (PyError "TypeError" msg);
          final := w1;
          calls := [returned (unified_request line)];
          output := [newline ++ "You: "] |})
  /\ (remote (app_request line) w = (Returns answer, w1) ->
      exists msg,
        App.loop (line :: stdin) w
        = {| value := Raises (PyError "AttributeError" msg);
             final := w1;
             calls := [returned (app_request line)];
             output :=
               (newline ++ "You: ") :: (newline ++ "AI: ")
               :: app_preamble answer |}).
Proof.
  intros Hq Hc Ht Hn. split.
  - intros Hs Hm. rewrite (unified_loop_step _ _ _ Hq).
    unfold iteration, Unified.turn. rewrite (respond_without_shortcut _ Hs).
    unfold bind. rewrite (unified_text_run _ _ _ _ _ _ Hm Hc Ht), Hn.
    eexists. reflexivity.
  - intros Hm. rewrite (app_loop_step _ _ _ Hq).
    unfold iteration, App.turn, bind, write. cbn [value final calls output].
    unfold and_then. cbn [value final calls output].
    rewrite (app_text_run _ _ _ _ _ _ Hm Hc Ht), Hn.
    eexists. reflexivity.
Qed.

(** X7. The loop of either program returns only by reading a quit token: on
    an input none of whose lines is one, it raises, either the [EOFError] of
    [input] at the end of the input or what the iteration of one of the lines
    raised. *)
Theorem loop_leaves_only_by_quit {RT : Runtime} (stdin : list string)
    (w : world) :
  (forall line, In line stdin -> is_quit line = false) ->
  (exists e,
     value (Unified.loop stdin w) = Raises e
     /\ (e = Unified.eof
         \/ exists line w', In line stdin
                            /\ value (Unified.turn line w') = Raises e))
  /\ (exists e,
        value (App.loop stdin w) = Raises e
        /\ (e = App.eof
            \/ exists line w', In line stdin
                               /\ value (App.turn line w') = Raises e)).
Proof.
  revert w. induction stdin as [ | x stdin IH]; intros w Hq.
  - split; (eexists; split; [reflexivity | left; reflexivity]).
  - assert (Hx : is_quit x = false) by (apply Hq; left; reflexivity).
    assert (Hq' : forall line, In line stdin -> is_quit line = false)
      by (intros line Hl; apply Hq; right; exact Hl).
    split.
    + rewrite (unified_loop_step _ _ _ Hx). unfold iteration.
      destruct (value (Unified.turn x w)) as [u | e] eqn:E.
      * destruct (proj1 (IH (final (Unified.turn x w)) Hq'))
          as [e [Hv He]].
        exists e. cbn [value]. split; [exact Hv | ].
        destruct He as [He | [line [w' [Hl Hr]]]]; [left; exact He | ].
        right. exists line, w'. split; [right; exact Hl | exact Hr].
      * exists e. cbn [value]. split; [reflexivity | ].
        right. exists x, w. split; [left; reflexivity | exact E].
    + rewrite (app_loop_step _ _ _ Hx). unfold iteration.
      destruct (value (App.turn x w)) as [u | e] eqn:E.
      * destruct (proj2 (IH (final (App.turn x w)) Hq'))
          as [e [Hv He]].
        exists e. cbn [value]. split; [exact Hv | ].
        destruct He as [He | [line [w' [Hl Hr]]]]; [left; exact He | ].
        right. exists line, w'. split; [right; exact Hl | exact Hr].
      * exists e. cbn [value]. split; [reflexivity | ].
        right. exists x, w. split; [left; reflexivity | exact E].
Qed.

Section Channels.
Context {RT : Runtime}.

Lemma prefix_hash (c : ascii) (s : string) :
  String.prefix "#" (String c s) = Ascii.eqb "#" c.
Proof.
  cbn [String.prefix]. destruct (ascii_dec "#" c) as [E | E].
  - subst c. destruct s; reflexivity.
  - symmetry. apply Ascii.eqb_neq. exact E.
Qed.

Lemma lstrip_hash_start (s : string) :
  Str.startswith (Str.lstrip_char "#" s) "#" = false.
Proof.
  unfold Str.startswith. induction s as [ | c s IH]; [reflexivity | ].
  cbn [Str.lstrip_char]. destruct (Ascii.eqb c "#") eqn:E; [exact IH | ].
  rewrite prefix_hash, Ascii.eqb_sym. exact E.
Qed.

Lemma lstrip_hash_split (s : string) :
  exists n, s = hashes n ++ Str.lstrip_char "#" s.
Proof.
  induction s as [ | c s [n IH]]; [exists 0%nat; reflexivity | ].
  cbn [Str.lstrip_char]. destruct (Ascii.eqb c "#") eqn:E.
  - apply Ascii.eqb_eq in E. subst c. exists (S n).
    unfold hashes in *. cbn [repeat string_of_list_ascii String.append].
    f_equal. exact IH.
  - exists 0%nat. reflexivity.
Qed.

Lemma starts_with_C_not_hash (s : string) :
  Str.startswith s "C" = true -> Str.startswith s "#" = false.
Proof.
  unfold Str.startswith. destruct s as [ | c s]; [discriminate | ].
  cbn [String.prefix].
  destruct (ascii_dec "C" c) as [E | E]; [ | discriminate].
  subst c. intros _. destruct s; reflexivity.
Qed.

Lemma slack_post_message_requests (channel_id : string) (text : pyval) w :
  requests (Unified.slack_post_message (VStr channel_id) text w)
  = [chat_postMessage (VStr (posted_channel channel_id)) None text].
Proof.
  unfold Unified.slack_post_message, posted_channel, py_startswith,
    py_lstrip_hash.
  monad_unfold. destruct (Str.startswith channel_id "C").
  all: run_remote; repeat run_builtin; reflexivity.
Qed.

End Channels.

(** X8. For a channel that is a text, [slack_post_message] makes one call,
    [chat_postMessage], whatever it answers; the channel it posts to is the
    one given when that begins with [C], and else the one given without its
    leading [#] characters; in either case it does not begin with [#]. *)
Theorem slack_post_message_strips_hash {RT : Runtime} (channel_id : string)
    (text : pyval) (w : world) :
  exists channel n,
    requests (Unified.slack_post_message (VStr channel_id) text w)
    = [chat_postMessage (VStr channel) None text]
    /\ channel_id = hashes n ++ channel
    /\ (Str.startswith channel_id "C" = true -> channel = channel_id)
    /\ Str.startswith channel "#" = false.
Proof.
  rewrite slack_post_message_requests. unfold posted_channel.
  destruct (Str.startswith channel_id "C") eqn:E.
  - exists channel_id, 0%nat. repeat split.
    apply starts_with_C_not_hash, E.
  - destruct (lstrip_hash_split channel_id) as [n Hn].
    exists (Str.lstrip_char "#" channel_id), n.
    split; [reflexivity | split; [exact Hn | split; [discriminate | ]]].
    apply lstrip_hash_start.
Qed.

(** X9. When the channel the model passes is no text, [send_slack_message]
    and [slack_post_message] make no call: the [AttributeError] of
    [startswith] is caught and reported as [Error: ] and its message. *)
Theorem channel_that_is_no_text {RT : Runtime} (channel text : pyval)
    (w : world) :
  (forall s, channel <> VStr s) ->
  let reported :=
    {| value := Returns ("Error: " ++ str_exn (no_attribute channel "startswith"));
       final := w;
       calls := [];
       output := [] |} in
  Unified.send_slack_message channel text w = reported
  /\ Unified.slack_post_message channel text w = reported.
Proof.
  intros H.
  destruct channel; try (exfalso; eapply H; reflexivity); split; reflexivity.
Qed.

(** X10. [send_slack_message] to a channel whose name begins with [D] first
    opens a conversation with it. When the answer is not [ok] it posts
    nothing and returns [Error opening conversation: ] with the answer's
    error; when it is [ok], the message goes to the channel id of the answer.
    To any other channel name the message is posted directly, in one call. *)
Theorem direct_message_opens_conversation {RT : Runtime} (channel : string)
    (text : pyval) (w w1 : world) (conversation : SlackResponse string) :
  (Str.startswith channel "D" = true ->
   remote (conversations_open [VStr channel]) w = (Returns conversation, w1) ->
   (ok conversation = false ->
    Unified.send_slack_message (VStr channel) text w
    = {| value := Returns (refusal "opening conversation" conversation);
         final := w1;
         calls := [returned (conversations_open [VStr channel])];
         output := [] |})
   /\ (ok conversation = true ->
       requests (Unified.send_slack_message (VStr channel) text w)
       = [ conversations_open [VStr channel];
           chat_postMessage (VStr (body conversation)) None text ]))
  /\ (Str.startswith channel "D" = false ->
      requests (Unified.send_slack_message (VStr channel) text w)
      = [chat_postMessage (VStr channel) None text]).
Proof.
  split.
  - intros Hd Hm. split; intros Hok.
    + unfold Unified.send_slack_message, py_startswith. monad_unfold.
      rewrite Hd, Hm. cbn [fst snd raised_of]. rewrite Hok. reflexivity.
    + unfold Unified.send_slack_message, py_startswith. monad_unfold.
      rewrite Hd, Hm. cbn [fst snd raised_of]. rewrite Hok.
      run_remote; repeat run_builtin; reflexivity.
  - intros Hd. unfold Unified.send_slack_message, py_startswith. monad_unfold.
    rewrite Hd. run_remote; repeat run_builtin; reflexivity.
Qed.

(** X11. When the Slack client answers with a response that is not [ok], the
    handler returns a text that names what it was doing and the response's
    [error], or [Unknown error] when it has none: [Error getting replies: ],
    [Error listing users: ] and so on, followed by that error. Nothing is
    raised. *)
Theorem slack_refusal_is_reported {RT : Runtime} (w w1 : world)
    (a b c : pyval) :
  (forall r,
     remote (conversations_replies a b) w = (Returns r, w1) -> ok r = false ->
     value (Unified.slack_get_thread_replies a b w)
     = Returns (refusal "getting replies" r))
  /\ (forall r,
        remote (users_info a) w = (Returns r, w1) -> ok r = false ->
        value (Unified.slack_get_user_profile a w)
        = Returns (refusal "getting profile" r))
  /\ (forall r,
        remote (chat_postMessage a (Some b) c) w = (Returns r, w1) ->
        ok r = false ->
        value (Unified.slack_reply_to_thread a b c w)
        = Returns (refusal "posting reply" r))
  /\ (forall r,
        remote (reactions_add a b c) w = (Returns r, w1) -> ok r = false ->
        value (Unified.slack_add_reaction a b c w)
        = Returns (refusal "adding reaction" r))
  /\ (forall r,
        remote (conversations_history a b) w = (Returns r, w1) ->
        ok r = false ->
        value (Unified.slack_get_channel_history a b w)
        = Returns (refusal "getting history" r))
  /\ (forall r limit,
        remote (users_list (VInt (Z.min limit 200))) w = (Returns r, w1) ->
        ok r = false ->
        value (Unified.slack_get_users (VInt limit) w)
        = Returns (refusal "listing users" r))
  /\ (forall r limit,
        remote (conversations_list (VInt (Z.min limit 200))) w
        = (Returns r, w1) ->
        ok r = false ->
        value (Unified.slack_list_channels (VInt limit) w)
        = Returns (refusal "listing channels" r))
  /\ (forall r channel,
        remote (chat_postMessage (VStr (posted_channel channel)) None b) w
        = (Returns r, w1) ->
        ok r = false ->
        value (Unified.slack_post_message (VStr channel) b w)
        = Returns (refusal "posting message" r)).
Proof.
  repeat split; intros r.
  1-5: intros Hm Hok; unfold_handlers; monad_unfold; rewrite Hm;
    cbn [fst snd raised_of]; rewrite Hok; reflexivity.
  1-2: intros limit Hm Hok; unfold_handlers; monad_unfold;
    rewrite min_200_int, Hm; cbn [fst snd raised_of]; rewrite Hok;
    reflexivity.
  intros channel Hm Hok. unfold posted_channel in Hm.
  unfold_handlers. unfold py_startswith, py_lstrip_hash. monad_unfold.
  destruct (Str.startswith channel "C"); rewrite Hm;
    cbn [fst snd raised_of]; rewrite Hok; reflexivity.
Qed.

Section Keywords.
Context {RT : Runtime}.

(** A keyword mapping with a key that names no parameter does not bind. *)
Lemma bind_kwargs_unexpected fname sig kw k v :
  In (k, v) kw -> has_key k sig = false ->
  exists msg,
    bind_kwargs fname sig (VDict kw) = Raises (PyError "TypeError" msg).
Proof.
  intros Hin Hk. unfold bind_kwargs.
  destruct (unexpected_kwarg sig kw) eqn:U; [eexists; reflexivity | ].
  exfalso. unfold unexpected_kwarg in U.
  destruct (filter _ kw) eqn:F; [ | discriminate U].
  assert (H : In (k, v) (filter (fun p => negb (has_key (fst p) sig)) kw)).
  { apply filter_In. split; [exact Hin | ]. cbn [fst]. rewrite Hk. reflexivity. }
  rewrite F in H. destruct H.
Qed.

(** Arguments that are no mapping do not bind. *)
Lemma bind_kwargs_no_mapping fname sig args :
  (forall kw, args <> VDict kw) ->
  exists msg, bind_kwargs fname sig args = Raises (PyError "TypeError" msg).
Proof.
  intros H. destruct args; try (eexists; reflexivity).
  exfalso. eapply H. reflexivity.
Qed.

Lemma call_kwargs_raises fname sig args body e w :
  bind_kwargs fname sig args = Raises e ->
  call_kwargs fname sig args body w = raise e w.
Proof. intros H. unfold call_kwargs. rewrite H. reflexivity. Qed.

(** The two handlers without parameters make one call, whatever it
    answers. *)
Lemma argumentless_requests w :
  requests (Unified.list_jira_projects w) = [jira_projects]
  /\ requests (Unified.list_confluence_spaces w) = [confluence_get_all_spaces].
Proof.
  split; unfold_handlers; monad_unfold; run_remote; reflexivity.
Qed.

End Keywords.

(** X12. When the arguments of the first tool call decode to a mapping with a
    key that is no parameter of the handler named, the [TypeError] of the call
    is caught by the dispatcher: [get_ai_response] returns [Error: ] and the
    message, the handler's body is not entered and no call but the model's is
    made. This holds for the branches that pass the arguments on, which are
    all but [list_jira_projects] and [list_confluence_spaces]. *)
Theorem unexpected_keyword_is_reported {RT : Runtime} (prompt : string)
    (w w1 : world) (answer : ChatResponse) (choice : Choice)
    (rest : list Choice) (tc : ToolCall) (more : list ToolCall)
    (kw : list (string * pyval)) (sig : signature) (k : string) (v : pyval) :
  choices answer = choice :: rest ->
  tool_calls (message choice) = Calls (tc :: more) ->
  json_loads (arguments (function tc)) = Returns (VDict kw) ->
  In (k, v) kw ->
  has_key k sig = false ->
  (In (fn_name (function tc)) Unified.branch_names ->
   Unified.passes_kwargs (fn_name (function tc)) = true ->
   assoc (fn_name (function tc)) Unified.signatures = Some sig ->
   remote (unified_request prompt) w = (Returns answer, w1) ->
   exists msg,
     Unified.get_ai_response prompt w
     = {| value := Returns (Some ("Error: " ++ msg));
          final := w1;
          calls := [returned (unified_request prompt)];
          output := [] |})
  /\ (In (fn_name (function tc)) App.branch_names ->
      assoc (fn_name (function tc)) App.signatures = Some sig ->
      remote (app_request prompt) w = (Returns answer, w1) ->
      exists msg,
        value (App.get_ai_response prompt w)
        = Returns (Some ("Error: " ++ msg))
        /\ calls (App.get_ai_response prompt w)
           = [returned (app_request prompt)]).
Proof.
  intros Hc Ht Hj Hin Hk. split.
  - intros Hb Hp Hs Hm.
    destruct (unified_branch_binds _ (VDict kw) Hb Hp)
      as [sig' [body [Hs' Hd]]].
    rewrite Hs in Hs'. injection Hs' as <-.
    destruct (bind_kwargs_unexpected (fn_name (function tc)) sig kw k v Hin Hk)
      as [msg Hbind].
    exists msg.
    exact (unified_branch_raises _ _ _ _ _ _ _ _ _ _ _ Hm Hc Ht Hj Hd
             (call_kwargs_raises _ _ _ _ _ _ Hbind)).
  - intros Hb Hs Hm.
    destruct (app_branch_binds _ (VDict kw) Hb) as [sig' [body [Hs' Hd]]].
    rewrite Hs in Hs'. injection Hs' as <-.
    destruct (bind_kwargs_unexpected (fn_name (function tc)) sig kw k v Hin Hk)
      as [msg Hbind].
    exists msg.
    rewrite (app_branch_raises _ _ _ _ _ _ _ _ _ _ _ Hm Hc Ht Hj Hd
               (call_kwargs_raises _ _ _ _ _ _ Hbind)).
    split; reflexivity.
Qed.

(** X13. When the arguments of the first tool call decode to a value that is
    no mapping (a list, a number, a text, [null]), a branch that passes them
    on as keywords raises a [TypeError] that the dispatcher catches:
    [get_ai_response] returns [Error: ] and the message after the model call
    and no other. *)
Theorem arguments_that_are_no_mapping {RT : Runtime} (prompt : string)
    (w w1 : world) (answer : ChatResponse) (choice : Choice)
    (rest : list Choice) (tc : ToolCall) (more : list ToolCall)
    (args : pyval) :
  choices answer = choice :: rest ->
  tool_calls (message choice) = Calls (tc :: more) ->
  json_loads (arguments (function tc)) = Returns args ->
  (forall kw, args <> VDict kw) ->
  (In (fn_name (function tc)) Unified.branch_names ->
   Unified.passes_kwargs (fn_name (function tc)) = true ->
   remote (unified_request prompt) w = (Returns answer, w1) ->
   exists msg,
     Unified.get_ai_response prompt w
     = {| value := Returns (Some ("Error: " ++ msg));
          final := w1;
          calls := [returned (unified_request prompt)];
          output := [] |})
  /\ (In (fn_name (function tc)) App.branch_names ->
      remote (app_request prompt) w = (Returns answer, w1) ->
      exists msg,
        value (App.get_ai_response prompt w)
        = Returns (Some ("Error: " ++ msg))
        /\ calls (App.get_ai_response prompt w)
           = [returned (app_request prompt)]).
Proof.
  intros Hc Ht Hj Hn. split.
  - intros Hb Hp Hm.
    destruct (unified_branch_binds _ args Hb Hp) as [sig [body [_ Hd]]].
    destruct (bind_kwargs_no_mapping (fn_name (function tc)) sig args Hn)
      as [msg Hbind].
    exists msg.
    exact (unified_branch_raises _ _ _ _ _ _ _ _ _ _ _ Hm Hc Ht Hj Hd
             (call_kwargs_raises _ _ _ _ _ _ Hbind)).
  - intros Hb Hm.
    destruct (app_branch_binds _ args Hb) as [sig [body [_ Hd]]].
    destruct (bind_kwargs_no_mapping (fn_name (function tc)) sig args Hn)
      as [msg Hbind].
    exists msg.
    rewrite (app_branch_raises _ _ _ _ _ _ _ _ _ _ _ Hm Hc Ht Hj Hd
               (call_kwargs_raises _ _ _ _ _ _ Hbind)).
    split; reflexivity.
Qed.

(** X14. The branches of [list_jira_projects] and [list_confluence_spaces]
    call their handler without arguments: once the payload of the tool call
    decodes, to a mapping or to anything else, the dispatcher of
    [unified_app.py] makes the model call and then the one call of the
    handler, [jira.projects()] or [confluence.get_all_spaces()], and the text
    the handler returns is the text the dispatcher returns. *)
Theorem argumentless_tools_ignore_arguments {RT : Runtime} (prompt : string)
    (w w1 : world) (answer : ChatResponse) (choice : Choice)
    (rest : list Choice) (tc : ToolCall) (more : list ToolCall)
    (args : pyval) :
  remote (unified_request prompt) w = (Returns answer, w1) ->
  choices answer = choice :: rest ->
  tool_calls (message choice) = Calls (tc :: more) ->
  json_loads (arguments (function tc)) = Returns args ->
  (fn_name (function tc) = "list_jira_projects" ->
   requests (Unified.get_ai_response prompt w)
   = [unified_request prompt; jira_projects]
   /\ forall text,
        value (Unified.list_jira_projects w1) = Returns text ->
        value (Unified.get_ai_response prompt w) = Returns (Some text))
  /\ (fn_name (function tc) = "list_confluence_spaces" ->
      requests (Unified.get_ai_response prompt w)
      = [unified_request prompt; confluence_get_all_spaces]
      /\ forall text,
           value (Unified.list_confluence_spaces w1) = Returns text ->
           value (Unified.get_ai_response prompt w) = Returns (Some text)).
Proof.
  intros Hm Hc Ht Hj. split; intros Hf.
  - assert (Hd : Unified.dispatch (fn_name (function tc)) args
                 = Some Unified.list_jira_projects)
      by (rewrite Hf; reflexivity).
    rewrite (unified_runs_handler _ _ _ _ _ _ _ _ _ _ Hm Hc Ht Hj Hd).
    split.
    + unfold requests. cbn [calls map ev_request returned].
      f_equal. apply (proj1 (argumentless_requests w1)).
    + intros text Hv. cbn [value]. unfold reported. rewrite Hv. reflexivity.
  - assert (Hd : Unified.dispatch (fn_name (function tc)) args
                 = Some Unified.list_confluence_spaces)
      by (rewrite Hf; reflexivity).
    rewrite (unified_runs_handler _ _ _ _ _ _ _ _ _ _ Hm Hc Ht Hj Hd).
    split.
    + unfold requests. cbn [calls map ev_request returned].
      f_equal. apply (proj2 (argumentless_requests w1)).
    + intros text Hv. cbn [value]. unfold reported. rewrite Hv. reflexivity.
Qed.

(** X15. A tool call that leaves the optional parameters out gets the
    defaults of the handler's signature: at most 100 users and channels are
    asked for, 10 messages of a channel's history, a Jira issue has an empty
    description and the type [Task], and a repository an empty description
    and is public. *)
Theorem omitted_arguments_take_defaults {RT : Runtime} (a b : pyval)
    (w : world) :
  (forall h,
     Unified.dispatch "slack_get_users" (VDict []) = Some h ->
     requests (h w) = [users_list (VInt 100)])
  /\ (forall h,
        Unified.dispatch "slack_list_channels" (VDict []) = Some h ->
        requests (h w) = [conversations_list (VInt 100)])
  /\ (forall h,
        Unified.dispatch "slack_get_channel_history"
          (VDict [("channel_id", a)]) = Some h ->
        requests (h w) = [conversations_history a (VInt 10)])
  /\ (forall h,
        Unified.dispatch "create_jira_issue"
          (VDict [("project_key", a); ("summary", b)]) = Some h ->
        requests (h w) = [jira_create_issue a b (VStr "") (VStr "Task")])
  /\ (forall h user w1,
        Unified.dispatch "create_repository" (VDict [("name", a)]) = Some h
        \/ App.dispatch "create_repository" (VDict [("name", a)]) = Some h ->
        remote (gh_get_user None) w = (Returns user, w1) ->
        requests (h w)
        = [ gh_get_user None;
            user_create_repo user a (VStr "") (VBool false) ]).
Proof.
  repeat split.
  - intros h H.
    change (Some (Unified.slack_get_users (VInt 100)) = Some h) in H.
    injection H as <-. unfold_handlers. monad_unfold.
    rewrite min_200_int. run_remote; repeat run_builtin; reflexivity.
  - intros h H.
    change (Some (Unified.slack_list_channels (VInt 100)) = Some h) in H.
    injection H as <-. unfold_handlers. monad_unfold.
    rewrite min_200_int. run_remote; repeat run_builtin; reflexivity.
  - intros h H.
    change (Some (Unified.slack_get_channel_history a (VInt 10)) = Some h)
      in H.
    injection H as <-. unfold_handlers. monad_unfold.
    run_remote; repeat run_builtin; reflexivity.
  - intros h H.
    change (Some (Unified.create_jira_issue a b (VStr "") (VStr "Task"))
            = Some h) in H.
    injection H as <-. unfold_handlers. monad_unfold.
    run_remote; reflexivity.
  - intros h user w1 [H | H] Hm.
    + change (Some (Unified.create_repository a (VStr "") (VBool false))
              = Some h) in H.
      injection H as <-. unfold_handlers. monad_unfold.
      rewrite Hm. cbn [fst snd raised_of]. run_remote; reflexivity.
    + change (Some (App.create_repository a (VStr "") (VBool false))
              = Some h) in H.
      injection H as <-. unfold_handlers. monad_unfold.
      rewrite Hm. cbn [fst snd raised_of]. run_remote; reflexivity.
Qed.

Section Texts.

Lemma append_nil_r (s : string) : s ++ "" = s.
Proof. induction s as [ | c s IH]; [reflexivity | ]. cbn. f_equal. exact IH. Qed.

Lemma append_snoc (a : string) (c : ascii) (b : string) :
  (a ++ String c "") ++ b = a ++ String c b.
Proof. induction a as [ | x a IH]; [reflexivity | ]. cbn. f_equal. exact IH. Qed.

Lemma list_ascii_app (a b : string) :
  list_ascii_of_string (a ++ b)
  = (list_ascii_of_string a ++ list_ascii_of_string b)%list.
Proof. induction a as [ | x a IH]; [reflexivity | ]. cbn. f_equal. exact IH. Qed.

Lemma prefix_nil (s : string) : String.prefix "" s = true.
Proof. destruct s; reflexivity. Qed.

Lemma prefix_app (p s : string) : String.prefix p (p ++ s) = true.
Proof.
  induction p as [ | c p IH]; [apply prefix_nil | ].
  cbn [String.append String.prefix].
  destruct (ascii_dec c c) as [_ | N]; [exact IH | contradiction].
Qed.

(** Two prefixes of one text: one is a prefix of the other. *)
Lemma prefix_both (s p q : string) :
  Str.startswith s p = true -> Str.startswith s q = true ->
  Str.startswith q p = true \/ Str.startswith p q = true.
Proof.
  unfold Str.startswith. revert s q.
  induction p as [ | a p IH]; intros s q Hp Hq.
  - left. apply prefix_nil.
  - destruct q as [ | b q]; [right; reflexivity | ].
    destruct s as [ | c s]; [discriminate Hp | ].
    cbn [String.prefix] in *.
    destruct (ascii_dec a c) as [-> | ]; [ | discriminate Hp].
    destruct (ascii_dec b c) as [-> | ]; [ | discriminate Hq].
    destruct (ascii_dec c c) as [_ | N]; [ | contradiction].
    destruct (IH s q Hp Hq) as [H | H]; [left | right]; exact H.
Qed.

(** [basename] yields no slash. *)
Lemma basename_go_no_slash (cur s : string) :
  ~ mentions "/" cur -> ~ mentions "/" (Str.basename_go cur s).
Proof.
  revert cur. induction s as [ | c s IH]; intros cur H; [exact H | ].
  cbn [Str.basename_go]. destruct (Ascii.eqb c "/") eqn:E.
  - apply IH. intros [].
  - apply IH. unfold mentions. rewrite list_ascii_app. intros Hin.
    apply in_app_or in Hin as [Hin | Hin]; [exact (H Hin) | ].
    destruct Hin as [Hin | []]. subst c.
    rewrite Ascii.eqb_refl in E. discriminate E.
Qed.

Lemma basename_no_slash (s : string) : ~ mentions "/" (Str.basename s).
Proof. apply basename_go_no_slash. intros []. Qed.

(** [split] on a text in which the separator does not occur. *)
Lemma split_go_none (sep : string) (m : option nat) (s cur : string) :
  String.index 0 sep s = None -> Str.split_go sep m 0 cur s = [cur ++ s].
Proof.
  revert cur. induction s as [ | c s IH]; intros cur H.
  - cbn [Str.split_go]. rewrite append_nil_r. reflexivity.
  - cbn [String.index] in H.
    destruct (String.prefix sep (String c s)) eqn:P; [discriminate H | ].
    destruct (String.index 0 sep s) eqn:I; [discriminate H | ].
    cbn [Str.split_go]. rewrite P, andb_false_r.
    rewrite (IH _ eq_refl). rewrite append_snoc. reflexivity.
Qed.

Lemma split_none (sep s : string) (m : option nat) :
  String.index 0 sep s = None -> Str.split s sep m = [s].
Proof. intros H. unfold Str.split. rewrite (split_go_none _ _ _ _ H). reflexivity. Qed.

Lemma split_go_skip (sep : string) (m : option nat) (x s cur : string) :
  Str.split_go sep m (String.length x) cur (x ++ s)
  = Str.split_go sep m 0 cur s.
Proof.
  induction x as [ | c x IH]; [reflexivity | ].
  cbn [String.length String.append Str.split_go]. exact IH.
Qed.

Lemma split_go_spent (sep s cur : string) :
  Str.split_go sep (Some 0%nat) 0 cur s = [cur ++ s].
Proof.
  revert cur. induction s as [ | c s IH]; intros cur.
  - cbn [Str.split_go]. rewrite append_nil_r. reflexivity.
  - cbn [Str.split_go andb]. rewrite IH, append_snoc. reflexivity.
Qed.

(** [split] with [maxsplit = 1] cuts at the first occurrence of the
    separator. *)
Lemma split_go_first (sep a b cur : string) :
  sep <> "" ->
  String.index 0 sep (a ++ sep ++ b) = Some (String.length a) ->
  Str.split_go sep (Some 1%nat) 0 cur (a ++ sep ++ b) = [cur ++ a; b].
Proof.
  intros Hs. revert cur. induction a as [ | c a IH]; intros cur H.
  - destruct sep as [ | c0 sep]; [contradiction | ].
    cbn [String.append]. cbn [Str.split_go].
    change (String c0 (sep ++ b)) with (String c0 sep ++ b).
    rewrite prefix_app. cbn [andb option_map Nat.pred String.length].
    rewrite split_go_skip, split_go_spent, append_nil_r. reflexivity.
  - cbn [String.append String.length] in H. cbn [String.index] in H.
    destruct (String.prefix sep (String c (a ++ sep ++ b))) eqn:P;
      [discriminate H | ].
    destruct (String.index 0 sep (a ++ sep ++ b)) as [n | ] eqn:I;
      [ | discriminate H].
    injection H as ->.
    cbn [String.append]. cbn [Str.split_go]. rewrite P, andb_false_r.
    rewrite (IH _ eq_refl). rewrite append_snoc. reflexivity.
Qed.

End Texts.

(** The branch of [respond] that a line selects, [H] being the test the line
    passes. *)
Ltac select_branch H :=
  unfold Unified.respond; cbv zeta;
  repeat lazymatch goal with
    | |- context [if String.eqb ?l "list channels" then _ else _] =>
        let E := fresh "E" in
        destruct (String.eqb_spec l "list channels") as [E | _];
        [ exfalso; rewrite E in H; vm_compute in H; discriminate H | ]
    | |- context [if Str.startswith ?l ?p then _ else _] =>
        first
          [ rewrite H; cbv iota
          | let P := fresh "P" in
            let X := fresh "X" in
            destruct (Str.startswith l p) eqn:P;
            [ exfalso; destruct (prefix_both _ _ _ H P) as [X | X];
              vm_compute in X; discriminate X
            | ] ]
    end.

Section Commands.
Context {RT : Runtime}.

Lemma total_some {A : Type} (m : M A) w :
  total m ->
  exists a, value (bind m (fun response => ret (Some response)) w)
            = Returns (Some a).
Proof.
  intros H. destruct (H w) as [a Ha]. exists a.
  unfold bind. rewrite Ha. reflexivity.
Qed.

Lemma total_or_usage body usage : total (Unified.or_usage body usage).
Proof. apply total_try. intros e w. eexists. reflexivity. Qed.

(** The three commands whose branch is a [try] with a bare [except]. *)
Lemma guarded_command_responds user_input w :
  Unified.is_shortcut user_input = true ->
  Str.lower user_input <> "list channels" ->
  Str.startswith (Str.lower user_input) "send message" = false ->
  exists text, value (Unified.respond user_input w) = Returns (Some text).
Proof.
  unfold Unified.is_shortcut, Unified.respond. cbv zeta. intros H Hn Hs.
  destruct (String.eqb_spec (Str.lower user_input) "list channels")
    as [E | _]; [contradiction | ].
  rewrite Hs in *.
  destruct (Str.startswith _ "reply").
  { apply total_some, total_or_usage. }
  destruct (Str.startswith _ "add reaction").
  { apply total_some, total_or_usage. }
  destruct (Str.startswith _ "show history").
  { apply total_some, total_or_usage. }
  discriminate H.
Qed.

Lemma respond_list_channels user_input :
  Str.lower user_input = "list channels" ->
  Unified.respond user_input
  = (response <- Unified.slack_list_channels (VInt 100) ;;
     ret (Some response)).
Proof.
  intros Hl. unfold Unified.respond. cbv zeta.
  rewrite Hl, String.eqb_refl. reflexivity.
Qed.

(** [slack_list_channels] and [slack_get_channel_history] let through what
    is no [SlackApiError]. *)
Lemma list_channels_raises w e w1 :
  remote (conversations_list (VInt 100)) w = (Raises e, w1) ->
  is_SlackApiError e = false ->
  Unified.slack_list_channels (VInt 100) w
  = {| value := Raises e;
       final := w1;
       calls := [failed (conversations_list (VInt 100)) e];
       output := [] |}.
Proof.
  intros Hm He. unfold Unified.slack_list_channels. monad_unfold.
  rewrite min_200_int. change (Z.min 100 200) with 100.
  rewrite Hm. cbn [fst snd raised_of].
  destruct e; [discriminate He | reflexivity].
Qed.







End Commands.

(** X16. The path under which [upload_file] of [app.py] creates the file in
    the repository is the base name of the local path: it holds no slash. The
    file goes to the branch [main] with the commit message given, and its
    creation is the last of three calls, after the repository was looked up
    and the local file read. *)
Theorem upload_file_creates_base_name {RT : Runtime}
    (repo_name commit_message : pyval) (file_path : string) (w : world)
    (r : GhRepo) (path : string) (message : pyval) (content branch : string) :
  In (repo_create_file r path message content branch)
     (requests (App.upload_file repo_name (VStr file_path) commit_message w)) ->
  path = Str.basename file_path
  /\ ~ mentions "/" path
  /\ message = commit_message
  /\ branch = "main"
  /\ requests (App.upload_file repo_name (VStr file_path) commit_message w)
     = [ gh_get_repo repo_name; open_read (VStr file_path);
         repo_create_file r path message content branch ].
Proof.
  unfold App.upload_file, py_basename. monad_unfold.
  repeat run_remote; cbn [map ev_request app In]; intros H.
  all: repeat match type of H with
         | _ \/ _ => destruct H as [H | H]
         | False => destruct H
         end; try discriminate H.
  all: injection H as <- <- <- <- <-.
  all: repeat split; apply basename_no_slash.
Qed.

(** X17. The commands [reply], [add reaction] and [show history] never end
    the session: their branch is a [try] with a bare [except], so whatever
    the Slack client answers or raises and however the line is formed, the
    branch yields a text and the iteration returns after printing it. *)
Theorem guarded_commands_never_raise {RT : Runtime} (user_input : string)
    (w : world) :
  Unified.is_shortcut user_input = true ->
  Str.lower user_input <> "list channels" ->
  Str.startswith (Str.lower user_input) "send message" = false ->
  exists text,
    value (Unified.respond user_input w) = Returns (Some text)
    /\ value (Unified.turn user_input w) = Returns tt.
Proof.
  intros H Hn Hs.
  destruct (guarded_command_responds user_input w H Hn Hs) as [text Hv].
  exists text. split; [exact Hv | ].
  generalize (unified_turn_prints user_input w). rewrite Hv.
  intros [Ht _]. exact Ht.
Qed.

(** X18. [list channels] can end the session: when
    the Slack client raises an exception that is no [SlackApiError] on the
    listing, for at most 100 channels, [slack_list_channels] does not catch
    it, and the loop raises it without reading a further line. *)
Theorem list_channels_failure_ends_session {RT : Runtime}
    (user_input : string) (stdin : list string) (w w1 : world) (e : exn) :
  Str.lower user_input = "list channels" ->
  remote (conversations_list (VInt 100)) w = (Raises e, w1) ->
  is_SlackApiError e = false ->
  Unified.loop (user_input :: stdin) w
  = {| value := Raises e;
       final := w1;
       calls := [failed (conversations_list (VInt 100)) e];
       output := [newline ++ "You: "] |}.
Proof.
  intros Hl Hm He.
  assert (Hs : Unified.is_shortcut user_input = true)
    by (unfold Unified.is_shortcut; rewrite Hl; reflexivity).
  rewrite (unified_loop_step _ _ _ (shortcut_is_not_quit _ Hs)).
  unfold iteration, Unified.turn. rewrite (respond_list_channels _ Hl).
  unfold bind. rewrite (list_channels_raises _ _ _ Hm He). reflexivity.
Qed.

(** X19. A command that lacks its separator is answered with the text on its
    format, and nothing is sent to Slack or to the model: [send message]
    without [ to ], [reply] without [ to thread ] and [add reaction] without
    [ to message ]. *)
Theorem malformed_commands_get_usage {RT : Runtime} (user_input : string)
    (w : world) :
  (Str.startswith (Str.lower user_input) "send message" = true ->
   String.index 0 " to " user_input = None ->
   Unified.respond user_input w = ret (Some Unified.usage_send) w)
  /\ (Str.startswith (Str.lower user_input) "reply" = true ->
      String.index 0 " to thread " user_input = None ->
      Unified.respond user_input w = ret (Some Unified.usage_reply) w)
  /\ (Str.startswith (Str.lower user_input) "add reaction" = true ->
      String.index 0 " to message " user_input = None ->
      Unified.respond user_input w = ret (Some Unified.usage_reaction) w).
Proof.
  repeat split; intros H Hi; select_branch H;
    rewrite (split_none _ _ _ Hi); reflexivity.
Qed.

(** X20. For a line of ASCII characters, [send message] cuts the line at
    its first [ to ]: what follows it, stripped, is the channel, also when it
    holds a further [ to ]; what precedes it, without the words
    [send message] and stripped, is the text. These two go to
    [slack_post_message]. *)
Theorem send_message_cuts_at_first_to {RT : Runtime} (a b : string)
    (w : world) :
  is_ascii (a ++ " to " ++ b) = true ->
  Str.startswith (Str.lower (a ++ " to " ++ b)) "send message" = true ->
  String.index 0 " to " (a ++ " to " ++ b) = Some (String.length a) ->
  Unified.respond (a ++ " to " ++ b) w
  = (response <- Unified.slack_post_message
                   (VStr (Str.strip b))
                   (VStr (Str.strip (Str.replace a "send message" ""))) ;;
     ret (Some response)) w.
Proof.
  intros _ H Hi. select_branch H. unfold Str.split.
  rewrite (split_go_first " to " a b "" ltac:(discriminate) Hi).
  reflexivity.
Qed.


Section Sessions.
Context {RT : Runtime}.

Lemma model_calls_app l1 l2 :
  model_calls (l1 ++ l2) = (model_calls l1 + model_calls l2)%nat.
Proof. unfold model_calls. rewrite filter_app. apply length_app. Qed.

Lemma model_calls_none evs : no_model_call evs -> model_calls evs = 0%nat.
Proof.
  unfold model_calls. induction 1 as [ | ev evs Hev _ IH]; [reflexivity | ].
  cbn [filter]. rewrite Hev. exact IH.
Qed.

Lemma model_calls_one ev evs r :
  ev_request ev = r -> is_model_call r = true -> no_model_call evs ->
  model_calls (ev :: evs) = 1%nat.
Proof.
  intros He Hr Hn. unfold model_calls. cbn [filter]. rewrite He, Hr.
  cbn [List.length]. f_equal. apply model_calls_none, Hn.
Qed.

Lemma silent_print_wrapped response : silent (App.print_wrapped response).
Proof.
  intros w. destruct response as [text | ]; [ | reflexivity].
  unfold App.print_wrapped. revert w.
  induction (textwrap_wrap text) as [ | line lines IH]; intros w;
    [reflexivity | ].
  cbn [fold_right]. unfold bind, print, write.
  cbn [value final calls and_then app]. apply IH.
Qed.

(** The calls of an iteration are those of the response it computes. *)
Lemma app_turn_calls user_input w :
  calls (App.turn user_input w) = calls (App.get_ai_response user_input w).
Proof.
  unfold App.turn, bind, write. cbn [value final calls output and_then app].
  destruct (value (App.get_ai_response user_input w)); [ | reflexivity].
  cbn [and_then calls]. rewrite silent_print_wrapped. apply app_nil_r.
Qed.

Lemma unified_turn_calls user_input w :
  calls (Unified.turn user_input w) = calls (Unified.respond user_input w).
Proof.
  unfold Unified.turn, bind.
  destruct (Unified.respond user_input w) as [[[text | ] | e] f c o];
    cbn [value final calls output and_then Unified.concat_newline ret raise
         lift print write app];
    rewrite ?app_nil_r; reflexivity.
Qed.

Lemma app_turn_model_calls user_input w :
  model_calls (calls (App.turn user_input w)) = 1%nat.
Proof.
  rewrite app_turn_calls.
  destruct (app_calls_model_first user_input w) as [ev [evs [Hc [Hr Hn]]]].
  rewrite Hc. exact (model_calls_one _ _ _ Hr eq_refl Hn).
Qed.

Lemma unified_turn_model_calls user_input w :
  model_calls (calls (Unified.turn user_input w))
  = if Unified.is_shortcut user_input then 0%nat else 1%nat.
Proof.
  rewrite unified_turn_calls.
  destruct (Unified.is_shortcut user_input) eqn:Hs.
  - apply model_calls_none. apply (shortcut_is_quiet _ Hs).
  - rewrite (respond_without_shortcut _ Hs).
    destruct (unified_calls_model_first user_input w)
      as [ev [evs [Hc [Hr Hn]]]].
    rewrite Hc. exact (model_calls_one _ _ _ Hr eq_refl Hn).
Qed.

Lemma app_session_model_calls stdin w :
  value (App.loop stdin w) = Returns tt ->
  model_calls (calls (App.loop stdin w)) = List.length (before_quit stdin).
Proof.
  revert w. induction stdin as [ | x stdin IH]; intros w H.
  - discriminate H.
  - cbn [before_quit]. destruct (is_quit x) eqn:Hq.
    + rewrite (app_quit _ _ _ Hq). reflexivity.
    + rewrite (app_loop_step _ _ _ Hq) in *. unfold iteration in *.
      pose proof (app_turn_model_calls x w) as Ht.
      destruct (value (App.turn x w)); [ | discriminate H].
      cbn [value calls] in *. rewrite model_calls_app, Ht, (IH _ H).
      reflexivity.
Qed.

Lemma unified_session_model_calls stdin w :
  value (Unified.loop stdin w) = Returns tt ->
  model_calls (calls (Unified.loop stdin w))
  = List.length
      (filter (fun line => negb (Unified.is_shortcut line))
         (before_quit stdin)).
Proof.
  revert w. induction stdin as [ | x stdin IH]; intros w H.
  - discriminate H.
  - cbn [before_quit]. destruct (is_quit x) eqn:Hq.
    + rewrite (unified_quit _ _ _ Hq). reflexivity.
    + rewrite (unified_loop_step _ _ _ Hq) in *. unfold iteration in *.
      pose proof (unified_turn_model_calls x w) as Ht.
      destruct (value (Unified.turn x w)); [ | discriminate H].
      cbn [value calls] in *. rewrite model_calls_app, Ht, (IH _ H).
      cbn [filter]. destruct (Unified.is_shortcut x); reflexivity.
Qed.

End Sessions.

(** X22. A session that ends by a quit token has called the model once for
    each line before that token in [app.py], and once for each such line that
    is no command shortcut in [unified_app.py]; what follows the token adds
    nothing. *)
Theorem one_model_call_per_line {RT : Runtime} (stdin : list string)
    (w : world) :
  (value (App.loop stdin w) = Returns tt ->
   model_calls (calls (App.loop stdin w)) = List.length (before_quit stdin))
  /\ (value (Unified.loop stdin w) = Returns tt ->
      model_calls (calls (Unified.loop stdin w))
      = List.length
          (filter (fun line => negb (Unified.is_shortcut line))
             (before_quit stdin))).
Proof.
  split.
  - apply app_session_model_calls.
  - apply unified_session_model_calls.
Qed.

(** ** Instances *)

(** [create_repository] when the GitHub client is down: one call, which
    raised. *)
Lemma no_call_follows_a_failure_witness :
  let h :=
    @call_kwargs Fixture.offline "create_repository"
      Unified.sig_create_repository (VDict [("name", VStr "demo")])
      (fun a => Unified.create_repository (a "name") (a "description")
                  (a "private")) in
  calls (h tt) = [failed (gh_get_user None) Fixture.boom]
  /\ stops_at_failure (calls (h tt)).
Proof.
  intros h. split; [reflexivity | ].
  exact (@no_call_follows_a_failure Fixture.offline "create_repository"
           (VDict [("name", VStr "demo")]) h tt (or_introl eq_refl)).
Defined.


(** [slack_get_users] requested while the Slack client is down: the handler
    lets the exception through and the dispatcher reports it. *)
Lemma dispatcher_catches_handler_exceptions_witness :
  let RT := Cases.asking_offline "slack_get_users" in
  value (@Unified.slack_get_users RT (VInt 100) tt) = Raises Fixture.boom
  /\ value (@Unified.get_ai_response RT "hi" tt)
     = Returns (Some "Error: boom")
  /\ requests (@Unified.get_ai_response RT "hi" tt)
     = [unified_request "hi"; users_list (VInt 100)].
Proof.
  intros RT. split; [reflexivity | ].
  pose proof (proj1 (proj1 (@dispatcher_catches_handler_exceptions RT "hi" tt)
                       tt {| choices := [Cases.requested "slack_get_users"] |}
                       (Cases.requested "slack_get_users") [] _ _ (VDict [])
                       (@call_kwargs RT "slack_get_users"
                          Unified.sig_slack_get_users (VDict [])
                          (fun a => Unified.slack_get_users (a "limit")))
                       Fixture.boom eq_refl eq_refl eq_refl eq_refl)
                eq_refl eq_refl) as H.
  rewrite H. split; reflexivity.
Defined.

(** An answer without a choice. *)
Lemma empty_choices_are_reported_witness :
  value (@Unified.get_ai_response Cases.no_choice "hi" tt)
  = Returns (Some "Error: list index out of range")
  /\ value (@App.get_ai_response Cases.no_choice "hi" tt)
     = Returns (Some "Error: list index out of range").
Proof.
  pose proof (@empty_choices_are_reported Cases.no_choice "hi" tt tt
                {| choices := [] |} eq_refl) as [HU HA].
  split.
  - rewrite (HU eq_refl). reflexivity.
  - rewrite (HA eq_refl). reflexivity.
Defined.

(** The line [hello], answered without content, with a line after it. *)
Lemma missing_content_ends_session_witness :
  (exists msg,
     value (@Unified.loop Cases.no_content ["hello"; "quit"] tt)
     = Raises (PyError "TypeError" msg))
  /\ (exists msg,
        value (@App.loop Cases.no_content ["hello"; "quit"] tt)
        = Raises (PyError "AttributeError" msg)).
Proof.
  pose proof (@missing_content_ends_session Cases.no_content "hello" ["quit"]
                tt tt (Fixture.responding IsNone None)
                {| message := {| tool_calls := IsNone; content := None |} |}
                [] eq_refl eq_refl eq_refl eq_refl) as [HU HA].
  split.
  - destruct (HU eq_refl eq_refl) as [msg H]. exists msg. rewrite H.
    reflexivity.
  - destruct (HA eq_refl) as [msg H]. exists msg. rewrite H. reflexivity.
Defined.

(** An input of one line that is no quit token. *)
Lemma loop_leaves_only_by_quit_witness :
  (exists e, value (@Unified.loop Fixture.chatty ["hello"] tt) = Raises e)
  /\ (exists e, value (@App.loop Fixture.chatty ["hello"] tt) = Raises e).
Proof.
  assert (H : forall line, In line ["hello"] -> is_quit line = false)
    by (intros line [<- | []]; reflexivity).
  destruct (@loop_leaves_only_by_quit Fixture.chatty ["hello"] tt H)
    as [[e [He _]] [e' [He' _]]].
  split; [exists e; exact He | exists e'; exact He'].
Defined.

(** A channel that is a number. *)
Lemma channel_that_is_no_text_witness :
  value (@Unified.send_slack_message Fixture.chatty (VInt 5) (VStr "hi") tt)
  = Returns "Error: 'int' object has no attribute 'startswith'"
  /\ calls (@Unified.slack_post_message Fixture.chatty (VInt 5) (VStr "hi") tt)
     = [].
Proof.
  assert (H : forall s, VInt 5 <> VStr s) by (intros s; discriminate).
  destruct (@channel_that_is_no_text Fixture.chatty (VInt 5) (VStr "hi") tt H)
    as [H1 H2].
  split; [rewrite H1 | rewrite H2]; reflexivity.
Defined.

(** A direct message when the Slack client answers. *)
Lemma direct_message_opens_conversation_witness :
  requests (@Unified.send_slack_message Fixture.chatty (VStr "D123")
              (VStr "hi") tt)
  = [ conversations_open [VStr "D123"];
      chat_postMessage (VStr "D024BE91L") None (VStr "hi") ].
Proof.
  exact (proj2 (proj1 (@direct_message_opens_conversation Fixture.chatty
                         "D123" (VStr "hi") tt tt
                         (Fixture.slack_ok "D024BE91L"))
                  eq_refl eq_refl) eq_refl).
Defined.

(** The history of a channel when the Slack client refuses. *)
Lemma slack_refusal_is_reported_witness :
  value (@Unified.slack_get_channel_history Cases.refusing (VStr "general")
           (VInt 10) tt)
  = Returns "Error getting history: ratelimited".
Proof.
  pose proof (@slack_refusal_is_reported Cases.refusing tt tt (VStr "general")
                (VInt 10) VNone) as [_ [_ [_ [_ [H _]]]]].
  rewrite (H (Cases.slack_refused []) eq_refl eq_refl). reflexivity.
Defined.

(** [slack_get_users] called with a [username]. *)
Lemma unexpected_keyword_is_reported_witness :
  exists msg,
    value (@Unified.get_ai_response
             (Fixture.asking "slack_get_users" Fixture.octocat_payload None)
             "hi" tt)
    = Returns (Some ("Error: " ++ msg)).
Proof.
  destruct (proj1 (@unexpected_keyword_is_reported
                     (Fixture.asking "slack_get_users" Fixture.octocat_payload
                        None)
                     "hi" tt tt
                     (asked_answer "slack_get_users" Fixture.octocat_payload
                        None)
                     (asked "slack_get_users" Fixture.octocat_payload None)
                     [] _ _ [("username", VStr "octocat")]
                     Unified.sig_slack_get_users "username" (VStr "octocat")
                     eq_refl eq_refl eq_refl (or_introl eq_refl) eq_refl)
             ltac:(cbn [In Unified.branch_names]; tauto)
             eq_refl eq_refl eq_refl) as [msg H].
  exists msg. rewrite H. reflexivity.
Defined.

(** [create_repository] called with a list for its arguments. *)
Lemma arguments_that_are_no_mapping_witness :
  exists msg,
    value (@Unified.get_ai_response
             (Cases.decoding "create_repository" (VList [])) "hi" tt)
    = Returns (Some ("Error: " ++ msg)).
Proof.
  assert (Hn : forall kw, VList [] <> VDict kw) by (intros kw; discriminate).
  destruct (proj1 (@arguments_that_are_no_mapping
                     (Cases.decoding "create_repository" (VList []))
                     "hi" tt tt
                     {| choices := [Cases.requested "create_repository"] |}
                     (Cases.requested "create_repository") [] _ _ (VList [])
                     eq_refl eq_refl eq_refl Hn)
             (or_introl eq_refl) eq_refl eq_refl) as [msg H].
  exists msg. rewrite H. reflexivity.
Defined.

(** [list_jira_projects] called with a number for its arguments. *)
Lemma argumentless_tools_ignore_arguments_witness :
  let RT := Cases.decoding "list_jira_projects" (VInt 3) in
  requests (@Unified.get_ai_response RT "hi" tt)
  = [unified_request "hi"; jira_projects]
  /\ value (@Unified.get_ai_response RT "hi" tt)
     = Returns (Some (Unified.bullet ++ "PROJ: No name")).
Proof.
  intros RT.
  destruct (proj1 (@argumentless_tools_ignore_arguments RT "hi" tt tt
                     {| choices := [Cases.requested "list_jira_projects"] |}
                     (Cases.requested "list_jira_projects") [] _ _ (VInt 3)
                     eq_refl eq_refl eq_refl eq_refl) eq_refl)
    as [Hr Hv].
  split; [exact Hr | exact (Hv _ eq_refl)].
Defined.

(** [slack_get_channel_history] called with a channel alone. *)
Lemma omitted_arguments_take_defaults_witness :
  requests
    (@call_kwargs Fixture.chatty "slack_get_channel_history"
       Unified.sig_slack_get_channel_history
       (VDict [("channel_id", VStr "C1")])
       (fun a => Unified.slack_get_channel_history (a "channel_id")
                   (a "limit")) tt)
  = [conversations_history (VStr "C1") (VInt 10)].
Proof.
  pose proof (@omitted_arguments_take_defaults Fixture.chatty (VStr "C1")
                VNone tt) as [_ [_ [H _]]].
  exact (H _ eq_refl).
Defined.

(** The upload of [/tmp/run.py]. *)
Lemma upload_file_creates_base_name_witness :
  requests (@App.upload_file Fixture.chatty (VStr "octocat/hello")
              (VStr "/tmp/run.py") (VStr "Add run") tt)
  = [ gh_get_repo (VStr "octocat/hello"); open_read (VStr "/tmp/run.py");
      repo_create_file Fixture.a_repo "run.py" (VStr "Add run") "print(1)"
        "main" ].
Proof.
  assert (H : In (repo_create_file Fixture.a_repo "run.py" (VStr "Add run")
                    "print(1)" "main")
                 (requests (@App.upload_file Fixture.chatty
                              (VStr "octocat/hello") (VStr "/tmp/run.py")
                              (VStr "Add run") tt)))
    by (right; right; left; reflexivity).
  exact (proj2 (proj2 (proj2 (proj2
           (@upload_file_creates_base_name Fixture.chatty _ _ _ _ _ _ _ _ _
              H))))).
Defined.

(** A [reply] that is well formed, while the Slack client is down: the
    answer is the text on the format. *)
Lemma guarded_commands_never_raise_witness :
  exists text,
    value (@Unified.respond Fixture.offline
             "reply hi to thread 12.34 in general" tt)
    = Returns (Some text)
    /\ value (@Unified.turn Fixture.offline
                "reply hi to thread 12.34 in general" tt) = Returns tt.
Proof.
  assert (Hn : Str.lower "reply hi to thread 12.34 in general"
               <> "list channels") by discriminate.
  exact (@guarded_commands_never_raise Fixture.offline
           "reply hi to thread 12.34 in general" tt eq_refl Hn eq_refl).
Defined.

(** [List Channels] while the Slack client is down. *)
Lemma list_channels_failure_ends_session_witness :
  value (@Unified.loop Fixture.offline ["List Channels"; "quit"] tt)
  = Raises Fixture.boom.
Proof.
  rewrite (@list_channels_failure_ends_session Fixture.offline "List Channels"
             ["quit"] tt tt Fixture.boom eq_refl eq_refl eq_refl).
  reflexivity.
Defined.

(** [send message hello], which names no channel. *)
Lemma malformed_commands_get_usage_witness :
  value (@Unified.respond Fixture.chatty "send message hello" tt)
  = Returns (Some Unified.usage_send).
Proof.
  rewrite (proj1 (@malformed_commands_get_usage Fixture.chatty
                    "send message hello" tt) eq_refl eq_refl).
  reflexivity.
Defined.

(** A message that holds [ to ] itself: it is cut short and the rest goes to
    the channel. *)
Lemma send_message_cuts_at_first_to_witness :
  requests (@Unified.respond Fixture.chatty
              "send message go to lunch to general" tt)
  = [chat_postMessage (VStr "lunch to general") None (VStr "go")].
Proof.
  change "send message go to lunch to general"
    with ("send message go" ++ " to " ++ "lunch to general").
  rewrite (@send_message_cuts_at_first_to Fixture.chatty "send message go"
             "lunch to general" tt eq_refl eq_refl eq_refl).
  reflexivity.
Defined.


(** A session of three lines before [quit], one of them a shortcut. *)
Lemma one_model_call_per_line_witness :
  let stdin := ["hello"; "list channels"; "again"; "QUIT"; "more"] in
  model_calls (calls (@App.loop Fixture.chatty stdin tt)) = 3%nat
  /\ model_calls (calls (@Unified.loop Fixture.chatty stdin tt)) = 2%nat.
Proof.
  intros stdin.
  pose proof (@one_model_call_per_line Fixture.chatty stdin tt) as [HA HU].
  split.
  - rewrite (HA eq_refl). reflexivity.
  - rewrite (HU eq_refl). reflexivity.
Defined.
